(** * Retrieval-and-ranking core of the LLM query system

    A shallow embedding of the chunker ([utils/document_parser.py]), the
    vector index and retriever ([core/embedding_service.py]), the reranker
    ([core/reranking_service.py]), the answer fallback
    ([core/llm_service.py]) and the orchestrator
    ([core/query_processor.py]), with the properties of the specification
    stated and settled against these definitions.

    Conventions.
    - Python [int] is [Z]; [len] is [Z.of_nat (length _)].
    - Python [str] is [string]; a character is a code point below 256.
    - A Python [float] is the rational number it holds ([Q]). The
      arithmetic of the reranker is double precision: every literal,
      product and sum is rounded to the nearest binary64 number, ties to
      even ([Float64]); infinities, NaN and the sign of zero are left out.
      The scores of the models are taken as they are returned, the inner
      products of the index are exact, and the constants of the answer
      fallback are the decimals as they are written.
    - A Python [dict] with optional keys is a record with [option] fields;
      the dictionary keyed by slot number is a [gmap Z].
    - A raised exception is the left injection of [result]; a method
      that updates its object takes the object and returns it with the
      result.
    - A constructor of a model that runs at initialisation is a parameter
      that gives the loaded model or the exception it raises. *)

From Stdlib Require Import QArith Qabs.
From stdpp Require Import gmap strings list fin_maps pretty sorting.

Local Open Scope string_scope.
Local Open Scope list_scope.
Local Open Scope Z_scope.

(** ** Python runtime fragments used by the sources *)

Module Py.

Inductive exn : Type :=
  | TypeError
  | ValueError
  | KeyError
  | AttributeError
  | AssertionError
  | ImportError
  | IndexError
  | OSError.

Definition result (A : Type) : Type := exn + A.

Definition ret {A} (a : A) : result A := inr a.
Definition raise {A} (e : exn) : result A := inl e.

Definition bind {A B} (m : result A) (k : A → result B) : result B :=
  match m with
  | inl e => inl e
  | inr a => k a
  end.

Definition len {A} (l : list A) : Z := Z.of_nat (length l).

(** [str.isspace] on the code points below 256. *)
Definition isspace (c : Ascii.ascii) : bool :=
  let n := Z.of_N (Ascii.N_of_ascii c) in
  ((9 <=? n) && (n <=? 13)) || ((28 <=? n) && (n <=? 32))
  || (n =? 133) || (n =? 160).

Definition str_is_empty (s : string) : bool :=
  match s with EmptyString => true | String _ _ => false end.

(** [str.split()] without a separator: maximal runs of non-whitespace.
    [w] is the word being read. *)
Fixpoint split_from (w : string) (s : string) : list string :=
  match s with
  | EmptyString => if str_is_empty w then [] else [w]
  | String c s' =>
      if isspace c
      then (if str_is_empty w then split_from EmptyString s'
            else w :: split_from EmptyString s')
      else split_from (w +:+ String c EmptyString) s'
  end.

Definition split (s : string) : list string := split_from EmptyString s.

(** [str.strip()]: whitespace removed at both ends. *)
Fixpoint lstrip (s : string) : string :=
  match s with
  | EmptyString => EmptyString
  | String c s' => if isspace c then lstrip s' else s
  end.

Fixpoint rstrip (s : string) : string :=
  match s with
  | EmptyString => EmptyString
  | String c s' =>
      let r := rstrip s' in
      if str_is_empty r && isspace c then EmptyString else String c r
  end.

Definition strip (s : string) : string := rstrip (lstrip s).

(** [sep.join(l)]. *)
Fixpoint join (sep : string) (l : list string) : string :=
  match l with
  | [] => EmptyString
  | w :: l' =>
      match l' with
      | [] => w
      | _ :: _ => w +:+ sep +:+ join sep l'
      end
  end.

(** Index normalisation of a slice bound: negative bounds count from the
    end, and the result is clamped to [0, n]. *)
Definition clamp_index (n i : Z) : Z :=
  let i' := if i <? 0 then i + n else i in
  Z.max 0 (Z.min n i').

(** [l[lo:hi]]. *)
Definition slice {A} (l : list A) (lo hi : Z) : list A :=
  let n := len l in
  let lo' := clamp_index n lo in
  let hi' := clamp_index n hi in
  take (Z.to_nat (hi' - lo')) (drop (Z.to_nat lo') l).

(** [l[lo:]]. *)
Definition slice_from {A} (l : list A) (lo : Z) : list A :=
  slice l lo (len l).

(** [l[:hi]]. *)
Definition slice_to {A} (l : list A) (hi : Z) : list A := slice l 0 hi.

(** [range(start, stop, step)] for a positive step; [fuel] bounds the
    number of elements. *)
Fixpoint range_up (fuel : nat) (i stop step : Z) : list Z :=
  match fuel with
  | O => []
  | S fuel' =>
      if i <? stop then i :: range_up fuel' (i + step) stop step else []
  end.

Fixpoint range_down (fuel : nat) (i stop step : Z) : list Z :=
  match fuel with
  | O => []
  | S fuel' =>
      if stop <? i then i :: range_down fuel' (i + step) stop step else []
  end.

(** [range(start, stop, step)]: a zero step raises [ValueError]. *)
Definition range (start stop step : Z) : result (list Z) :=
  if step =? 0 then raise ValueError
  else if 0 <? step
       then ret (range_up (Z.to_nat (stop - start)) start stop step)
       else ret (range_down (Z.to_nat (start - stop)) start stop step).

(** [str.lower()] on the code points below 256. *)
Definition lower_char (c : Ascii.ascii) : Ascii.ascii :=
  let n := Z.of_N (Ascii.N_of_ascii c) in
  if ((65 <=? n) && (n <=? 90)) || ((192 <=? n) && (n <=? 214))
     || ((216 <=? n) && (n <=? 222))
  then Ascii.ascii_of_N (Z.to_N (n + 32))
  else c.

Fixpoint lower (s : string) : string :=
  match s with
  | EmptyString => EmptyString
  | String c s' => String (lower_char c) (lower s')
  end.

(** [s.startswith(p)]. *)
Definition startswith (s p : string) : bool := String.prefix p s.

(** [needle in hay] on strings. *)
Fixpoint contains (needle hay : string) : bool :=
  match hay with
  | EmptyString => str_is_empty needle
  | String _ hay' => String.prefix needle hay || contains needle hay'
  end.

(** [s[:hi]] on strings. *)
Definition str_slice_to (s : string) (hi : Z) : string :=
  let n := Z.of_nat (String.length s) in
  String.substring 0 (Z.to_nat (clamp_index n hi)) s.

(** [min(a, b)]: the first of the two unless the second is smaller. *)
Definition min (a b : Q) : Q := if Qle_bool a b then a else b.

(** [sorted(l, key=key, reverse=True)]: a stable sort by descending key;
    [insert_desc x l] puts [x] in front of the first element whose key is
    not greater, so that an element stays in front of the later elements
    with an equal key. *)
Section sorted.
Context {A : Type} (key : A → Q).

Fixpoint insert_desc (x : A) (l : list A) : list A :=
  match l with
  | [] => [x]
  | y :: l' =>
      if Qle_bool (key y) (key x) then x :: y :: l'
      else y :: insert_desc x l'
  end.

Definition sorted_desc (l : list A) : list A := foldr insert_desc [] l.
End sorted.

(** [x or default] on an optional integer: [None] and [0] are falsy. *)
Definition int_or (x : option Z) (default : Z) : Z :=
  match x with
  | None => default
  | Some v => if v =? 0 then default else v
  end.

(** [s.split(sep)] for a separator of one character: the pieces between
    the separators, the empty ones included. [cur] is the piece being
    read. *)
Fixpoint split_on_from (sep : Ascii.ascii) (cur : string) (s : string)
    : list string :=
  match s with
  | EmptyString => [cur]
  | String c s' =>
      if Ascii.eqb c sep then cur :: split_on_from sep EmptyString s'
      else split_on_from sep (cur +:+ String c EmptyString) s'
  end.

Definition split_on (sep : Ascii.ascii) (s : string) : list string :=
  split_on_from sep EmptyString s.

End Py.

#[global] Instance result_ret : MRet Py.result := @Py.ret.
#[global] Instance result_bind : MBind Py.result :=
  λ A B k m, Py.bind m k.

(** ** Double-precision arithmetic

    The numbers of [float] and the rounding of its literals and
    operations, on rationals: [round prec emin q] is the number with
    [prec] significant bits and an exponent of at least [emin] that is
    nearest to [q], the one with the even last bit when two are as near.
    Magnitudes of [2 ^ 1024] and above, which round to an infinity, do
    not occur in the scores. *)

Module Float64.

(** The integer nearest to [q], the even one of two. *)
Definition round_half_even (q : Q) : Z :=
  let n := Qnum q in
  let d := Z.pos (Qden q) in
  let f := n / d in
  match (2 * (n mod d)) ?= d with
  | Lt => f
  | Gt => f + 1
  | Eq => if Z.even f then f else f + 1
  end.

(** [2 ^ e] for every integer [e]. *)
Definition pow2 (e : Z) : Q :=
  if 0 <=? e then inject_Z (2 ^ e) else (1 # Z.to_pos (2 ^ (- e)))%Q.

(** The [p] with [2 ^ p <= |q| < 2 ^ (p + 1)], for [q] other than zero. *)
Definition exponent (q : Q) : Z :=
  let n := Z.abs (Qnum q) in
  let d := Z.pos (Qden q) in
  let k := Z.log2 n - Z.log2 d in
  if Qle_bool (pow2 k) (Qabs q) then k else k - 1.

Definition round (prec emin : Z) (q : Q) : Q :=
  if Qeq_bool q 0 then 0%Q
  else
    let e := Z.max (exponent q - (prec - 1)) emin in
    Qred (inject_Z (round_half_even (q / pow2 e)) * pow2 e).

(** The [float] a decimal literal denotes, and the result of an operation
    whose exact value is [q]. *)
Definition of_Q : Q → Q := round 53 (-1074).

(** The single-precision number nearest to [q]: what an array of
    [float32] holds. *)
Definition single : Q → Q := round 24 (-149).

(** [a * b] and [a + b] on [float]. *)
Definition mul (a b : Q) : Q := of_Q (a * b).
Definition add (a b : Q) : Q := of_Q (a + b).

End Float64.

(** ** config/settings.py *)

Module settings.
Definition MAX_RETRIEVAL_RESULTS : Z := 20.
Definition TOP_K_RERANK : Z := 5.
Definition CHUNK_SIZE : Z := 512.
Definition CHUNK_OVERLAP : Z := 50.
Definition EMBEDDING_MODEL_NAME : string :=
  "sentence-transformers/all-MiniLM-L6-v2".
Definition EMBEDDING_DIMENSION : Z := 384.
End settings.

(** ** utils/document_parser.py: the chunker *)

Module DocumentParser.

(** A chunk dictionary. The chunker fills the first four keys; the
    orchestrator reads [page_number] and [section] with [dict.get]. *)
Record chunk : Type := Chunk {
  chunk_index : Z;
  text : string;
  word_count : Z;
  char_count : Z;
  page_number : option Z;
  section : option string
}.

Definition str_len (s : string) : Z := Z.of_nat (String.length s).

(** The body of the [for i in range(...)] loop of [_simple_chunking],
    run over the values of [i], with the running [chunk_index]. *)
Fixpoint simple_loop (words : list string) (chunk_size : Z)
    (starts : list Z) (idx : Z) : list chunk :=
  match starts with
  | [] => []
  | i :: starts' =>
      let chunk_words := Py.slice words i (i + chunk_size) in
      let chunk_text := Py.join " " chunk_words in
      Chunk idx chunk_text (Py.len chunk_words) (str_len chunk_text)
            None None
      :: simple_loop words chunk_size starts' (idx + 1)
  end.

Definition _simple_chunking (text : string) (chunk_size overlap : Z)
    : Py.result (list chunk) :=
  let words := Py.split text in
  starts ← Py.range 0 (Py.len words) (chunk_size - overlap);
  Py.ret (simple_loop words chunk_size starts 0).

(** [_get_overlap_text]: the last [overlap_words] words, or the text
    itself when it has no more words than that. *)
Definition _get_overlap_text (text : string) (overlap_words : Z) : string :=
  let words := Py.split text in
  if Py.len words <=? overlap_words then text
  else Py.join " " (Py.slice_from words (- overlap_words)).

(** The state of the loop of [_intelligent_chunking]. *)
Record acc : Type := Acc {
  chunks : list chunk;
  current_chunk : string;
  current_size : Z;
  next_index : Z
}.

Definition emit (a : acc) : list chunk :=
  chunks a ++ [Chunk (next_index a) (Py.strip (current_chunk a))
                     (current_size a) (str_len (current_chunk a))
                     None None].

Definition intelligent_step (chunk_size overlap : Z) (a : acc)
    (sentence : string) : acc :=
  let sentence_length := Py.len (Py.split sentence) in
  if (chunk_size <? current_size a + sentence_length)
     && negb (Py.str_is_empty (current_chunk a))
  then
    let overlap_text := _get_overlap_text (current_chunk a) overlap in
    let current := overlap_text +:+ " " +:+ sentence in
    Acc (emit a) current (Py.len (Py.split current)) (next_index a + 1)
  else
    Acc (chunks a) (current_chunk a +:+ " " +:+ sentence)
        (current_size a + sentence_length) (next_index a).

(** [_intelligent_chunking]; [sents] gives the text of the sentences the
    sentence-boundary detector finds. *)
Definition _intelligent_chunking (sents : string → list string)
    (text : string) (chunk_size overlap : Z) : list chunk :=
  let sentences := map Py.strip (sents text) in
  let a := foldl (intelligent_step chunk_size overlap)
                 (Acc [] EmptyString 0 0) sentences in
  if Py.str_is_empty (Py.strip (current_chunk a)) then chunks a
  else emit a.

(** [chunk_text]; [nlp] is the sentence-boundary detector when loaded. *)
Definition chunk_text (nlp : option (string → list string))
    (text : string) (chunk_size overlap : option Z)
    : Py.result (list chunk) :=
  let chunk_size := Py.int_or chunk_size settings.CHUNK_SIZE in
  let overlap := Py.int_or overlap settings.CHUNK_OVERLAP in
  match nlp with
  | Some sents => mret (_intelligent_chunking sents text chunk_size overlap)
  | None => _simple_chunking text chunk_size overlap
  end.

End DocumentParser.


(** ** The FAISS flat inner-product index (external collaborator)

    [IndexFlatIP] keeps the vectors in insertion order; the row number is
    the identifier. [search] returns exactly [k] hits by descending inner
    product, filled with the identifier [-1] when the index holds fewer
    than [k] vectors, and asserts [k > 0]. Hits of equal score are taken
    here in ascending row order. *)

Module Faiss.

Definition vector : Type := list Q.

Definition inner_product (u v : vector) : Q :=
  foldr Qplus 0%Q (zip_with Qmult u v).

(** [index.add(x)] unpacks [n, d = x.shape]. For an empty list of texts
    the encoder returns an array with one axis, of length 0, and the
    unpacking raises [ValueError]; otherwise the rows of [x] are appended. *)
Definition add (ix vs : list vector) : Py.result (list vector) :=
  match vs with
  | [] => Py.raise Py.ValueError
  | _ :: _ => mret (ix ++ vs)
  end.

Definition ntotal (ix : list vector) : Z := Py.len ix.

(** The score FAISS reports next to the identifier [-1]: the lowest
    finite single-precision number. *)
Definition missing_score : Q := inject_Z (- (2 ^ 128 - 2 ^ 104)).

Definition scored (ix : list vector) (q : vector) : list (Q * Z) :=
  imap (λ i v, (inner_product q v, Z.of_nat i)) ix.

Definition search (ix : list vector) (q : vector) (k : Z)
    : Py.result (list (Q * Z)) :=
  if k <=? 0 then Py.raise Py.AssertionError
  else
    let hits := take (Z.to_nat k) (Py.sorted_desc fst (scored ix q)) in
    mret (hits ++ replicate (Z.to_nat k - length hits) (missing_score, -1)).

End Faiss.

(** ** core/embedding_service.py: vector index and retriever *)

Module EmbeddingService.

(** The metadata dictionary of one slot, and of one search result. The
    keys [deleted], [similarity_score], [cross_encoder_score] and
    [combined_score] are absent until they are assigned. *)
Record chunk_info : Type := ChunkInfo {
  chunk_id : string;
  document_id : string;
  chunk_index : Z;
  text : string;
  metadata : DocumentParser.chunk;
  deleted : option bool;
  similarity_score : option Q;
  cross_encoder_score : option Q;
  combined_score : option Q
}.

Definition set_deleted (v : bool) (c : chunk_info) : chunk_info :=
  ChunkInfo (chunk_id c) (document_id c) (chunk_index c) (text c)
            (metadata c) (Some v) (similarity_score c)
            (cross_encoder_score c) (combined_score c).

Definition set_similarity_score (v : Q) (c : chunk_info) : chunk_info :=
  ChunkInfo (chunk_id c) (document_id c) (chunk_index c) (text c)
            (metadata c) (deleted c) (Some v)
            (cross_encoder_score c) (combined_score c).

Definition set_cross_encoder_score (v : Q) (c : chunk_info) : chunk_info :=
  ChunkInfo (chunk_id c) (document_id c) (chunk_index c) (text c)
            (metadata c) (deleted c) (similarity_score c)
            (Some v) (combined_score c).

Definition set_combined_score (v : Q) (c : chunk_info) : chunk_info :=
  ChunkInfo (chunk_id c) (document_id c) (chunk_index c) (text c)
            (metadata c) (deleted c) (similarity_score c)
            (cross_encoder_score c) (Some v).

(** [f"{document_id}_{chunk['chunk_index']}"]. *)
Definition make_chunk_id (document_id : string)
    (chunk : DocumentParser.chunk) : string :=
  document_id +:+ "_" +:+ pretty (DocumentParser.chunk_index chunk).

(** The metadata [add_documents] stores for a chunk. *)
Definition chunk_entry (document_id : string)
    (chunk : DocumentParser.chunk) : chunk_info :=
  ChunkInfo (make_chunk_id document_id chunk) document_id
            (DocumentParser.chunk_index chunk) (DocumentParser.text chunk)
            chunk None None None None.

(** The two files of the persisted index: [None] is a missing file. *)
Record files : Type := Files {
  faiss_file : option string;
  metadata_file : option string
}.

(** The fields of the service object. [model] and [index] are [None]
    until [initialize] has set them. *)
Record t : Type := Service {
  model : option (string → Faiss.vector);
  index : option (list Faiss.vector);
  document_chunks : gmap Z chunk_info;
  is_initialized : bool
}.

Definition set_model (m : option (string → Faiss.vector)) (st : t) : t :=
  Service m (index st) (document_chunks st) (is_initialized st).

Definition set_index (ix : option (list Faiss.vector)) (st : t) : t :=
  Service (model st) ix (document_chunks st) (is_initialized st).

Definition set_document_chunks (dc : gmap Z chunk_info) (st : t) : t :=
  Service (model st) (index st) dc (is_initialized st).

Definition set_is_initialized (b : bool) (st : t) : t :=
  Service (model st) (index st) (document_chunks st) b.

(** [__init__]. *)
Definition new : t := Service None None ∅ false.

(** [len(self.document_chunks)]. *)
Definition slots (st : t) : Z := Z.of_nat (size (document_chunks st)).

Section service.

(** [SentenceTransformer(settings.EMBEDDING_MODEL_NAME)]: the embedding
    model on one text (with [normalize_embeddings=True]), or the
    exception of the constructor. *)
Variable load_model : Py.result (string → Faiss.vector).
(** [faiss.read_index] on the bytes of the index file. *)
Variable read_index : string → Py.result (list Faiss.vector).
(** [json.load] on the metadata file: the items of the object. *)
Variable json_load : string → Py.result (list (string * chunk_info)).
(** [int(k)] on a key of the metadata object. *)
Variable int_of_key : string → Py.result Z.
(** The files under [settings.FAISS_INDEX_PATH]. *)
Variable fs : files.

(** [{int(k): v for k, v in items}]. *)
Fixpoint int_keys (items : list (string * chunk_info))
    (m : gmap Z chunk_info) : Py.result (gmap Z chunk_info) :=
  match items with
  | [] => mret m
  | (k, v) :: rest => i ← int_of_key k; int_keys rest (<[i := v]> m)
  end.

(** The [try] block of [_load_index]: the state reached and whether an
    exception left the block. (The string-keyed dictionary assigned
    between [json.load] and the key conversion is replaced or dropped
    before anything reads it.) *)
Definition _load_index_try (st : t) : t * Py.result () :=
  match faiss_file fs, metadata_file fs with
  | Some faiss_bytes, Some metadata_bytes =>
      match read_index faiss_bytes with
      | inl e => (st, inl e)
      | inr ix =>
          let st1 := set_index (Some ix) st in
          match json_load metadata_bytes ≫= (λ items, int_keys items ∅) with
          | inl e => (st1, inl e)
          | inr dc => (set_document_chunks dc st1, inr ())
          end
      end
  | _, _ => (st, inr ())
  end.

(** [_load_index]: the handler of [except Exception] starts fresh. *)
Definition _load_index (st : t) : t :=
  match _load_index_try st with
  | (st', inr _) => st'
  | (st', inl _) => set_document_chunks ∅ (set_index (Some []) st')
  end.

(** [initialize]: the model is loaded first and outside any handler. *)
Definition initialize (st : t) : t * Py.result () :=
  if is_initialized st then (st, inr ())
  else
    match load_model with
    | inl e => (st, inl e)
    | inr m =>
        let st1 := set_model (Some m) st in
        let st2 := set_index (Some []) st1 in
        let st3 := _load_index st2 in
        (set_is_initialized true st3, inr ())
    end.

(** [self.model.encode(texts, normalize_embeddings=True)]. *)
Definition model_encode (texts : list string) (st : t)
    : Py.result (list Faiss.vector) :=
  match model st with
  | Some m => mret (map m texts)
  | None => Py.raise Py.AttributeError
  end.

Definition encode_texts (texts : list string) (st : t)
    : t * Py.result (list Faiss.vector) :=
  match initialize st with
  | (st1, inl e) => (st1, inl e)
  | (st1, inr _) => (st1, model_encode texts st1)
  end.

Definition encode_query (query : string) (st : t)
    : t * Py.result Faiss.vector :=
  match initialize st with
  | (st1, inl e) => (st1, inl e)
  | (st1, inr _) =>
      (st1,
       embedding ← model_encode [query] st1;
       match embedding with
       | v :: _ => mret v
       | [] => Py.raise Py.IndexError
       end)
  end.

(** One iteration of the loop of [add_documents]: the metadata is
    stored under the key [len(self.document_chunks)]. *)
Definition add_chunk (document_id : string)
    (acc : list string * list string * gmap Z chunk_info)
    (chunk : DocumentParser.chunk)
    : list string * list string * gmap Z chunk_info :=
  let '(chunk_ids, texts, dc) := acc in
  (chunk_ids ++ [make_chunk_id document_id chunk],
   texts ++ [DocumentParser.text chunk],
   <[Z.of_nat (size dc) := chunk_entry document_id chunk]> dc).

Definition add_documents (document_id : string)
    (chunks : list DocumentParser.chunk) (st : t)
    : t * Py.result (list string) :=
  match initialize st with
  | (st1, inl e) => (st1, inl e)
  | (st1, inr _) =>
      let '(chunk_ids, texts, dc) :=
        foldl (add_chunk document_id) ([], [], document_chunks st1) chunks in
      let st2 := set_document_chunks dc st1 in
      match encode_texts texts st2 with
      | (st3, inl e) => (st3, inl e)
      | (st3, inr embeddings) =>
          match index st3 with
          | None => (st3, inl Py.AttributeError)
          | Some ix =>
              match Faiss.add ix embeddings with
              | inl e => (st3, inl e)
              | inr ix' => (set_index (Some ix') st3, inr chunk_ids)
              end
          end
      end
  end.

(** The loop of [search] over the hits of the index. *)
Fixpoint collect (dc : gmap Z chunk_info) (hits : list (Q * Z))
    : Py.result (list chunk_info) :=
  match hits with
  | [] => mret []
  | (score, idx) :: rest =>
      if (0 <=? idx) && (idx <? Z.of_nat (size dc))
      then match dc !! idx with
           | None => Py.raise Py.KeyError
           | Some chunk_info =>
               results ← collect dc rest;
               mret (set_similarity_score score chunk_info :: results)
           end
      else collect dc rest
  end.

Definition search (query : string) (top_k : option Z) (st : t)
    : t * Py.result (list chunk_info) :=
  match initialize st with
  | (st1, inl e) => (st1, inl e)
  | (st1, inr _) =>
      let top_k := Py.int_or top_k settings.MAX_RETRIEVAL_RESULTS in
      match encode_query query st1 with
      | (st2, inl e) => (st2, inl e)
      | (st2, inr query_vector) =>
          (st2,
           match index st2 with
           | None => Py.raise Py.AttributeError
           | Some ix =>
               hits ← Faiss.search ix query_vector top_k;
               collect (document_chunks st2) hits
           end)
      end
  end.

(** [search_by_document]: [top_k * 2] is evaluated for the call of
    [search], before [top_k or settings.MAX_RETRIEVAL_RESULTS]. *)
Definition search_by_document (query document_id : string)
    (top_k : option Z) (st : t) : t * Py.result (list chunk_info) :=
  match initialize st with
  | (st1, inl e) => (st1, inl e)
  | (st1, inr _) =>
      match top_k with
      | None => (st1, Py.raise Py.TypeError)
      | Some k =>
          match search query (Some (k * 2)) st1 with
          | (st2, inl e) => (st2, inl e)
          | (st2, inr all_results) =>
              let document_results :=
                filter (λ r, EmbeddingService.document_id r = document_id)
                       all_results in
              (st2,
               mret (Py.slice_to document_results
                       (Py.int_or top_k settings.MAX_RETRIEVAL_RESULTS)))
          end
      end
  end.

(** [remove_document]: every entry of the document gets
    [deleted = True]; no entry is removed, and the index is not touched. *)
Definition remove_document (document_id : string) (st : t) : t :=
  set_document_chunks
    ((λ c, if decide (EmbeddingService.document_id c = document_id)
           then set_deleted true c else c) <$> document_chunks st)
    st.

(** [chunk.get('deleted', False)]. *)
Definition is_deleted (c : chunk_info) : bool := default false (deleted c).

(** The [active_chunks] entry of [get_stats]. *)
Definition active_chunks (st : t) : Z :=
  Z.of_nat (size (filter (λ kv, is_deleted kv.2 = false)
                         (document_chunks st))).

End service.

(** [self.document_chunks.values()] for a table whose keys were inserted
    in the order [0, 1, ...], as [add_documents] inserts them: the entries
    in ascending order of key. *)
Definition values (dc : gmap Z chunk_info) : list chunk_info :=
  omap (λ k : nat, dc !! Z.of_nat k) (seq 0 (size dc)).

(** [get_chunk_by_id]: the first entry with the identifier, or [None]. *)
Definition get_chunk_by_id (the_chunk_id : string) (st : t)
    : option chunk_info :=
  head (filter (λ c, chunk_id c = the_chunk_id) (values (document_chunks st))).

(** The documents that have an entry not marked deleted. *)
Definition active_documents (st : t) : gset string :=
  list_to_set
    ((λ kv, document_id kv.2)
       <$> map_to_list (filter (λ kv, is_deleted kv.2 = false)
                               (document_chunks st))).

(** The dictionary of [get_stats] for an initialised service. *)
Record stats : Type := Stats {
  total_vectors : Z;
  stats_active_chunks : Z;
  unique_documents : Z;
  embedding_dimension : Z;
  model_name : string
}.

(** [get_stats]: [None] is the dictionary with the status
    [not_initialized] alone. *)
Definition get_stats (st : t) : option stats :=
  if is_initialized st
  then Some (Stats (match index st with
                    | Some ix => Faiss.ntotal ix
                    | None => 0
                    end)
                   (active_chunks st)
                   (Z.of_nat (size (active_documents st)))
                   settings.EMBEDDING_DIMENSION
                   settings.EMBEDDING_MODEL_NAME)
  else None.

Section persistence.

(** [faiss.write_index] on [self.index]: the bytes written, or the
    exception raised. *)
Variable write_index : option (list Faiss.vector) → Py.result string.
(** [json.dump] of the table. *)
Variable json_dump : gmap Z chunk_info → string.

(** [save_index]: nothing is written for a service that is not
    initialised; the index file is written first. *)
Definition save_index (st : t) (fs : files) : files * Py.result () :=
  if is_initialized st
  then match write_index (index st) with
       | inl e => (fs, inl e)
       | inr faiss_bytes =>
           (Files (Some faiss_bytes) (Some (json_dump (document_chunks st))),
            inr ())
       end
  else (fs, inr ()).

End persistence.

End EmbeddingService.

(** ** core/reranking_service.py *)

Module RerankingService.

Import EmbeddingService.

(** The bi-encoder as the reranker uses it: [bi_encode] embeds one text,
    and [bi_dot u v] is the entry [np.dot] computes for the embeddings [u]
    and [v], in single precision and in the order of summation of the
    numeric library, as [float] converts it. *)
Record bi_model : Type := BiModel {
  bi_encode : string → Faiss.vector;
  bi_dot : Faiss.vector → Faiss.vector → Q
}.

(** [self.model] with [self.model_type]: a cross-encoder scores a
    [query, text] pair (the score as [float] converts it), a bi-encoder
    embeds the texts. *)
Inductive reranker : Type :=
  | cross_encoder (predict : string → string → Q)
  | bi_encoder (encoder : bi_model).

Record t : Type := Service {
  model : option reranker;
  is_initialized : bool
}.

(** [__init__]. *)
Definition new : t := Service None false.

(** [result.get('similarity_score', 0.0)]. *)
Definition similarity_or_zero (result : chunk_info) : Q :=
  default 0%Q (similarity_score result).

(** [w1 * similarity + w2 * score] for the literals [w1] and [w2]: two
    products and a sum in double precision. *)
Definition weighted (w1 w2 : Q) (similarity score : Q) : Q :=
  Float64.add (Float64.mul (Float64.of_Q w1) similarity)
              (Float64.mul (Float64.of_Q w2) score).

(** The two assignments of the cross-encoder branch on one result. *)
Definition score_cross_encoder (predict : string → string → Q)
    (query : string) (result : chunk_info) : chunk_info :=
  let score := predict query (text result) in
  set_combined_score
    (weighted (3 # 10) (7 # 10) (similarity_or_zero result) score)
    (set_cross_encoder_score score result).

(** The two assignments of the bi-encoder branch on one result: the
    score is the product of the two embeddings. *)
Definition score_bi_encoder (encoder : bi_model)
    (query : string) (result : chunk_info) : chunk_info :=
  let score :=
    bi_dot encoder (bi_encode encoder query)
           (bi_encode encoder (text result)) in
  set_combined_score
    (weighted (1 # 2) (1 # 2) (similarity_or_zero result) score)
    (set_cross_encoder_score score result).

Definition score_result (m : reranker) : string → chunk_info → chunk_info :=
  match m with
  | cross_encoder predict => score_cross_encoder predict
  | bi_encoder encoder => score_bi_encoder encoder
  end.

(** [x['combined_score']], the sort key; every result carries the key
    when the sort runs. *)
Definition combined_key (x : chunk_info) : Q :=
  default 0%Q (combined_score x).

Section service.

(** The import and the constructor of [CrossEncoder]: the pair scorer,
    or the exception raised. *)
Variable load_cross_encoder : Py.result (string → string → Q).
(** [SentenceTransformer('all-MiniLM-L6-v2')], with the product of the
    numeric library on its embeddings. *)
Variable load_bi_encoder : Py.result bi_model.

(** [initialize]: only [ImportError] leads to the bi-encoder. *)
Definition initialize (st : t) : t * Py.result () :=
  if is_initialized st then (st, inr ())
  else
    match load_cross_encoder with
    | inr predict => (Service (Some (cross_encoder predict)) true, inr ())
    | inl Py.ImportError =>
        match load_bi_encoder with
        | inr encoder => (Service (Some (bi_encoder encoder)) true, inr ())
        | inl e => (st, inl e)
        end
    | inl e => (st, inl e)
    end.

(** [rerank_results]. In the result the first list is [search_results]
    as the call leaves it (its dictionaries are updated in place), the
    second is the returned list. *)
Definition rerank_results (query : string)
    (search_results : list chunk_info) (top_k : option Z) (st : t)
    : t * Py.result (list chunk_info * list chunk_info) :=
  match initialize st with
  | (st1, inl e) => (st1, inl e)
  | (st1, inr _) =>
      (st1,
       match search_results with
       | [] => mret ([], [])
       | _ :: _ =>
           let top_k := Py.int_or top_k settings.TOP_K_RERANK in
           match model st1 with
           | None => Py.raise Py.AttributeError
           | Some m =>
               let search_results := map (score_result m query) search_results in
               let reranked_results :=
                 Py.sorted_desc combined_key search_results in
               mret (search_results, Py.slice_to reranked_results top_k)
           end
       end)
  end.

End service.

End RerankingService.

(** ** core/llm_service.py *)

Module LLMService.

Import EmbeddingService.

(** The dictionary of [_rule_based_extraction]. *)
Record structured_query : Type := StructuredQuery {
  intent : string;
  subject : string;
  keywords : list string;
  question_type : string;
  entities : list string;
  context_clues : list string
}.

(** The dictionary an answer is returned in; a key the generated JSON
    leaves out is [None]. [token_usage] holds [total_tokens]. *)
Record answer_data : Type := AnswerData {
  answer : option string;
  decision : option string;
  confidence : option Q;
  reasoning : option string;
  supporting_evidence : option (list string);
  conflicting_evidence : option (list string);
  key_factors : option (list string);
  limitations : option (list string);
  token_usage : option Z
}.

Definition set_token_usage (n : Z) (d : answer_data) : answer_data :=
  AnswerData (answer d) (decision d) (confidence d) (reasoning d)
             (supporting_evidence d) (conflicting_evidence d)
             (key_factors d) (limitations d) (Some n).

(** [any(word in s for word in words)]. *)
Definition any_in (words : list string) (s : string) : bool :=
  existsb (λ word, Py.contains word s) words.

(** [x in l] on a list of strings. *)
Definition str_in (x : string) (l : list string) : bool :=
  bool_decide (x ∈ l).

Definition _rule_based_extraction (query : string) (domain : option string)
    : structured_query :=
  let query_lower := Py.lower query in
  let intent :=
    if any_in ["cover"; "covered"; "coverage"] query_lower
    then "coverage_check"
    else if any_in ["exclude"; "excluded"; "exclusion"] query_lower
    then "exclusion_check"
    else if any_in ["condition"; "requirement"; "prerequisite"] query_lower
    then "condition_check"
    else "general_inquiry" in
  let question_type :=
    if existsb (Py.startswith query_lower) ["does"; "is"; "can"; "will"; "would"]
    then "yes_no"
    else if any_in ["if"; "when"; "under what"] query_lower
    then "conditional"
    else "explanatory" in
  let keywords :=
    filter (λ word,
              3 < DocumentParser.str_len word
              ∧ str_in (Py.lower word)
                   ["does"; "this"; "what"; "are"; "the"; "conditions";
                    "coverage"; "policy"] = false)
           (Py.split query) in
  StructuredQuery
    intent
    (if 50 <? DocumentParser.str_len query
     then Py.str_slice_to query 50 +:+ "..." else query)
    (Py.slice_to keywords 10)
    question_type
    []
    (match domain with
     | Some d => if Py.str_is_empty d then [] else [d]
     | None => []
     end).

(** [chunk.get('text', '')] is the [text] field: every result has the key. *)
Definition _rule_based_answer_generation (query : string)
    (relevant_chunks : list chunk_info) (domain : option string)
    : answer_data :=
  match relevant_chunks with
  | [] =>
      AnswerData
        (Some "I couldn't find relevant information to answer your question.")
        (Some "Unclear")
        (Some (1 # 10)%Q)
        (Some "No relevant document excerpts found for the query.")
        (Some [])
        (Some [])
        (Some ["Insufficient information"])
        (Some ["No relevant documents found"])
        (Some 0)
  | best_chunk :: _ =>
      let query_lower := Py.lower query in
      let chunk_text_lower := Py.lower (text best_chunk) in
      let confidence := default (1 # 2)%Q (combined_score best_chunk) in
      let decision :=
        if Py.contains "cover" query_lower
        then if any_in ["covered"; "includes"; "benefits"] chunk_text_lower
             then "Yes"
             else if any_in ["excluded"; "not covered"; "exceptions"]
                            chunk_text_lower
             then "No"
             else "Unclear"
        else "Unclear" in
      AnswerData
        (Some ("Based on the most relevant document section, "
               +:+ Py.str_slice_to (text best_chunk) 200 +:+ "..."))
        (Some decision)
        (Some (Py.min confidence (7 # 10)%Q))
        (Some "Answer generated based on keyword matching and document similarity.")
        (Some [Py.str_slice_to (text best_chunk) 100 +:+ "..."])
        (Some [])
        (Some ["Document similarity score"; "Keyword matching"])
        (Some ["Rule-based analysis"; "Limited context understanding"])
        (Some 0)
  end.

(** The fields of the service object. A tokenizer encodes a text or
    raises; a pipeline returns the generated text or raises. *)
Record t : Type := Service {
  tokenizer : option (string → Py.result (list Z));
  pipeline : option (string → Py.result string);
  is_initialized : bool
}.

(** [__init__]. *)
Definition new : t := Service None None false.

Section service.

(** [AutoTokenizer.from_pretrained(settings.LLM_MODEL_NAME)]. *)
Variable load_tokenizer : Py.result (string → Py.result (list Z)).
(** The model and the text-generation pipeline built on it. *)
Variable load_pipeline : Py.result (string → Py.result string).
(** [re.search] for a brace-delimited span: the matched text. *)
Variable re_search_json : string → option string.
(** [json.loads] on the matched text. *)
Variable json_loads_query : string → Py.result structured_query.
Variable json_loads_answer : string → Py.result answer_data.
(** The prompt templates, given the domain clause, the query and the
    context. *)
Variable extraction_prompt : string → string → string.
Variable answer_prompt : string → string → string → string.
(** The format [.3f] of a score. *)
Variable format_3f : Q → string.

(** [initialize]: the tokenizer is loaded outside the [try]; when the
    model or the pipeline cannot be built, [self.pipeline] is [None]. *)
Definition initialize (st : t) : t * Py.result () :=
  if is_initialized st then (st, inr ())
  else
    match load_tokenizer with
    | inl e => (st, inl e)
    | inr tok =>
        (Service (Some tok)
                 (match load_pipeline with
                  | inr generate => Some generate
                  | inl _ => None
                  end)
                 true,
         inr ())
    end.

(** [f(domain) if domain else '']. *)
Definition domain_clause (f : string → string) (domain : option string)
    : string :=
  match domain with
  | Some d => if Py.str_is_empty d then EmptyString else f d
  | None => EmptyString
  end.

Definition extract_structured_query (natural_query : string)
    (domain : option string) (st : t) : t * Py.result structured_query :=
  match initialize st with
  | (st1, inl e) => (st1, inl e)
  | (st1, inr _) =>
      let domain_context :=
        domain_clause (λ d, " in the " +:+ d +:+ " domain") domain in
      let prompt := extraction_prompt domain_context natural_query in
      (st1,
       mret
         match pipeline st1 with
         | Some generate =>
             match generate prompt with
             | inl _ => _rule_based_extraction natural_query domain
             | inr response =>
                 match re_search_json response with
                 | Some json_match =>
                     match json_loads_query json_match with
                     | inl _ => _rule_based_extraction natural_query domain
                     | inr parsed => parsed
                     end
                 | None => _rule_based_extraction natural_query domain
                 end
             end
         | None => _rule_based_extraction natural_query domain
         end)
  end.

(** [_prepare_context]; [i] is the number of the first chunk. *)
Fixpoint context_parts (i : Z) (chunks : list chunk_info) : list string :=
  match chunks with
  | [] => []
  | chunk :: rest =>
      let score :=
        default (default 0%Q (similarity_score chunk))
                (combined_score chunk) in
      ("[" +:+ pretty i +:+ "] (Relevance: " +:+ format_3f score +:+ ") "
       +:+ Py.str_slice_to (text chunk) 500 +:+ "...")
      :: context_parts (i + 1) rest
  end.

Definition _prepare_context (chunks : list chunk_info) : string :=
  Py.join (String (Ascii.ascii_of_nat 10)
             (String (Ascii.ascii_of_nat 10) EmptyString))
          (context_parts 1 chunks).

(** [self.tokenizer.encode(text)]. *)
Definition tokenizer_encode (text : string) (st : t) : Py.result (list Z) :=
  match tokenizer st with
  | Some tok => tok text
  | None => Py.raise Py.AttributeError
  end.

Definition generate_answer (query : string)
    (relevant_chunks : list chunk_info) (domain : option string) (st : t)
    : t * Py.result answer_data :=
  match initialize st with
  | (st1, inl e) => (st1, inl e)
  | (st1, inr _) =>
      let context := _prepare_context relevant_chunks in
      let domain_context :=
        domain_clause (λ d, " This is in the " +:+ d +:+ " domain.") domain in
      let prompt := answer_prompt domain_context query context in
      let fallback :=
        _rule_based_answer_generation query relevant_chunks domain in
      (st1,
       mret
         match pipeline st1 with
         | Some generate =>
             match generate prompt with
             | inl _ => fallback
             | inr response =>
                 match tokenizer_encode (prompt +:+ response) st1 with
                 | inl _ => fallback
                 | inr tokens =>
                     match re_search_json response with
                     | Some json_match =>
                         match json_loads_answer json_match with
                         | inl _ => fallback
                         | inr result => set_token_usage (Py.len tokens) result
                         end
                     | None => fallback
                     end
                 end
             end
         | None => fallback
         end)
  end.

(** One clause dictionary of [extract_key_clauses]. *)
Record clause : Type := Clause {
  clause_id : string;
  clause_text : string;
  clause_type : string;
  importance : Q
}.

(** The classification of one sentence in [extract_key_clauses]. *)
Definition classify_clause (sentence : string) : string :=
  let lowered := Py.lower sentence in
  if any_in ["cover"; "benefit"; "eligible"] lowered then "coverage"
  else if any_in ["exclude"; "not cover"; "exception"] lowered
  then "exclusion"
  else if any_in ["condition"; "require"; "must"; "shall"] lowered
  then "condition"
  else "general".

(** The loop of [extract_key_clauses] over [enumerate(sentences)]; [i]
    is the number of the first sentence. *)
Fixpoint clauses_from (i : Z) (sentences : list string) : list clause :=
  match sentences with
  | [] => []
  | sentence :: rest =>
      let sentence := Py.strip sentence in
      if DocumentParser.str_len sentence <? 20 then clauses_from (i + 1) rest
      else
        Clause ("clause_" +:+ pretty i) sentence (classify_clause sentence)
               (1 # 2)%Q
        :: clauses_from (i + 1) rest
  end.

Definition extract_key_clauses (text : string) (domain : option string)
    (st : t) : t * Py.result (list clause) :=
  match initialize st with
  | (st1, inl e) => (st1, inl e)
  | (st1, inr _) =>
      (st1, mret (clauses_from 0 (Py.split_on (Ascii.ascii_of_nat 46) text)))
  end.

End service.

End LLMService.

(** ** core/query_processor.py: the orchestrator *)

Module QueryProcessor.

Import EmbeddingService.

(** Modelled from the spec: the enumeration [Domain] of
    [models/schemas.py], which is not among the sources. A member is
    represented by its [name], the only attribute [process_query] reads. *)
Record Domain : Type := { name : string }.

(** Modelled from the spec: the class [QueryRequest] of
    [models/schemas.py], which is not among the sources. The fields are
    the ones [process_query] reads; [document_id], [domain] and
    [max_results] may be [None]. *)
Record QueryRequest : Type := {
  query : string;
  document_id : option string;
  domain : option Domain;
  max_results : option Z
}.

(** Modelled from the spec: the classes [ClauseMatch],
    [DecisionRationale] and [QueryResponse] of [models/schemas.py], which
    are not among the sources. The fields are the keyword arguments
    [process_query] builds them with; validation by the classes is not
    modelled. *)
Record ClauseMatch : Type := {
  clause_id : string;
  clause_text : string;
  relevance_score : Q;
  page_number : option Z;
  section : option string
}.

Record DecisionRationale : Type := {
  reasoning : string;
  supporting_clauses : list string;
  conflicting_clauses : list string;
  confidence_score : Q;
  key_factors : list string
}.

Record QueryResponse : Type := {
  query_id : string;
  response_query : string;
  answer : string;
  decision : option string;
  matched_clauses : list ClauseMatch;
  rationale : DecisionRationale;
  processing_time_ms : Q;
  token_usage : option Z
}.

(** Modelled from the spec: the table class [Query] of
    [models/database.py], which is not among the sources. A row holds the
    keyword arguments of [store_query_in_db]. *)
Record Query : Type := {
  id : string;
  query_text : string;
  query_document_id : option string;
  query_domain : option string;
  response_data : QueryResponse;
  query_processing_time_ms : Q;
  query_token_usage : option Z
}.

(** The three shared service objects and the rows of the session. *)
Record world : Type := World {
  embedding_service : EmbeddingService.t;
  reranking_service : RerankingService.t;
  llm_service : LLMService.t;
  db : list Query
}.

(** [d[key]] on a key that may be absent. *)
Definition item {A} (x : option A) : Py.result A :=
  match x with
  | Some a => mret a
  | None => Py.raise Py.KeyError
  end.

Definition clause_match (chunk : chunk_info) : Py.result ClauseMatch :=
  score ← item (combined_score chunk);
  mret {| clause_id := chunk_id chunk;
          clause_text := text chunk;
          relevance_score := score;
          page_number := DocumentParser.page_number (metadata chunk);
          section := DocumentParser.section (metadata chunk) |}.

Fixpoint clause_matches (chunks : list chunk_info)
    : Py.result (list ClauseMatch) :=
  match chunks with
  | [] => mret []
  | chunk :: rest =>
      m ← clause_match chunk;
      ms ← clause_matches rest;
      mret (m :: ms)
  end.

(** The assembly of [QueryResponse] from the reranked results and the
    answer dictionary. *)
Definition assemble (the_query_id : string) (elapsed_ms : Q)
    (query_request : QueryRequest) (reranked_results : list chunk_info)
    (data : LLMService.answer_data) : Py.result QueryResponse :=
  clauses ← clause_matches reranked_results;
  the_reasoning ← item (LLMService.reasoning data);
  supporting ← item (LLMService.supporting_evidence data);
  the_confidence ← item (LLMService.confidence data);
  factors ← item (LLMService.key_factors data);
  the_answer ← item (LLMService.answer data);
  mret {| query_id := the_query_id;
          response_query := query query_request;
          answer := the_answer;
          decision := LLMService.decision data;
          matched_clauses := clauses;
          rationale :=
            {| reasoning := the_reasoning;
               supporting_clauses := supporting;
               conflicting_clauses :=
                 default [] (LLMService.conflicting_evidence data);
               confidence_score := the_confidence;
               key_factors := factors |};
          processing_time_ms := elapsed_ms;
          token_usage := LLMService.token_usage data |}.

(** [query_request.domain.name if query_request.domain else None]. *)
Definition domain_name (query_request : QueryRequest) : option string :=
  name <$> domain query_request.

Definition store_query_in_db (the_query_id : string)
    (query_request : QueryRequest) (response : QueryResponse)
    (rows : list Query) : list Query :=
  rows ++ [ {| id := the_query_id;
               query_text := query query_request;
               query_document_id := document_id query_request;
               query_domain := domain_name query_request;
               response_data := response;
               query_processing_time_ms := processing_time_ms response;
               query_token_usage := token_usage response |} ].

Section processor.

Variable load_model : Py.result (string → Faiss.vector).
Variable read_index : string → Py.result (list Faiss.vector).
Variable json_load : string → Py.result (list (string * chunk_info)).
Variable int_of_key : string → Py.result Z.
Variable fs : files.
Variable load_cross_encoder : Py.result (string → string → Q).
Variable load_bi_encoder : Py.result RerankingService.bi_model.
Variable load_tokenizer : Py.result (string → Py.result (list Z)).
Variable load_pipeline : Py.result (string → Py.result string).
Variable re_search_json : string → option string.
Variable json_loads_query : string → Py.result LLMService.structured_query.
Variable json_loads_answer : string → Py.result LLMService.answer_data.
Variable extraction_prompt : string → string → string.
Variable answer_prompt : string → string → string → string.
Variable format_3f : Q → string.

(** The retrieval step: scoped to the document when the request names
    one. *)
Definition retrieve (query_request : QueryRequest) (es : EmbeddingService.t)
    : EmbeddingService.t * Py.result (list chunk_info) :=
  match document_id query_request with
  | Some doc =>
      if Py.str_is_empty doc
      then search load_model read_index json_load int_of_key fs
             (query query_request) (max_results query_request) es
      else search_by_document load_model read_index json_load int_of_key fs
             (query query_request) doc (max_results query_request) es
  | None =>
      search load_model read_index json_load int_of_key fs
        (query query_request) (max_results query_request) es
  end.

(** [process_query]. [the_query_id] is the identifier drawn for the
    query and [elapsed_ms] the time measured for it. An exception leaves
    the services as the steps before it left them. *)
Definition process_query (the_query_id : string) (elapsed_ms : Q)
    (query_request : QueryRequest) (w : world)
    : world * Py.result QueryResponse :=
  let '(es, rs, ls, rows) :=
    (embedding_service w, reranking_service w, llm_service w, db w) in
  match LLMService.extract_structured_query
          load_tokenizer load_pipeline re_search_json json_loads_query
          extraction_prompt
          (query query_request) (domain_name query_request) ls with
  | (ls, inl e) => (World es rs ls rows, inl e)
  | (ls, inr structured_query) =>
  match retrieve query_request es with
  | (es, inl e) => (World es rs ls rows, inl e)
  | (es, inr document_results) =>
  match RerankingService.rerank_results load_cross_encoder load_bi_encoder
          (query query_request) document_results
          (max_results query_request) rs with
  | (rs, inl e) => (World es rs ls rows, inl e)
  | (rs, inr (_, reranked_results)) =>
  match LLMService.generate_answer
          load_tokenizer load_pipeline re_search_json json_loads_answer
          answer_prompt format_3f
          (query query_request) reranked_results
          (domain_name query_request) ls with
  | (ls, inl e) => (World es rs ls rows, inl e)
  | (ls, inr data) =>
  match assemble the_query_id elapsed_ms query_request
                 reranked_results data with
  | inl e => (World es rs ls rows, inl e)
  | inr response =>
      (World es rs ls
         (store_query_in_db the_query_id query_request response rows),
       inr response)
  end end end end end.

End processor.

End QueryProcessor.

(** * Vocabulary of the properties *)

(** The number of windows of the word-mode chunker: the window starts are
    the multiples of the stride below the number of words. *)
Definition windows (n stride : Z) : nat :=
  Z.to_nat ((n + stride - 1) / stride).

(** The slot table is dense: its keys are [0 .. len - 1]. *)
Definition dense (dc : gmap Z EmbeddingService.chunk_info) : Prop :=
  ∀ k : Z, is_Some (dc !! k) ↔ 0 ≤ k < Z.of_nat (size dc).

(** An embedding service that has been initialised, with its model and
    its index in place, and whose slot table is dense. *)
Definition ready (st : EmbeddingService.t) : Prop :=
  EmbeddingService.is_initialized st = true
  ∧ is_Some (EmbeddingService.model st)
  ∧ is_Some (EmbeddingService.index st)
  ∧ dense (EmbeddingService.document_chunks st).

(** A reranking service that has been initialised with the model [m]. *)
Definition reranker_ready (m : RerankingService.reranker)
    (st : RerankingService.t) : Prop :=
  st = RerankingService.Service (Some m) true.

(** A language-model service that has been initialised and has no
    generation pipeline. *)
Definition without_pipeline (st : LLMService.t) : Prop :=
  LLMService.is_initialized st = true ∧ LLMService.pipeline st = None.

(** The rows of the index and the keys of the slot table go together:
    row [i] of the index is the vector of the entry under key [i]. *)
Definition aligned (st : EmbeddingService.t) : Prop :=
  ∃ ix, EmbeddingService.index st = Some ix
        ∧ length ix = size (EmbeddingService.document_chunks st).

(** Two metadata dictionaries that differ at most in the key [deleted]. *)
Definition same_entry (a b : EmbeddingService.chunk_info) : Prop :=
  EmbeddingService.chunk_id a = EmbeddingService.chunk_id b
  ∧ EmbeddingService.document_id a = EmbeddingService.document_id b
  ∧ EmbeddingService.chunk_index a = EmbeddingService.chunk_index b
  ∧ EmbeddingService.text a = EmbeddingService.text b
  ∧ EmbeddingService.metadata a = EmbeddingService.metadata b.

(** The results [search] builds from the hits of the index when every
    hit inside the table has its entry: the entry of each hit, in the
    order of the hits, with the score of the hit. *)
Definition hit_results (dc : gmap Z EmbeddingService.chunk_info)
    (hits : list (Q * Z)) : list EmbeddingService.chunk_info :=
  omap (λ h, EmbeddingService.set_similarity_score h.1 <$> dc !! h.2) hits.

(** What [remove_document] does to one entry. *)
Definition mark_removed (document_id : string)
    (c : EmbeddingService.chunk_info) : EmbeddingService.chunk_info :=
  if decide (EmbeddingService.document_id c = document_id)
  then EmbeddingService.set_deleted true c else c.

(** A list in descending order of key. *)
Definition descending {A} (key : A → Q) (l : list A) : Prop :=
  StronglySorted (λ a b, (key b <= key a)%Q) l.

(** The elements of a list whose key equals [c], in the order of the list. *)
Definition with_key {A} (key : A → Q) (c : Q) (l : list A) : list A :=
  filter (λ a, Qeq_bool (key a) c = true) l.

(** The requests [process_query] can serve: [max_results] is a
    non-negative integer, or is left out of a query that names no
    document. *)
Definition request_ok (query_request : QueryProcessor.QueryRequest) : Prop :=
  match QueryProcessor.max_results query_request with
  | Some k => 0 ≤ k
  | None => QueryProcessor.document_id query_request = None
            ∨ QueryProcessor.document_id query_request = Some EmptyString
  end.

(** The mutations of the index, and a run of them. *)
Inductive mutation : Type :=
  | Add (document_id : string) (chunks : list DocumentParser.chunk)
  | Remove (document_id : string).

Section runs.

Variable load_model : Py.result (string → Faiss.vector).
Variable read_index : string → Py.result (list Faiss.vector).
Variable json_load :
  string → Py.result (list (string * EmbeddingService.chunk_info)).
Variable int_of_key : string → Py.result Z.
Variable fs : EmbeddingService.files.

Definition apply_mutation (st : EmbeddingService.t) (m : mutation)
    : EmbeddingService.t :=
  match m with
  | Add d chunks =>
      (EmbeddingService.add_documents
         load_model read_index json_load int_of_key fs d chunks st).1
  | Remove d => EmbeddingService.remove_document d st
  end.

Definition run (ms : list mutation) (st : EmbeddingService.t)
    : EmbeddingService.t :=
  foldl apply_mutation st ms.

(** The persisted store cannot be read back: a file is missing, or
    reading one of the two raises. *)
Definition unreadable : Prop :=
  EmbeddingService.faiss_file fs = None
  ∨ EmbeddingService.metadata_file fs = None
  ∨ (∃ bytes e, EmbeddingService.faiss_file fs = Some bytes
                ∧ read_index bytes = inl e)
  ∨ (∃ bytes e, EmbeddingService.metadata_file fs = Some bytes
                ∧ json_load bytes
                    ≫= (λ items,
                          EmbeddingService.int_keys int_of_key items ∅)
                  = inl e).

End runs.

(** Small collaborators for the closed examples: a one-dimensional
    embedding, a constant relevance model, a store with no files and
    readers that fail, a tokenizer, and models that cannot be loaded. *)
Definition unit_encode (_ : string) : Faiss.vector := [1%Q].
Definition constant_predict (_ _ : string) : Q := Float64.of_Q (6 # 10).
Definition no_read_index (_ : string) : Py.result (list Faiss.vector) :=
  inl Py.OSError.
Definition no_json_load (_ : string)
    : Py.result (list (string * EmbeddingService.chunk_info)) :=
  inl Py.ValueError.
Definition no_int_of_key (_ : string) : Py.result Z := inl Py.ValueError.
Definition no_files : EmbeddingService.files :=
  EmbeddingService.Files None None.
Definition corrupt_files : EmbeddingService.files :=
  EmbeddingService.Files (Some "index") (Some "{").
Definition one_row_index (_ : string) : Py.result (list Faiss.vector) :=
  inr [[1%Q]].
Definition unit_tokenizer (_ : string) : Py.result (list Z) := inr [0].
Definition no_model {A} : Py.result A := inl Py.OSError.
Definition no_json_match (_ : string) : option string := None.
Definition no_json_query (_ : string)
    : Py.result LLMService.structured_query := inl Py.ValueError.
Definition no_json_answer (_ : string)
    : Py.result LLMService.answer_data := inl Py.ValueError.
Definition plain_prompt (_ query : string) : string := query.
Definition plain_answer_prompt (_ query context : string) : string :=
  query +:+ context.
Definition plain_format (_ : Q) : string := "0.000".

Definition example_chunk : DocumentParser.chunk :=
  DocumentParser.Chunk 0 "hello" 1 5 None None.
Definition example_result : EmbeddingService.chunk_info :=
  EmbeddingService.set_similarity_score (Float64.of_Q (8 # 10))
    (EmbeddingService.chunk_entry "doc" example_chunk).
Definition example_request : QueryProcessor.QueryRequest :=
  {| QueryProcessor.query := "Is surgery covered?";
     QueryProcessor.document_id := Some "doc";
     QueryProcessor.domain := None;
     QueryProcessor.max_results := Some 5 |}.

(** A service initialised on an empty store, and one holding one chunk. *)
Definition fresh_service : EmbeddingService.t :=
  EmbeddingService.Service (Some unit_encode) (Some []) ∅ true.
Definition example_service : EmbeddingService.t :=
  EmbeddingService.Service
    (Some unit_encode)
    (Some [unit_encode "hello"])
    (<[Z.of_nat (size (∅ : gmap Z EmbeddingService.chunk_info)) :=
         EmbeddingService.chunk_entry "doc" example_chunk]> ∅)
    true.
Definition example_reranker : RerankingService.t :=
  RerankingService.Service
    (Some (RerankingService.cross_encoder constant_predict)) true.
Definition llm_without_model : LLMService.t :=
  LLMService.Service (Some unit_tokenizer) None true.

(** A store for the closed example of a save and a restore: the index
    file holds the one row, the metadata file the one entry under the key
    [0]. *)
Definition write_one_row (_ : option (list Faiss.vector))
    : Py.result string := inr "index".
Definition dump_one_entry (_ : gmap Z EmbeddingService.chunk_info) : string :=
  "metadata".
Definition load_one_entry (_ : string)
    : Py.result (list (string * EmbeddingService.chunk_info)) :=
  inr [("0", EmbeddingService.chunk_entry "doc" example_chunk)].
Definition zero_key (_ : string) : Py.result Z := inr 0.

(** A pipeline whose generated text holds a JSON object with no key, and
    the service built on it. *)
Definition empty_object_pipeline (_ : string) : Py.result string :=
  inr "{}".
Definition whole_match (response : string) : option string := Some response.
Definition empty_answer (_ : string) : Py.result LLMService.answer_data :=
  inr (LLMService.AnswerData None None None None None None None None None).
Definition llm_with_pipeline : LLMService.t :=
  LLMService.Service (Some unit_tokenizer) (Some empty_object_pipeline) true.

(** A service restored from a metadata file whose only key is [5]: the
    index has one row, the table no entry under the key [0]. *)
Definition sparse_service : EmbeddingService.t :=
  EmbeddingService.Service
    (Some unit_encode) (Some [unit_encode "hello"])
    (<[5 := EmbeddingService.chunk_entry "doc" example_chunk]> ∅) true.

(** A string without whitespace, and a word: a non-empty one. *)
Fixpoint no_space (s : string) : bool :=
  match s with
  | EmptyString => true
  | String c s' => negb (Py.isspace c) && no_space s'
  end.

Definition is_word (w : string) : Prop :=
  w ≠ EmptyString ∧ no_space w = true.

(** The words of a sequence of chunks with the overlap taken out: the
    words of the first chunk, then those of every later chunk but its
    first [overlap] ones. *)
Definition without_overlap (overlap : Z)
    (chunks : list DocumentParser.chunk) : list string :=
  match chunks with
  | [] => []
  | c :: rest =>
      Py.split (DocumentParser.text c)
      ++ concat ((λ c, drop (Z.to_nat overlap)
                         (Py.split (DocumentParser.text c))) <$> rest)
  end.

(** The state of the loop of the sentence-mode chunker after [j]
    sentences: the next index is the number of chunks emitted, the running
    size is the number of words of the running text, a chunk (and a
    running text that is not empty) accounts for a sentence each, and every
    chunk emitted has its position as index and the number of the words of
    its text as word count. *)
Definition chunker_state_ok (a : DocumentParser.acc) (j : nat) : Prop :=
  DocumentParser.next_index a = Py.len (DocumentParser.chunks a)
  ∧ DocumentParser.current_size a
    = Py.len (Py.split (DocumentParser.current_chunk a))
  ∧ (length (DocumentParser.chunks a)
     + (if Py.str_is_empty (DocumentParser.current_chunk a) then 0 else 1)
     ≤ j)%nat
  ∧ ∀ (k : nat) c, DocumentParser.chunks a !! k = Some c →
      DocumentParser.chunk_index c = Z.of_nat k
      ∧ DocumentParser.word_count c
        = Py.len (Py.split (DocumentParser.text c)).

(** The words a sequence of sentence-mode chunks adds: the words of each
    chunk but the ones carried over from the chunk before it, which are
    [min(overlap, word_count)] of that chunk; [skip] is the number carried
    into the first chunk. *)
Fixpoint fresh_words (overlap : Z) (skip : nat)
    (chunks : list DocumentParser.chunk) : list string :=
  match chunks with
  | [] => []
  | c :: rest =>
      drop skip (Py.split (DocumentParser.text c))
      ++ fresh_words overlap
           (Z.to_nat (Z.min overlap (DocumentParser.word_count c))) rest
  end.

(** The number of words carried into the chunk after the last of
    [chunks]. *)
Definition carried (overlap : Z) (skip : nat)
    (chunks : list DocumentParser.chunk) : nat :=
  match last chunks with
  | None => skip
  | Some c => Z.to_nat (Z.min overlap (DocumentParser.word_count c))
  end.

(** * Properties *)

(** ** Python runtime *)

Lemma bind_inr {A B} (m : Py.result A) (k : A → Py.result B) (b : B) :
  m ≫= k = inr b ↔ ∃ a, m = inr a ∧ k a = inr b.
Proof.
  destruct m as [e|a]; simpl.
  - split; [discriminate | intros (a & Ha & _); discriminate].
  - split; [eauto | intros (a' & [= <-] & Hk); done].
Qed.

Lemma slice_nonneg {A} (l : list A) (lo hi : Z) :
  0 ≤ lo → lo ≤ hi →
  Py.slice l lo hi = take (Z.to_nat (hi - lo)) (drop (Z.to_nat lo) l).
Proof.
  intros Hlo Hhi. unfold Py.slice, Py.clamp_index, Py.len.
  set (n := Z.of_nat (length l)).
  destruct (Z.ltb_spec lo 0) as [?|_]; [lia|].
  destruct (Z.ltb_spec hi 0) as [?|_]; [lia|].
  destruct (Z.le_gt_cases lo n) as [Hn|Hn].
  - replace (Z.max 0 (Z.min n lo)) with lo by lia.
    destruct (Z.le_gt_cases hi n) as [Hh|Hh].
    + by replace (Z.max 0 (Z.min n hi)) with hi by lia.
    + replace (Z.max 0 (Z.min n hi)) with n by lia.
      rewrite !take_ge; [done | |]; rewrite length_drop; lia.
  - rewrite !drop_ge by lia. by rewrite !take_nil.
Qed.

Lemma slice_subseteq {A} (l : list A) (lo hi : Z) : Py.slice l lo hi ⊆ l.
Proof.
  unfold Py.slice. etrans; [apply subseteq_take | apply subseteq_drop].
Qed.

Lemma slice_to_nonneg {A} (l : list A) (hi : Z) :
  0 ≤ hi → Py.slice_to l hi = take (Z.to_nat hi) l.
Proof.
  intros Hhi. unfold Py.slice_to. rewrite slice_nonneg by lia.
  by rewrite Z.sub_0_r.
Qed.

(** The fuel [range] gives is enough: the list is the whole arithmetic
    progression below [stop]. *)
Lemma range_up_closed (fuel : nat) (i stop step : Z) :
  0 < step → (Z.to_nat (stop - i) ≤ fuel)%nat →
  Py.range_up fuel i stop step =
  (λ k : nat, i + Z.of_nat k * step)
    <$> seq 0 (Z.to_nat ((stop - i + step - 1) / step)).
Proof.
  intros Hstep. revert i.
  induction fuel as [|fuel IH]; intros i Hfuel; simpl.
  - assert ((stop - i + step - 1) / step < 1)
      by (apply Z.div_lt_upper_bound; lia).
    by replace (Z.to_nat ((stop - i + step - 1) / step)) with 0%nat by lia.
  - destruct (Z.ltb_spec i stop) as [Hlt|Hge].
    + replace (stop - i + step - 1)
        with ((stop - (i + step) + step - 1) + 1 * step) by lia.
      rewrite Z.div_add by lia.
      assert (0 ≤ (stop - (i + step) + step - 1) / step)
        by (apply Z.div_pos; lia).
      rewrite Z2Nat.inj_add by lia.
      rewrite Nat.add_comm. simpl.
      rewrite <- fmap_S_seq, <- list_fmap_compose.
      rewrite IH by lia.
      f_equal; [lia|]. apply list_fmap_ext. intros _ k _. simpl. lia.
    + assert ((stop - i + step - 1) / step < 1)
        by (apply Z.div_lt_upper_bound; lia).
      by replace (Z.to_nat ((stop - i + step - 1) / step)) with 0%nat by lia.
Qed.

Lemma range_positive_step (stop step : Z) :
  0 < step →
  Py.range 0 stop step =
  inr ((λ k : nat, Z.of_nat k * step)
         <$> seq 0 (Z.to_nat ((stop + step - 1) / step))).
Proof.
  intros Hstep. unfold Py.range.
  destruct (Z.eqb_spec step 0) as [?|_]; [lia|].
  destruct (Z.ltb_spec 0 step) as [_|?]; [|lia].
  unfold Py.ret. f_equal.
  rewrite range_up_closed by lia.
  rewrite Z.sub_0_r. apply list_fmap_ext. intros _ k _. simpl. lia.
Qed.

Lemma range_down_none (fuel : nat) (stop step : Z) :
  0 ≤ stop → Py.range_down fuel 0 stop step = [].
Proof.
  intros Hstop. destruct fuel; simpl; [done|].
  by destruct (Z.ltb_spec stop 0) as [?|_]; [lia|].
Qed.

Lemma range_negative_step (stop step : Z) :
  0 ≤ stop → step < 0 → Py.range 0 stop step = inr [].
Proof.
  intros Hstop Hstep. unfold Py.range.
  destruct (Z.eqb_spec step 0) as [?|_]; [lia|].
  destruct (Z.ltb_spec 0 step) as [?|_]; [lia|].
  unfold Py.ret. by rewrite range_down_none.
Qed.

Lemma range_zero_step (start stop : Z) :
  Py.range start stop 0 = inl Py.ValueError.
Proof. reflexivity. Qed.

(** ** The word-mode chunker *)

Section simple_chunking.

Import DocumentParser.

Lemma simple_loop_length words chunk_size starts idx :
  length (simple_loop words chunk_size starts idx) = length starts.
Proof.
  revert idx. induction starts as [|i starts IH]; intros idx; simpl;
    [done | by rewrite IH].
Qed.

Lemma simple_loop_lookup words chunk_size starts idx (k : nat) :
  simple_loop words chunk_size starts idx !! k =
  (λ i,
     let chunk_words := Py.slice words i (i + chunk_size) in
     Chunk (idx + Z.of_nat k) (Py.join " " chunk_words)
           (Py.len chunk_words) (str_len (Py.join " " chunk_words))
           None None) <$> starts !! k.
Proof.
  revert idx k. induction starts as [|i starts IH]; intros idx k.
  - done.
  - destruct k as [|k]; simpl.
    + by rewrite Z.add_0_r.
    + rewrite IH. destruct (starts !! k); simpl; [|done].
      do 2 f_equal. lia.
Qed.

Lemma windows_start_lt (n stride : Z) (k : nat) :
  0 < stride → (k < windows n stride)%nat → Z.of_nat k * stride < n.
Proof.
  unfold windows. intros Hs Hk.
  assert (Z.of_nat k < (n + stride - 1) / stride) as Hlt by lia.
  assert (Z.of_nat k + 1 ≤ (n + stride - 1) / stride) as Hle by lia.
  pose proof (Z.mul_div_le (n + stride - 1) stride Hs).
  nia.
Qed.

Lemma windows_last (n stride : Z) :
  0 < stride → 0 ≤ n → n ≤ Z.of_nat (windows n stride) * stride.
Proof.
  unfold windows. intros Hs Hn.
  assert (0 ≤ (n + stride - 1) / stride) by (apply Z.div_pos; lia).
  rewrite Z2Nat.id by lia.
  pose proof (Z.mod_pos_bound (n + stride - 1) stride Hs).
  pose proof (Z.div_mod (n + stride - 1) stride). nia.
Qed.

End simple_chunking.

(** C3. In word mode, for every text and every chunk size and overlap
    with [0 < chunk_size] and [overlap < chunk_size], [_simple_chunking]
    returns one chunk per window start [k * stride] below the number of
    words, where [stride = chunk_size - overlap]: chunk [k] has
    [chunk_index = k] and holds the (non-empty) window of at most
    [chunk_size] words from that start, joined by single spaces; the last
    window is emitted even when it is shorter. The example of the
    specification evaluates to its three chunks, and the empty text gives
    the empty sequence. *)
Theorem simple_chunking_sliding_window
    (text : string) (chunk_size overlap : Z)
    (Hsize : 0 < chunk_size) (Hoverlap : overlap < chunk_size) :
  let words := Py.split text in
  let stride := chunk_size - overlap in
  let window (k : nat) :=
    take (Z.to_nat chunk_size) (drop (Z.to_nat (Z.of_nat k * stride)) words) in
  (∃ chunks,
      DocumentParser._simple_chunking text chunk_size overlap = inr chunks
      ∧ length chunks = windows (Py.len words) stride
      ∧ Py.len words ≤ Z.of_nat (length chunks) * stride
      ∧ ∀ (k : nat) c, chunks !! k = Some c →
          DocumentParser.chunk_index c = Z.of_nat k
          ∧ Z.of_nat k * stride < Py.len words
          ∧ window k ≠ []
          ∧ DocumentParser.text c = Py.join " " (window k)
          ∧ DocumentParser.word_count c = Py.len (window k)
          ∧ DocumentParser.char_count c
            = DocumentParser.str_len (DocumentParser.text c))
  ∧ DocumentParser._simple_chunking "a b c d e f g h" 4 1 =
    inr [ DocumentParser.Chunk 0 "a b c d" 4 7 None None;
          DocumentParser.Chunk 1 "d e f g" 4 7 None None;
          DocumentParser.Chunk 2 "g h" 2 3 None None ]
  ∧ DocumentParser._simple_chunking EmptyString chunk_size overlap = inr [].
Proof.
  intros words stride window.
  assert (0 < stride) as Hstride by (unfold stride; lia).
  split; [|split; [reflexivity|]].
  - unfold DocumentParser._simple_chunking. fold words. fold stride.
    rewrite range_positive_step by done. simpl.
    eexists. split; [reflexivity|].
    assert (length (DocumentParser.simple_loop words chunk_size
              ((λ k : nat, Z.of_nat k * stride)
                 <$> seq 0 (Z.to_nat ((Py.len words + stride - 1) / stride)))
              0) = windows (Py.len words) stride) as Hlen.
    { by rewrite simple_loop_length, length_fmap, length_seq. }
    split; [exact Hlen|]. split.
    { rewrite Hlen. apply windows_last; [done | unfold Py.len; lia]. }
    intros k c Hk.
    pose proof (lookup_lt_Some _ _ _ Hk) as Hlt. rewrite Hlen in Hlt.
    rewrite simple_loop_lookup, list_lookup_fmap in Hk.
    rewrite lookup_seq_lt in Hk by done. simpl in Hk.
    injection Hk as <-. simpl.
    pose proof (windows_start_lt _ _ _ Hstride Hlt) as Hstart.
    rewrite slice_nonneg by lia.
    replace (Z.of_nat k * stride + chunk_size - Z.of_nat k * stride)
      with chunk_size by lia.
    fold (window k).
    repeat split; try done; try lia.
    intros Hnil. apply (f_equal length) in Hnil.
    unfold window in Hnil. rewrite length_take, length_drop in Hnil.
    unfold Py.len in Hstart. simpl in Hnil. lia.
  - unfold DocumentParser._simple_chunking.
    change (Py.split EmptyString) with (@nil string).
    change (Py.len (@nil string)) with 0.
    rewrite range_positive_step by lia.
    assert ((0 + (chunk_size - overlap) - 1) / (chunk_size - overlap) < 1)
      by (apply Z.div_lt_upper_bound; lia).
    assert (0 ≤ (0 + (chunk_size - overlap) - 1) / (chunk_size - overlap))
      by (apply Z.div_pos; lia).
    by replace ((0 + (chunk_size - overlap) - 1) / (chunk_size - overlap))
      with 0 by lia.
Qed.

Lemma simple_chunking_sliding_window_witness :
  ∃ chunks,
    DocumentParser._simple_chunking "one two three" 2 1 = inr chunks
    ∧ length chunks = 3%nat.
Proof.
  destruct (simple_chunking_sliding_window "one two three" 2 1
              ltac:(lia) ltac:(lia)) as [(chunks & Hrun & Hlen & _) _].
  exists chunks. split; [exact Hrun|]. rewrite Hlen. reflexivity.
Defined.

Lemma simple_chunking_raises (text : string) (chunk_size overlap : Z) e :
  DocumentParser._simple_chunking text chunk_size overlap = inl e
  ↔ e = Py.ValueError ∧ overlap = chunk_size.
Proof.
  unfold DocumentParser._simple_chunking, Py.range.
  destruct (Z.eqb_spec (chunk_size - overlap) 0) as [Hz|Hnz]; simpl.
  - split; [intros [= <-]; split; [done | lia] | intros [-> _]; done].
  - destruct (0 <? chunk_size - overlap); simpl;
      (split; [discriminate | intros [_ ?]; lia]).
Qed.

Lemma simple_chunking_negative_stride (text : string) (chunk_size overlap : Z) :
  chunk_size < overlap →
  DocumentParser._simple_chunking text chunk_size overlap = inr [].
Proof.
  intros Hlt. unfold DocumentParser._simple_chunking.
  rewrite range_negative_step; [done | unfold Py.len; lia | lia].
Qed.

(** C5, as the code has it. The chunker has no check of its
    configuration. A call fails exactly when the stride is zero, that is
    when the overlap in force equals the chunk size in force and the
    word-mode chunker is the one in use; the failure is the [ValueError] of
    the zero step, raised before any chunk is built, so the caller gets the
    error and no chunks. An overlap above the chunk size is not rejected:
    the call returns normally. *)
Theorem chunking_rejects_zero_stride_only
    (nlp : option (string → list string)) (text : string)
    (chunk_size overlap : option Z) :
  (∀ e, DocumentParser.chunk_text nlp text chunk_size overlap = inl e
        ↔ nlp = None ∧ e = Py.ValueError
          ∧ Py.int_or overlap settings.CHUNK_OVERLAP
            = Py.int_or chunk_size settings.CHUNK_SIZE)
  ∧ (∀ size over e,
       DocumentParser._simple_chunking text size over = inl e
       ↔ e = Py.ValueError ∧ over = size)
  ∧ (∀ size over, size < over →
       ∃ chunks, DocumentParser._simple_chunking text size over = inr chunks).
Proof.
  split; [|split].
  - intros e. unfold DocumentParser.chunk_text.
    destruct nlp as [sents|].
    + split; [done | by intros [? ?]].
    + rewrite simple_chunking_raises.
      split; [by intros [? ?] | by intros (_ & ? & ?)].
  - intros size over e. apply simple_chunking_raises.
  - intros size over Hlt. exists [].
    by apply simple_chunking_negative_stride.
Qed.

Lemma chunking_rejects_zero_stride_only_witness :
  ∃ chunks, DocumentParser._simple_chunking "a b c" 2 3 = inr chunks.
Proof.
  apply (proj2 (proj2 (chunking_rejects_zero_stride_only
                         None "a b c" (Some 2) (Some 3))) 2 3).
  lia.
Defined.

(** C5 as stated fails: with [chunk_size = 2] and [overlap = 3] nothing is
    rejected, and the three words of the text are in no chunk. *)
Lemma chunking_overlap_above_size_not_rejected :
  3 ≥ 2
  ∧ DocumentParser._simple_chunking "a b c" 2 3 = inr []
  ∧ DocumentParser.chunk_text None "a b c" (Some 2) (Some 3) = inr []
  ∧ ¬ ∃ e, DocumentParser.chunk_text None "a b c" (Some 2) (Some 3) = inl e.
Proof.
  split; [lia|]. split; [reflexivity|]. split; [reflexivity|].
  intros [e He]. discriminate He.
Qed.
(** ** The vector index and the retriever *)

Section embedding.

Import EmbeddingService.

Variable load_model : Py.result (string → Faiss.vector).
Variable read_index : string → Py.result (list Faiss.vector).
Variable json_load : string → Py.result (list (string * chunk_info)).
Variable int_of_key : string → Py.result Z.
Variable fs : files.

Local Abbreviation initialize :=
  (initialize load_model read_index json_load int_of_key fs).
Local Abbreviation encode_texts :=
  (encode_texts load_model read_index json_load int_of_key fs).
Local Abbreviation encode_query :=
  (encode_query load_model read_index json_load int_of_key fs).
Local Abbreviation add_documents :=
  (add_documents load_model read_index json_load int_of_key fs).
Local Abbreviation search :=
  (search load_model read_index json_load int_of_key fs).
Local Abbreviation search_by_document :=
  (search_by_document load_model read_index json_load int_of_key fs).
Local Abbreviation run := (run load_model read_index json_load int_of_key fs).
Local Abbreviation apply_mutation :=
  (apply_mutation load_model read_index json_load int_of_key fs).

Lemma initialize_initialized st :
  is_initialized st = true → initialize st = (st, inr ()).
Proof. intros Hinit. unfold EmbeddingService.initialize. by rewrite Hinit. Qed.

Lemma initialize_ready st : ready st → initialize st = (st, inr ()).
Proof. intros (Hinit & _). by apply initialize_initialized. Qed.

Lemma encode_texts_ready st texts :
  ready st →
  ∃ encode, model st = Some encode
            ∧ encode_texts texts st = (st, inr (map encode texts)).
Proof.
  intros Hready. pose proof Hready as (_ & [encode Hm] & _).
  exists encode. split; [done|].
  unfold EmbeddingService.encode_texts, model_encode.
  by rewrite (initialize_ready _ Hready), Hm.
Qed.

Lemma encode_query_ready st query :
  ready st →
  ∃ encode, model st = Some encode
            ∧ encode_query query st = (st, inr (encode query)).
Proof.
  intros Hready. pose proof Hready as (_ & [encode Hm] & _).
  exists encode. split; [done|].
  unfold EmbeddingService.encode_query, model_encode.
  by rewrite (initialize_ready _ Hready), Hm.
Qed.

Lemma dense_empty : dense ∅.
Proof.
  intros k. rewrite lookup_empty, map_size_empty. split.
  - intros [? ?]; done.
  - lia.
Qed.

Lemma dense_next_free (dc : gmap Z chunk_info) :
  dense dc → dc !! Z.of_nat (size dc) = None.
Proof.
  intros Hd. apply eq_None_not_Some. rewrite (Hd _). lia.
Qed.

Lemma dense_insert (dc : gmap Z chunk_info) x :
  dense dc → dense (<[Z.of_nat (size dc) := x]> dc).
Proof.
  intros Hd k.
  rewrite map_size_insert_None by by apply dense_next_free.
  destruct (decide (Z.of_nat (size dc) = k)) as [<-|Hne].
  - rewrite lookup_insert_eq. split; [lia | eauto].
  - rewrite lookup_insert_ne by done. rewrite (Hd k). lia.
Qed.

Lemma dense_fmap (f : chunk_info → chunk_info) (dc : gmap Z chunk_info) :
  dense dc → dense (f <$> dc).
Proof.
  intros Hd k. rewrite lookup_fmap, map_size_fmap, fmap_is_Some. apply Hd.
Qed.

(** The loop of [add_documents] on a dense table: the chunks take the
    next free keys in their order, and no earlier key is written. *)
Lemma add_chunks_dense d chunks ids texts (dc : gmap Z chunk_info) :
  dense dc →
  ∃ dc',
    foldl (add_chunk d) (ids, texts, dc) chunks
    = (ids ++ (make_chunk_id d <$> chunks),
       texts ++ (DocumentParser.text <$> chunks), dc')
    ∧ dense dc'
    ∧ size dc' = (size dc + length chunks)%nat
    ∧ (∀ k, k < Z.of_nat (size dc) → dc' !! k = dc !! k)
    ∧ (∀ (i : nat) c, chunks !! i = Some c →
         dc' !! (Z.of_nat (size dc) + Z.of_nat i) = Some (chunk_entry d c)).
Proof.
  revert ids texts dc.
  induction chunks as [|c chunks IH]; intros ids texts dc Hd; simpl.
  - exists dc. rewrite !app_nil_r.
    split; [done|]. split; [done|]. split; [simpl; lia|]. split; [done|].
    intros i c Hc. rewrite lookup_nil in Hc. done.
  - destruct (IH (ids ++ [make_chunk_id d c])
                 (texts ++ [DocumentParser.text c])
                 (<[Z.of_nat (size dc) := chunk_entry d c]> dc)
                 (dense_insert _ _ Hd))
      as (dc' & Hrun & Hd' & Hsize & Hold & Hnew).
    rewrite map_size_insert_None in Hsize, Hold, Hnew
      by by apply dense_next_free.
    exists dc'. rewrite Hrun, <- !app_assoc. simpl.
    split; [done|]. split; [done|]. split; [lia|]. split.
    + intros k Hk. rewrite Hold by lia. apply lookup_insert_ne. lia.
    + intros [|i] c' Hc'; simpl in Hc'.
      * injection Hc' as <-. rewrite Z.add_0_r, Hold by lia.
        apply lookup_insert_eq.
      * rewrite <- (Hnew i c' Hc'). f_equal. lia.
Qed.

(** [add_documents] on a ready service: it returns the chunk
    identifiers, the index gets the embeddings of the texts as new rows,
    and the table gets the entries under the next keys. For an empty list
    of chunks nothing changes and the call raises [ValueError]. *)
Lemma add_documents_ready st d chunks :
  ready st →
  ∃ encode ix dc',
    model st = Some encode
    ∧ index st = Some ix
    ∧ add_documents d chunks st
      = (Service (Some encode)
                 (Some (ix ++ map encode (DocumentParser.text <$> chunks)))
                 dc' true,
         match chunks with
         | [] => inl Py.ValueError
         | _ :: _ => inr (make_chunk_id d <$> chunks)
         end)
    ∧ dense dc'
    ∧ size dc' = (size (document_chunks st) + length chunks)%nat
    ∧ (∀ k, k < slots st → dc' !! k = document_chunks st !! k)
    ∧ (∀ (i : nat) c, chunks !! i = Some c →
         dc' !! (slots st + Z.of_nat i) = Some (chunk_entry d c)).
Proof.
  intros Hready. pose proof Hready as (Hinit & [encode Hm] & [ix Hix] & Hd).
  unfold EmbeddingService.add_documents. rewrite (initialize_ready _ Hready).
  destruct (add_chunks_dense d chunks [] [] _ Hd)
    as (dc' & Hrun & Hd' & Hsize & Hold & Hnew).
  rewrite Hrun. simpl.
  assert (ready (set_document_chunks dc' st)) as Hready'.
  { split; [done|]. split; [by eexists|]. split; [by eexists | done]. }
  destruct (encode_texts_ready _ (DocumentParser.text <$> chunks) Hready')
    as (encode' & Hm' & ->).
  simpl in Hm'. rewrite Hm in Hm'. injection Hm' as <-.
  simpl. rewrite Hix.
  exists encode, ix, dc'. unfold set_index, set_document_chunks.
  destruct chunks as [|c chunks]; simpl; rewrite Hm, Hinit, ?Hix, ?app_nil_r;
    done.
Qed.

Lemma add_documents_preserves_ready st d chunks :
  ready st → ready (add_documents d chunks st).1.
Proof.
  intros Hready.
  destruct (add_documents_ready st d chunks Hready)
    as (encode & ix & dc' & _ & _ & -> & Hd' & _).
  split; [done|]. split; [by eexists|]. split; [by eexists | done].
Qed.

Lemma remove_document_preserves_ready st d :
  ready st → ready (remove_document d st).
Proof.
  intros (Hinit & Hm & Hix & Hd).
  split; [done|]. split; [done|]. split; [done|].
  simpl. by apply dense_fmap.
Qed.

Lemma apply_mutation_preserves_ready st m :
  ready st → ready (apply_mutation st m).
Proof.
  destruct m; simpl;
    [apply add_documents_preserves_ready
    | apply remove_document_preserves_ready].
Qed.

Lemma run_preserves_ready ms st : ready st → ready (run ms st).
Proof.
  revert st. induction ms as [|m ms IH]; intros st Hready; simpl; [done|].
  apply IH. by apply apply_mutation_preserves_ready.
Qed.

Lemma apply_mutation_preserves_aligned st m :
  ready st → aligned st → aligned (apply_mutation st m).
Proof.
  intros Hready (ix & Hix & Hlen). destruct m as [d chunks|d]; simpl.
  - destruct (add_documents_ready st d chunks Hready)
      as (encode & ix' & dc' & _ & Hix' & -> & _ & Hsize & _).
    rewrite Hix in Hix'. injection Hix' as <-.
    eexists. split; [reflexivity|]. simpl.
    rewrite length_app, length_map, length_fmap. lia.
  - exists ix. split; [done|]. simpl. by rewrite map_size_fmap.
Qed.

Lemma run_preserves_aligned ms st :
  ready st → aligned st → aligned (run ms st).
Proof.
  revert st. induction ms as [|m ms IH]; intros st Hready Hal; simpl; [done|].
  apply IH; [by apply apply_mutation_preserves_ready
            | by apply apply_mutation_preserves_aligned].
Qed.

Lemma same_entry_refl a : same_entry a a.
Proof. by repeat split. Qed.

Lemma same_entry_trans a b c : same_entry a b → same_entry b c → same_entry a c.
Proof.
  intros (? & ? & ? & ? & ?) (? & ? & ? & ? & ?).
  repeat split; congruence.
Qed.

Lemma same_entry_mark_removed d a : same_entry a (mark_removed d a).
Proof. unfold mark_removed. case_decide; by repeat split. Qed.

Lemma apply_mutation_keeps_entries st m k info :
  ready st → document_chunks st !! k = Some info →
  ∃ info', document_chunks (apply_mutation st m) !! k = Some info'
           ∧ same_entry info info'.
Proof.
  intros Hready Hk. destruct m as [d chunks|d]; simpl.
  - destruct (add_documents_ready st d chunks Hready)
      as (encode & ix & dc' & _ & _ & -> & _ & _ & Hold & _). simpl.
    exists info. split; [|apply same_entry_refl].
    rewrite Hold; [done|].
    destruct Hready as (_ & _ & _ & Hd). apply Hd. by eexists.
  - exists (mark_removed d info). split; [|apply same_entry_mark_removed].
    by rewrite lookup_fmap, Hk.
Qed.

Lemma run_keeps_entries ms st k info :
  ready st → document_chunks st !! k = Some info →
  ∃ info', document_chunks (run ms st) !! k = Some info'
           ∧ same_entry info info'.
Proof.
  revert st info. induction ms as [|m ms IH]; intros st info Hready Hk; simpl.
  - exists info. split; [done | apply same_entry_refl].
  - destruct (apply_mutation_keeps_entries st m k info Hready Hk)
      as (info1 & Hk1 & Hsame1).
    destruct (IH _ info1 (apply_mutation_preserves_ready st m Hready) Hk1)
      as (info2 & Hk2 & Hsame2).
    exists info2. split; [done | by eapply same_entry_trans].
Qed.

Lemma remove_document_slots st d : slots (remove_document d st) = slots st.
Proof. unfold slots. simpl. by rewrite map_size_fmap. Qed.

Lemma apply_mutation_slots_le st m :
  ready st → slots st ≤ slots (apply_mutation st m).
Proof.
  intros Hready. destruct m as [d chunks|d]; simpl.
  - destruct (add_documents_ready st d chunks Hready)
      as (encode & ix & dc' & _ & _ & -> & _ & Hsize & _).
    unfold slots. simpl. lia.
  - by rewrite remove_document_slots.
Qed.

Lemma run_slots_le ms st : ready st → slots st ≤ slots (run ms st).
Proof.
  revert st. induction ms as [|m ms IH]; intros st Hready; simpl; [done|].
  etrans; [by apply apply_mutation_slots_le|].
  apply IH. by apply apply_mutation_preserves_ready.
Qed.

(** C9. From a ready index and through every run of [add_documents] and
    [remove_document] calls before and after it, a call of [add_documents]
    gives its chunks the keys [len, len + 1, ...] in input order: each key
    is free before the call and above every key in use, the table grows by
    the number of chunks, and the entry stays under its key for the rest of
    the run (only its [deleted] key may change). [remove_document] leaves
    the set of keys, their number and the rows of the index as they are,
    and the rows of the index stay in step with the keys. *)
Theorem slot_ids_increasing_never_reused
    (st : t) (ms1 : list mutation) (d : string)
    (chunks : list DocumentParser.chunk) (ms2 : list mutation)
    (Hready : ready st) :
  let before := run ms1 st in
  let after := (add_documents d chunks before).1 in
  let final := run ms2 after in
  slots after = slots before + Py.len chunks
  ∧ slots after ≤ slots final
  ∧ (∀ d', slots (remove_document d' final) = slots final
           ∧ index (remove_document d' final) = index final
           ∧ ∀ k, is_Some (document_chunks (remove_document d' final) !! k)
                  ↔ is_Some (document_chunks final !! k))
  ∧ (aligned st → aligned final)
  ∧ ∀ (i : nat) c, chunks !! i = Some c →
      let slot := slots before + Z.of_nat i in
      document_chunks before !! slot = None
      ∧ (∀ k, is_Some (document_chunks before !! k) → k < slot)
      ∧ document_chunks after !! slot = Some (chunk_entry d c)
      ∧ ∃ info, document_chunks final !! slot = Some info
                ∧ same_entry (chunk_entry d c) info.
Proof.
  intros before after final.
  assert (ready before) as Hbefore by by apply run_preserves_ready.
  assert (ready after) as Hafter by by apply add_documents_preserves_ready.
  destruct (add_documents_ready before d chunks Hbefore)
    as (encode & ix & dc' & _ & _ & Hadd & _ & Hsize & _ & Hnew).
  assert (document_chunks after = dc') as Hdc by (unfold after; by rewrite Hadd).
  split; [|split; [|split; [|split]]].
  - unfold slots, Py.len. rewrite Hdc. lia.
  - by apply run_slots_le.
  - intros d'. split; [apply remove_document_slots|]. split; [done|].
    intros k. simpl. by rewrite lookup_fmap, fmap_is_Some.
  - intros Hal. apply run_preserves_aligned; [done|].
    apply (apply_mutation_preserves_aligned before (Add d chunks)); [done|].
    by apply run_preserves_aligned.
  - intros i c Hc slot.
    pose proof Hbefore as (_ & _ & _ & Hdense).
    split; [|split; [|split]].
    + apply eq_None_not_Some. rewrite (Hdense slot). unfold slot, slots. lia.
    + intros k Hk. apply Hdense in Hk. unfold slot, slots. lia.
    + rewrite Hdc. by apply Hnew.
    + apply run_keeps_entries; [done|]. rewrite Hdc. by apply Hnew.
Qed.

Lemma collect_dense (dc : gmap Z chunk_info) (hits : list (Q * Z)) :
  dense dc → collect dc hits = inr (hit_results dc hits).
Proof.
  intros Hd. induction hits as [|[score idx] hits IH]; simpl; [done|].
  unfold hit_results in *. simpl.
  destruct ((0 <=? idx) && (idx <? Z.of_nat (size dc))) eqn:Hin.
  - destruct (proj2 (Hd idx)) as [ci Hci]; [lia|].
    rewrite Hci, IH. done.
  - rewrite IH.
    assert (dc !! idx = None) as ->; [|done].
    apply eq_None_not_Some. rewrite (Hd idx). lia.
Qed.

(** The index returns exactly [k] hits: the best rows, then the filler. *)
Lemma faiss_search_length (ix : list Faiss.vector) (q : Faiss.vector) (k : Z) :
  0 < k →
  ∃ hits, Faiss.search ix q k = inr hits
          ∧ length hits = Z.to_nat k
          ∧ hits = take (Z.to_nat k)
                     (Py.sorted_desc fst (Faiss.scored ix q)
                      ++ replicate (Z.to_nat k) (Faiss.missing_score, -1)).
Proof.
  intros Hk. unfold Faiss.search.
  destruct (Z.leb_spec k 0) as [?|_]; [lia|].
  eexists. split; [reflexivity|].
  set (l := Py.sorted_desc fst (Faiss.scored ix q)).
  split.
  - rewrite length_app, length_replicate, length_take. lia.
  - rewrite take_app.
    destruct (decide (Z.to_nat k ≤ length l)%nat) as [Hle|Hgt].
    + rewrite length_take_le by done.
      replace (Z.to_nat k - length l)%nat with 0%nat by lia.
      by rewrite Nat.sub_diag.
    + rewrite (take_ge l) by lia. f_equal.
      by rewrite take_replicate, Nat.min_l by lia.
Qed.

Lemma faiss_search_nonpositive (ix : list Faiss.vector) (q : Faiss.vector)
    (k : Z) :
  k ≤ 0 → Faiss.search ix q k = inl Py.AssertionError.
Proof.
  intros Hk. unfold Faiss.search. by destruct (Z.leb_spec k 0); [|lia].
Qed.

Lemma search_ready st query top_k :
  ready st → 0 < Py.int_or top_k settings.MAX_RETRIEVAL_RESULTS →
  ∃ encode ix hits,
    model st = Some encode
    ∧ index st = Some ix
    ∧ Faiss.search ix (encode query)
        (Py.int_or top_k settings.MAX_RETRIEVAL_RESULTS) = inr hits
    ∧ length hits
      = Z.to_nat (Py.int_or top_k settings.MAX_RETRIEVAL_RESULTS)
    ∧ search query top_k st
      = (st, inr (hit_results (document_chunks st) hits)).
Proof.
  intros Hready Hk. pose proof Hready as (_ & _ & [ix Hix] & Hd).
  destruct (encode_query_ready st query Hready) as (encode & Hm & Henc).
  destruct (faiss_search_length ix (encode query) _ Hk)
    as (hits & Hhits & Hlen & _).
  exists encode, ix, hits.
  split; [done|]. split; [done|]. split; [done|]. split; [done|].
  unfold EmbeddingService.search.
  rewrite (initialize_ready _ Hready), Henc, Hix, Hhits. simpl.
  by rewrite collect_dense.
Qed.

Lemma search_by_document_none query document_id st :
  ∃ st' e, search_by_document query document_id None st = (st', inl e)
           ∧ (is_initialized st = true → st' = st ∧ e = Py.TypeError)
           ∧ (∀ u, initialize st = (st', inr u) → e = Py.TypeError).
Proof.
  unfold EmbeddingService.search_by_document.
  destruct (initialize st) as [st' [e|u]] eqn:Hinit.
  - exists st', e. split; [done|]. split.
    + intros Hi. rewrite (initialize_initialized _ Hi) in Hinit. done.
    + intros u [=].
  - exists st', Py.TypeError. split; [done|]. split; [|done].
    intros Hi. rewrite (initialize_initialized _ Hi) in Hinit.
    by injection Hinit as <-.
Qed.

(** C10. With [top_k] left at its default [None], [search_by_document]
    never returns, for every query, document and state of the service:
    once the service is initialised, [top_k * 2] is evaluated before the
    default is put in and raises [TypeError]. So a call that returns
    results was given an integer; and on a ready index every positive
    integer does give results. *)
Theorem search_by_document_default_top_k_raises
    (query document_id : string) (st : t) :
  (∃ st' e, search_by_document query document_id None st = (st', inl e))
  ∧ (is_initialized st = true →
       search_by_document query document_id None st = (st, inl Py.TypeError))
  ∧ (∀ st' u, initialize st = (st', inr u) →
       search_by_document query document_id None st
       = (st', inl Py.TypeError))
  ∧ (∀ top_k results,
       (search_by_document query document_id top_k st).2 = inr results →
       ∃ k, top_k = Some k)
  ∧ (∀ k, ready st → 0 < k →
       ∃ results,
         (search_by_document query document_id (Some k) st).2 = inr results).
Proof.
  destruct (search_by_document_none query document_id st)
    as (st' & e & Hrun & Hinit & Hload).
  split; [by exists st', e|]. split; [|split; [|split]].
  - intros Hi. destruct (Hinit Hi) as [-> ->]. done.
  - intros st'' u Hi. unfold EmbeddingService.search_by_document.
    by rewrite Hi.
  - intros [k|] results Hres; [by exists k|].
    rewrite Hrun in Hres. discriminate Hres.
  - intros k Hready Hk.
    unfold EmbeddingService.search_by_document.
    rewrite (initialize_ready _ Hready).
    destruct (search_ready st query (Some (k * 2)) Hready)
      as (encode & ix & hits & _ & _ & _ & _ & ->).
    { unfold Py.int_or. destruct (Z.eqb_spec (k * 2) 0); lia. }
    simpl. eauto.
Qed.

(** C7. On a ready index and for every query, target document and
    positive [top_k], [search_by_document] asks the index for exactly
    [2 * top_k] hits, keeps of the results those whose [document_id] is the
    target, and returns the first [top_k] of them: every result belongs to
    the target document, and when fewer than [top_k] are left after the
    filter all of them, and nothing else, are returned. *)
Theorem search_by_document_overfetches_and_filters
    (query target : string) (top_k : Z) (st : t)
    (Hready : ready st) (Hpos : 0 < top_k) :
  ∃ encode ix hits,
    model st = Some encode
    ∧ index st = Some ix
    ∧ Faiss.search ix (encode query) (2 * top_k) = inr hits
    ∧ length hits = Z.to_nat (2 * top_k)
    ∧ let all_results := hit_results (document_chunks st) hits in
      let document_results :=
        filter (λ r, document_id r = target) all_results in
      let results := take (Z.to_nat top_k) document_results in
      search query (Some (top_k * 2)) st = (st, inr all_results)
      ∧ search_by_document query target (Some top_k) st = (st, inr results)
      ∧ Forall (λ r, document_id r = target) results
      ∧ Z.of_nat (length results) ≤ top_k
      ∧ (Z.of_nat (length document_results) < top_k →
           results = document_results).
Proof.
  assert (Py.int_or (Some (top_k * 2)) settings.MAX_RETRIEVAL_RESULTS
          = 2 * top_k) as Hk.
  { unfold Py.int_or. destruct (Z.eqb_spec (top_k * 2) 0); lia. }
  assert (Py.int_or (Some top_k) settings.MAX_RETRIEVAL_RESULTS = top_k)
    as Hk'.
  { unfold Py.int_or. destruct (Z.eqb_spec top_k 0); lia. }
  destruct (search_ready st query (Some (top_k * 2)) Hready)
    as (encode & ix & hits & Hm & Hix & Hhits & Hlen & Hsearch); [lia|].
  rewrite Hk in Hhits, Hlen.
  exists encode, ix, hits.
  split; [done|]. split; [done|]. split; [done|]. split; [done|].
  intros all_results document_results results.
  split; [done|]. split; [|split; [|split]].
  - unfold EmbeddingService.search_by_document.
    rewrite (initialize_ready _ Hready), Hsearch, Hk'.
    rewrite slice_to_nonneg by lia. done.
  - apply Forall_take, Forall_forall. intros r Hr.
    by apply list_elem_of_filter in Hr as [? _].
  - unfold results. rewrite length_take. lia.
  - intros Hfew. unfold results. apply take_ge. lia.
Qed.

(** [_load_index] on an unreadable store: the index stays or becomes the
    empty one, and the table is kept (a file is missing) or emptied (a
    read raised). *)
Lemma load_index_unreadable (m : option (string → Faiss.vector))
    (dc : gmap Z chunk_info) (b : bool) :
  unreadable read_index json_load int_of_key fs →
  ∃ dc', _load_index read_index json_load int_of_key fs
           (Service m (Some []) dc b)
         = Service m (Some []) dc' b
         ∧ (dc' = dc ∨ dc' = ∅).
Proof.
  unfold unreadable, _load_index, _load_index_try.
  intros Hbad.
  destruct (faiss_file fs) as [fb|], (metadata_file fs) as [mb|]; simpl;
    try (exists dc; split; [done | by left]).
  destruct (read_index fb) as [e|ix'] eqn:Hread; simpl.
  { exists ∅. split; [done | by right]. }
  destruct (json_load mb ≫= (λ items, int_keys int_of_key items ∅))
    as [e|dc''] eqn:Hload; simpl.
  { exists ∅. split; [done | by right]. }
  exfalso.
  destruct Hbad as [?|[?|[(bytes & e & Hb & He)|(bytes & e & Hb & He)]]];
    try done.
  - injection Hb as <-. congruence.
  - injection Hb as <-. congruence.
Qed.

(** C8. When the index file or the metadata file is missing, or reading
    either of them raises, [initialize] on a new service (whose embedding
    model loads) raises nothing and ends with the empty index and the
    empty table; the service is ready, and a search on it returns the
    empty list. *)
Theorem restore_falls_back_to_fresh_index
    (encode : string → Faiss.vector)
    (Hmodel : load_model = inr encode)
    (Hbad : unreadable read_index json_load int_of_key fs) :
  let fresh := Service (Some encode) (Some []) ∅ true in
  initialize new = (fresh, inr ())
  ∧ ready fresh
  ∧ aligned fresh
  ∧ ∀ query k, 0 < k → search query (Some k) new = (fresh, inr []).
Proof.
  intros fresh.
  assert (initialize new = (fresh, inr ())) as Hinit.
  { unfold EmbeddingService.initialize, new. simpl. rewrite Hmodel.
    destruct (load_index_unreadable (Some encode) ∅ false Hbad)
      as (dc' & Hload & Hdc).
    unfold set_index, set_model. simpl. rewrite Hload.
    by destruct Hdc as [->| ->]. }
  assert (ready fresh) as Hfresh.
  { split; [done|]. split; [by eexists|].
    split; [by eexists | apply dense_empty]. }
  split; [done|]. split; [done|]. split; [by exists []|].
  intros query k Hk.
  unfold EmbeddingService.search. rewrite Hinit.
  destruct (encode_query_ready fresh query Hfresh) as (encode' & [= <-] & ->).
  simpl. unfold Py.int_or. destruct (Z.eqb_spec k 0) as [?|_]; [lia|].
  destruct (faiss_search_length [] (encode query) k Hk)
    as (hits & -> & _ & ->). simpl.
  rewrite collect_dense by apply dense_empty. f_equal. f_equal.
  unfold hit_results. induction (take _ _) as [|h hs IH]; [done|].
  simpl. by rewrite lookup_empty.
Qed.

End embedding.

Lemma ready_fresh_service : ready fresh_service.
Proof.
  split; [reflexivity|]. split; [by eexists|].
  split; [by eexists | apply dense_empty].
Qed.

Lemma ready_example_service : ready example_service.
Proof.
  split; [reflexivity|]. split; [by eexists|]. split; [by eexists|].
  apply dense_insert, dense_empty.
Qed.

Lemma search_by_document_default_top_k_raises_witness :
  EmbeddingService.search_by_document (inr unit_encode) no_read_index
    no_json_load no_int_of_key no_files "hello" "doc" None example_service
  = (example_service, inl Py.TypeError)
  ∧ ∃ results,
      (EmbeddingService.search_by_document (inr unit_encode) no_read_index
         no_json_load no_int_of_key no_files "hello" "doc" (Some 2)
         example_service).2 = inr results.
Proof.
  pose proof (search_by_document_default_top_k_raises
                (inr unit_encode) no_read_index no_json_load
                no_int_of_key no_files "hello" "doc" example_service)
    as (_ & Hnone & _ & _ & Hsome).
  split.
  - apply Hnone. reflexivity.
  - apply (Hsome 2); [exact ready_example_service | lia].
Defined.

Lemma search_by_document_overfetches_and_filters_witness :
  ∃ results,
    EmbeddingService.search_by_document (inr unit_encode) no_read_index
      no_json_load no_int_of_key no_files "hello" "doc" (Some 3)
      example_service = (example_service, inr results)
    ∧ Forall (λ r, EmbeddingService.document_id r = "doc") results.
Proof.
  destruct (search_by_document_overfetches_and_filters
              (inr unit_encode) no_read_index no_json_load no_int_of_key
              no_files "hello" "doc" 3 example_service
              ready_example_service ltac:(lia))
    as (encode & ix & hits & _ & _ & _ & _ & _ & Hrun & Hdoc & _).
  eexists. split; [exact Hrun | exact Hdoc].
Defined.

Lemma restore_falls_back_to_fresh_index_witness :
  EmbeddingService.initialize (inr unit_encode) one_row_index no_json_load
    no_int_of_key corrupt_files EmbeddingService.new
  = (fresh_service, inr ()).
Proof.
  apply (restore_falls_back_to_fresh_index (inr unit_encode) one_row_index
           no_json_load no_int_of_key corrupt_files unit_encode).
  - reflexivity.
  - right. right. right. exists "{", Py.ValueError. split; reflexivity.
Defined.

Lemma slot_ids_increasing_never_reused_witness :
  let before :=
    run (inr unit_encode) no_read_index no_json_load no_int_of_key no_files
      [Add "a" [example_chunk]; Remove "a"] fresh_service in
  let after :=
    (EmbeddingService.add_documents (inr unit_encode) no_read_index
       no_json_load no_int_of_key no_files "doc"
       [example_chunk; example_chunk] before).1 in
  EmbeddingService.slots after
  = EmbeddingService.slots before + Py.len [example_chunk; example_chunk].
Proof.
  apply (slot_ids_increasing_never_reused (inr unit_encode) no_read_index
           no_json_load no_int_of_key no_files fresh_service
           [Add "a" [example_chunk]; Remove "a"] "doc"
           [example_chunk; example_chunk] [Remove "doc"]
           ready_fresh_service).
Defined.

(** ** Removal and search *)

Lemma hit_results_cons (dc : gmap Z EmbeddingService.chunk_info)
    (score : Q) (idx : Z) (hits : list (Q * Z)) :
  hit_results dc ((score, idx) :: hits)
  = match dc !! idx with
    | Some c => EmbeddingService.set_similarity_score score c
                :: hit_results dc hits
    | None => hit_results dc hits
    end.
Proof. unfold hit_results. simpl. by destruct (dc !! idx). Qed.

Lemma hit_results_mark_removed (d : string)
    (dc : gmap Z EmbeddingService.chunk_info) (hits : list (Q * Z)) :
  hit_results (mark_removed d <$> dc) hits
  = mark_removed d <$> hit_results dc hits.
Proof.
  induction hits as [|[score idx] hits IH]; [done|].
  rewrite !hit_results_cons, IH, lookup_fmap.
  destruct (dc !! idx) as [ci|]; simpl; [|done].
  f_equal. unfold mark_removed. simpl. by case_decide.
Qed.

(** What a search sees of [remove_document]: the same hits give the same
    entries, those of the removed document included, with the key
    [deleted] set. *)
Lemma search_after_remove_document
    load_model read_index json_load int_of_key fs
    (query d : string) (top_k : option Z) (st : EmbeddingService.t) :
  ready st → 0 < Py.int_or top_k settings.MAX_RETRIEVAL_RESULTS →
  ∃ results,
    EmbeddingService.search load_model read_index json_load int_of_key fs
      query top_k st = (st, inr results)
    ∧ EmbeddingService.search load_model read_index json_load int_of_key fs
        query top_k (EmbeddingService.remove_document d st)
      = (EmbeddingService.remove_document d st,
         inr (mark_removed d <$> results)).
Proof.
  intros Hready Hk.
  destruct (search_ready load_model read_index json_load int_of_key fs
              st query top_k Hready Hk)
    as (encode & ix & hits & Hm & Hix & Hhits & _ & Hsearch).
  destruct (search_ready load_model read_index json_load int_of_key fs
              (EmbeddingService.remove_document d st) query top_k
              (remove_document_preserves_ready st d Hready) Hk)
    as (encode' & ix' & hits' & Hm' & Hix' & Hhits' & _ & Hsearch').
  simpl in Hm', Hix'. rewrite Hm in Hm'. injection Hm' as <-.
  rewrite Hix in Hix'. injection Hix' as <-.
  rewrite Hhits in Hhits'. injection Hhits' as <-.
  eexists. split; [exact Hsearch|].
  rewrite Hsearch'. simpl. f_equal. f_equal.
  apply hit_results_mark_removed.
Qed.

(** The state after one chunk is added to a fresh service and its
    document is removed, and the search on it. *)
Lemma search_after_add_and_remove
    (encode : string → Faiss.vector) read_index json_load int_of_key
    (query d : string) (c : DocumentParser.chunk) :
  let st0 :=
    (EmbeddingService.initialize (inr encode) read_index json_load
       int_of_key no_files EmbeddingService.new).1 in
  let st1 :=
    (EmbeddingService.add_documents (inr encode) read_index json_load
       int_of_key no_files d [c] st0).1 in
  let st2 := EmbeddingService.remove_document d st1 in
  st2 = EmbeddingService.Service
          (Some encode)
          (Some [encode (DocumentParser.text c)])
          {[ 0 := EmbeddingService.set_deleted true
                    (EmbeddingService.chunk_entry d c) ]}
          true
  ∧ EmbeddingService.search (inr encode) read_index json_load int_of_key
      no_files query (Some 1) st2
    = (st2,
       inr [ EmbeddingService.set_similarity_score
               (Faiss.inner_product (encode query)
                                    (encode (DocumentParser.text c)))
               (EmbeddingService.set_deleted true
                  (EmbeddingService.chunk_entry d c)) ]).
Proof.
  intros st0 st1 st2.
  assert (st2 = EmbeddingService.Service
                  (Some encode)
                  (Some [encode (DocumentParser.text c)])
                  {[ 0 := EmbeddingService.set_deleted true
                            (EmbeddingService.chunk_entry d c) ]}
                  true) as Hst.
  { unfold st2, st1, st0, EmbeddingService.remove_document,
      EmbeddingService.set_document_chunks. simpl. f_equal.
    change (size (∅ : gmap Z EmbeddingService.chunk_info)) with 0%nat.
    simpl. rewrite insert_empty, map_fmap_singleton. simpl.
    by rewrite decide_True. }
  split; [done|]. rewrite Hst.
  unfold EmbeddingService.search. simpl.
  rewrite map_size_singleton. simpl.
  by rewrite lookup_singleton_eq.
Qed.

(** C1 at a failing input. The chunk [hello] is added for the document
    [doc] to a fresh index and the document is removed: no chunk counts as
    active any more, and yet a search for the single best hit returns the
    chunk of the removed document, its [deleted] key set. [search] does not
    read the key. *)
Theorem search_returns_removed_document :
  let st0 :=
    (EmbeddingService.initialize (inr unit_encode) no_read_index
       no_json_load no_int_of_key no_files EmbeddingService.new).1 in
  let st1 :=
    (EmbeddingService.add_documents (inr unit_encode) no_read_index
       no_json_load no_int_of_key no_files "doc" [example_chunk] st0).1 in
  let st2 := EmbeddingService.remove_document "doc" st1 in
  EmbeddingService.active_chunks st2 = 0
  ∧ ∃ r, (EmbeddingService.search (inr unit_encode) no_read_index
            no_json_load no_int_of_key no_files "hello" (Some 1) st2).2
         = inr [r]
         ∧ EmbeddingService.document_id r = "doc"
         ∧ EmbeddingService.text r = "hello"
         ∧ EmbeddingService.deleted r = Some true.
Proof.
  split; [by vm_compute|].
  eexists. split.
  - by rewrite (proj2 (search_after_add_and_remove unit_encode no_read_index
                         no_json_load no_int_of_key "hello" "doc"
                         example_chunk)).
  - done.
Qed.

(** ** The stable descending sort *)

Section sorted_desc.

Context {A : Type} (key : A → Q).

Lemma insert_desc_perm (x : A) (l : list A) :
  Py.insert_desc key x l ≡ₚ x :: l.
Proof.
  induction l as [|y l IH]; simpl; [done|].
  destruct (Qle_bool (key y) (key x)); [done|].
  rewrite IH. apply Permutation_swap.
Qed.

Lemma sorted_desc_perm (l : list A) : Py.sorted_desc key l ≡ₚ l.
Proof.
  induction l as [|x l IH]; simpl; [done|].
  by rewrite insert_desc_perm, IH.
Qed.

Lemma insert_desc_descending (x : A) (l : list A) :
  descending key l → descending key (Py.insert_desc key x l).
Proof.
  unfold descending. induction l as [|y l IH]; intros Hl; simpl.
  - by repeat constructor.
  - apply StronglySorted_inv in Hl as [Hl Hy].
    destruct (Qle_bool (key y) (key x)) eqn:Hle.
    + apply Qle_bool_iff in Hle.
      constructor; [by constructor|].
      constructor; [done|].
      eapply Forall_impl; [exact Hy|]. simpl. intros z Hz.
      by eapply Qle_trans.
    + assert (key x < key y)%Q as Hlt.
      { apply Qnot_le_lt. intros Hle'. apply Qle_bool_iff in Hle'. congruence. }
      constructor; [by apply IH|].
      rewrite insert_desc_perm. constructor; [by apply Qlt_le_weak | done].
Qed.

Lemma sorted_desc_descending (l : list A) : descending key (Py.sorted_desc key l).
Proof.
  induction l as [|x l IH]; simpl; [constructor|].
  by apply insert_desc_descending.
Qed.

Lemma insert_desc_with_key (c : Q) (x : A) (l : list A) :
  with_key key c (Py.insert_desc key x l) = with_key key c (x :: l).
Proof.
  unfold with_key. induction l as [|y l IH]; simpl; [done|].
  destruct (Qle_bool (key y) (key x)) eqn:Hle; [done|].
  rewrite (filter_cons _ y), IH, !(filter_cons _ x), !(filter_cons _ y).
  destruct (decide (Qeq_bool (key y) c = true)) as [Hy|Hy]; [|done].
  destruct (decide (Qeq_bool (key x) c = true)) as [Hx|Hx]; [|done].
  exfalso. apply Qeq_bool_iff in Hx, Hy.
  assert (Qle_bool (key y) (key x) = true); [|congruence].
  apply Qle_bool_iff. rewrite Hx, Hy. apply Qle_refl.
Qed.

(** Stability: the elements of equal key come out in their input order. *)
Lemma sorted_desc_stable (c : Q) (l : list A) :
  with_key key c (Py.sorted_desc key l) = with_key key c l.
Proof.
  induction l as [|x l IH]; simpl; [done|].
  rewrite insert_desc_with_key. unfold with_key in *.
  by rewrite !(filter_cons _ x), IH.
Qed.

End sorted_desc.
(** ** The reranker *)

Section reranking.

Import EmbeddingService RerankingService.

Variable load_cross_encoder : Py.result (string → string → Q).
Variable load_bi_encoder : Py.result RerankingService.bi_model.

Local Abbreviation initialize :=
  (initialize load_cross_encoder load_bi_encoder).
Local Abbreviation rerank_results :=
  (rerank_results load_cross_encoder load_bi_encoder).

(** The mode is chosen by [initialize]: the cross-encoder when it loads,
    the bi-encoder when loading it raises [ImportError]. *)
Lemma initialize_selects_mode :
  (∀ predict, load_cross_encoder = inr predict →
     initialize new = (Service (Some (cross_encoder predict)) true, inr ()))
  ∧ (∀ encode, load_cross_encoder = inl Py.ImportError →
       load_bi_encoder = inr encode →
       initialize new = (Service (Some (bi_encoder encode)) true, inr ()))
  ∧ (∀ m st, reranker_ready m st → initialize st = (st, inr ())).
Proof.
  unfold RerankingService.initialize. split; [|split].
  - by intros predict ->.
  - by intros encode -> ->.
  - intros m st Hr. unfold reranker_ready in Hr. by subst st.
Qed.

Lemma score_result_idempotent m query r :
  score_result m query (score_result m query r) = score_result m query r.
Proof. by destruct m. Qed.

Lemma score_result_combined m query r :
  is_Some (combined_score (score_result m query r)).
Proof. destruct m; by eexists. Qed.

Lemma rerank_results_ready m query search_results top_k st :
  reranker_ready m st →
  rerank_results query search_results top_k st
  = (st,
     inr (score_result m query <$> search_results,
          match search_results with
          | [] => []
          | _ :: _ =>
              Py.slice_to
                (Py.sorted_desc combined_key
                   (score_result m query <$> search_results))
                (Py.int_or top_k settings.TOP_K_RERANK)
          end)).
Proof.
  intros Hr. unfold reranker_ready in Hr. subst st.
  unfold RerankingService.rerank_results. simpl.
  by destruct search_results.
Qed.

Lemma reranked_are_scored_candidates m query search_results top_k st
    updated returned r :
  reranker_ready m st →
  (rerank_results query search_results top_k st).2 = inr (updated, returned) →
  r ∈ returned →
  ∃ r0, r0 ∈ search_results ∧ r = score_result m query r0.
Proof.
  intros Hready. rewrite (rerank_results_ready m) by done. simpl.
  intros [= <- <-].
  destruct search_results as [|r1 rest]; [by intros ?%elem_of_nil|].
  intros Hr.
  assert (r ∈ score_result m query <$> r1 :: rest) as Hin.
  { rewrite <- (sorted_desc_perm combined_key).
    by apply (slice_subseteq _ 0 _) in Hr. }
  apply list_elem_of_fmap in Hin as (r0 & -> & Hr0). eauto.
Qed.

Lemma reranked_have_combined_score m query search_results top_k st
    updated returned :
  reranker_ready m st →
  (rerank_results query search_results top_k st).2 = inr (updated, returned) →
  Forall (λ r, is_Some (combined_score r)) returned.
Proof.
  intros Hready Hrun. apply Forall_forall. intros r Hr.
  destruct (reranked_are_scored_candidates m query search_results top_k st
              updated returned r Hready Hrun Hr) as (r0 & _ & ->).
  apply score_result_combined.
Qed.

(** C4, as the code has it. Every result of [rerank_results] is an input
    candidate with its two scores assigned: in cross-encoder mode the
    rerank score is the score of the pair and [combined_score] is [0.3 *
    similarity_score + 0.7 * rerank_score]; in bi-encoder mode the rerank
    score is the product of the two embeddings and [combined_score] is
    [0.5 * similarity_score + 0.5 * rerank_score]. The arithmetic is
    double precision: the literals, the two products and the sum are each
    rounded to the nearest number. With [similarity_score = 0.8] and a
    pair score of [0.6] the cross-encoder [combined_score] is the number
    [0.6599999999999999], which is below [0.66] by less than [2 ^ -52]. *)
Theorem rerank_combined_score_weights
    (m : reranker) (query : string) (search_results : list chunk_info)
    (top_k : option Z) (st : t)
    (Hready : reranker_ready m st) :
  ∃ returned,
    rerank_results query search_results top_k st
    = (st, inr (score_result m query <$> search_results, returned))
    ∧ (∀ r, r ∈ returned →
         ∃ r0, r0 ∈ search_results ∧ r = score_result m query r0)
    ∧ (∀ r0,
         let r := score_result m query r0 in
         match m with
         | cross_encoder predict =>
             let rerank_score := predict query (text r0) in
             cross_encoder_score r = Some rerank_score
             ∧ combined_score r
               = Some (Float64.add
                         (Float64.mul (Float64.of_Q (3 # 10))
                                      (similarity_or_zero r0))
                         (Float64.mul (Float64.of_Q (7 # 10)) rerank_score))
         | bi_encoder encoder =>
             let rerank_score :=
               bi_dot encoder (bi_encode encoder query)
                      (bi_encode encoder (text r0)) in
             cross_encoder_score r = Some rerank_score
             ∧ combined_score r
               = Some (Float64.add
                         (Float64.mul (Float64.of_Q (1 # 2))
                                      (similarity_or_zero r0))
                         (Float64.mul (Float64.of_Q (1 # 2)) rerank_score))
         end)
    ∧ (∀ predict r0,
         m = cross_encoder predict →
         similarity_score r0 = Some (Float64.of_Q (8 # 10)) →
         predict query (text r0) = Float64.of_Q (6 # 10) →
         ∃ c, combined_score (score_result m query r0) = Some c
              ∧ c = (2972375754064527 # 4503599627370496)%Q
              ∧ (c < 66 # 100)%Q
              ∧ ((66 # 100) - c < 1 # 4503599627370496)%Q).
Proof.
  eexists. split; [by apply rerank_results_ready|].
  split; [|split].
  - intros r. eapply reranked_are_scored_candidates; [done|].
    by rewrite (rerank_results_ready m).
  - intros r0. by destruct m.
  - intros predict r0 -> Hs Hp. eexists. split; [reflexivity|].
    cbn [combined_score score_result score_cross_encoder
         set_combined_score].
    unfold similarity_or_zero. rewrite Hs, Hp. cbn [default].
    by vm_compute.
Qed.

(** C6, as the code has it. The candidates with their scores assigned are
    sorted by [combined_score] in descending order by a stable sort
    (candidates of equal [combined_score] keep their input order), and the
    first [k] are returned, where [k] is [top_k] when it is positive and
    the default of 5 when it is [None] or [0]. Running the reranker again
    on the candidate list it has updated returns the same list in the same
    order, and an empty input gives the empty list. *)
Theorem rerank_sorts_stably_and_truncates
    (m : reranker) (query : string) (search_results : list chunk_info)
    (top_k : option Z) (st : t)
    (Hready : reranker_ready m st)
    (Hk : 0 < Py.int_or top_k settings.TOP_K_RERANK) :
  let k := Py.int_or top_k settings.TOP_K_RERANK in
  let scored := score_result m query <$> search_results in
  let sorted := Py.sorted_desc combined_key scored in
  rerank_results query search_results top_k st
  = (st, inr (scored, take (Z.to_nat k) sorted))
  ∧ sorted ≡ₚ scored
  ∧ descending combined_key sorted
  ∧ (∀ c, with_key combined_key c sorted = with_key combined_key c scored)
  ∧ rerank_results query scored top_k st
    = (st, inr (scored, take (Z.to_nat k) sorted))
  ∧ rerank_results query [] top_k st = (st, inr ([], []))
  ∧ (∀ n, top_k = Some n → 0 < n → k = n)
  ∧ (top_k = None ∨ top_k = Some 0 → k = 5).
Proof.
  intros k scored sorted.
  assert (rerank_results query search_results top_k st
          = (st, inr (scored, take (Z.to_nat k) sorted))) as Hrun.
  { rewrite (rerank_results_ready m) by done. do 3 f_equal.
    unfold sorted, scored.
    destruct search_results as [|r rest]; [simpl; by rewrite take_nil|].
    by rewrite slice_to_nonneg by lia. }
  split; [done|]. split; [apply sorted_desc_perm|].
  split; [apply sorted_desc_descending|].
  split; [intros c; apply sorted_desc_stable|].
  split; [|split; [by apply (rerank_results_ready m)|split]].
  - assert (score_result m query <$> scored = scored) as Hscored.
    { unfold scored. rewrite <- list_fmap_compose.
      apply list_fmap_ext. intros _ r _. apply score_result_idempotent. }
    rewrite (rerank_results_ready m) by done. rewrite Hscored.
    do 3 f_equal. unfold sorted.
    destruct scored as [|r rest]; [simpl; by rewrite take_nil|].
    by rewrite slice_to_nonneg by lia.
  - intros n -> Hn. unfold k, Py.int_or.
    by destruct (Z.eqb_spec n 0); [lia|].
  - by intros [-> | ->].
Qed.

End reranking.

Lemma rerank_combined_score_weights_witness :
  ∃ c, EmbeddingService.combined_score
         (RerankingService.score_result
            (RerankingService.cross_encoder constant_predict)
            "q" example_result) = Some c
       ∧ c = (2972375754064527 # 4503599627370496)%Q.
Proof.
  destruct (rerank_combined_score_weights no_model no_model
              (RerankingService.cross_encoder constant_predict) "q"
              [example_result] None example_reranker eq_refl)
    as (returned & _ & _ & _ & Hexample).
  destruct (Hexample constant_predict example_result eq_refl eq_refl eq_refl)
    as (c & Hc & Hvalue & _).
  exists c. split; [exact Hc | exact Hvalue].
Defined.

(** C4 as stated fails at its example: in double precision
    [0.3 * 0.8 + 0.7 * 0.6] is the number [0.6599999999999999], which is
    neither the rational [66/100] nor the number the literal [0.66]
    denotes. With a pair score of [0.6] in single precision, as a model
    returns it, the sum is [0.6600000166893005]. *)
Lemma rerank_example_differs_from_066 :
  let c := (2972375754064527 # 4503599627370496)%Q in
  EmbeddingService.similarity_score example_result
  = Some (Float64.of_Q (8 # 10))
  ∧ constant_predict "q" (EmbeddingService.text example_result)
    = Float64.of_Q (6 # 10)
  ∧ EmbeddingService.combined_score
      (RerankingService.score_result
         (RerankingService.cross_encoder constant_predict)
         "q" example_result) = Some c
  ∧ ¬ (c == 66 # 100)%Q
  ∧ c ≠ Float64.of_Q (66 # 100)
  ∧ RerankingService.weighted (3 # 10) (7 # 10) (Float64.of_Q (8 # 10))
      (Float64.single (6 # 10))
    = (2972375829226455 # 4503599627370496)%Q.
Proof.
  intros c. split; [reflexivity|]. split; [reflexivity|].
  split; [by vm_compute|]. split; [by vm_compute|].
  split; [by vm_compute | by vm_compute].
Qed.

Lemma rerank_sorts_stably_and_truncates_witness :
  RerankingService.rerank_results no_model no_model "q"
    [example_result; example_result] (Some 1) example_reranker
  = (example_reranker,
     inr (RerankingService.score_result
            (RerankingService.cross_encoder constant_predict) "q"
            <$> [example_result; example_result],
          [RerankingService.score_result
             (RerankingService.cross_encoder constant_predict) "q"
             example_result])).
Proof.
  apply (rerank_sorts_stably_and_truncates no_model no_model
           (RerankingService.cross_encoder constant_predict) "q"
           [example_result; example_result] (Some 1) example_reranker
           eq_refl).
  reflexivity.
Defined.

(** C6 as stated fails at [top_k = 0]: the result is not cut to no
    candidate, the default of 5 is used and both candidates come back. *)
Lemma rerank_top_k_zero_not_truncated :
  ∃ updated returned,
    RerankingService.rerank_results no_model no_model "q"
      [example_result; example_result] (Some 0) example_reranker
    = (example_reranker, inr (updated, returned))
    ∧ length returned = 2%nat
    ∧ ¬ (Z.of_nat (length returned) ≤ 0).
Proof.
  eexists _, _. split; [reflexivity|]. split; [reflexivity|].
  vm_compute. congruence.
Qed.

(** ** The orchestrator without a generation pipeline *)

Lemma int_or_positive (x : option Z) (default : Z) :
  0 < default → (∀ k, x = Some k → 0 ≤ k) → 0 < Py.int_or x default.
Proof.
  intros Hd Hx. unfold Py.int_or. destruct x as [k|]; [|done].
  specialize (Hx k eq_refl). destruct (Z.eqb_spec k 0); lia.
Qed.

Lemma clause_matches_total (chunks : list EmbeddingService.chunk_info) :
  Forall (λ r, is_Some (EmbeddingService.combined_score r)) chunks →
  ∃ clauses, QueryProcessor.clause_matches chunks = inr clauses
             ∧ length clauses = length chunks.
Proof.
  induction 1 as [|r rest [c Hc] _ (clauses & IH & Hlen)]; simpl.
  - by exists [].
  - unfold QueryProcessor.clause_match. rewrite Hc, IH. simpl.
    eexists. split; [reflexivity|]. simpl. by rewrite Hlen.
Qed.

Section fallback.

Import EmbeddingService QueryProcessor.

Variable load_model : Py.result (string → Faiss.vector).
Variable read_index : string → Py.result (list Faiss.vector).
Variable json_load : string → Py.result (list (string * chunk_info)).
Variable int_of_key : string → Py.result Z.
Variable fs : files.
Variable load_cross_encoder : Py.result (string → string → Q).
Variable load_bi_encoder : Py.result RerankingService.bi_model.
Variable load_tokenizer : Py.result (string → Py.result (list Z)).
Variable load_pipeline : Py.result (string → Py.result string).
Variable re_search_json : string → option string.
Variable json_loads_query : string → Py.result LLMService.structured_query.
Variable json_loads_answer : string → Py.result LLMService.answer_data.
Variable extraction_prompt : string → string → string.
Variable answer_prompt : string → string → string → string.
Variable format_3f : Q → string.

Local Abbreviation search :=
  (search load_model read_index json_load int_of_key fs).
Local Abbreviation search_by_document :=
  (search_by_document load_model read_index json_load int_of_key fs).
Local Abbreviation retrieve :=
  (retrieve load_model read_index json_load int_of_key fs).
Local Abbreviation rerank_results :=
  (RerankingService.rerank_results load_cross_encoder load_bi_encoder).
Local Abbreviation extract_structured_query :=
  (LLMService.extract_structured_query load_tokenizer load_pipeline
     re_search_json json_loads_query extraction_prompt).
Local Abbreviation generate_answer :=
  (LLMService.generate_answer load_tokenizer load_pipeline re_search_json
     json_loads_answer answer_prompt format_3f).
Local Abbreviation process_query :=
  (process_query load_model read_index json_load int_of_key fs
     load_cross_encoder load_bi_encoder load_tokenizer load_pipeline
     re_search_json json_loads_query json_loads_answer extraction_prompt
     answer_prompt format_3f).

Lemma search_returns st query top_k :
  ready st → (∀ k, top_k = Some k → 0 ≤ k) →
  ∃ results, search query top_k st = (st, inr results).
Proof.
  intros Hready Hk.
  destruct (search_ready load_model read_index json_load int_of_key fs
              st query top_k Hready)
    as (encode & ix & hits & _ & _ & _ & _ & ->); [|eauto].
  by apply int_or_positive.
Qed.

Lemma search_by_document_returns st query d k :
  ready st → 0 ≤ k →
  ∃ results, search_by_document query d (Some k) st = (st, inr results).
Proof.
  intros Hready Hk. unfold EmbeddingService.search_by_document.
  rewrite (initialize_ready _ _ _ _ _ _ Hready).
  destruct (search_returns st query (Some (k * 2)) Hready) as [all ->].
  { intros ? [= <-]. lia. }
  eauto.
Qed.

Lemma retrieve_returns query_request es :
  ready es → request_ok query_request →
  ∃ document_results, retrieve query_request es = (es, inr document_results).
Proof.
  intros Hready Hrequest.
  unfold QueryProcessor.retrieve, request_ok in *.
  destruct (max_results query_request) as [k|] eqn:Hmax.
  - destruct (document_id query_request) as [doc|];
      [destruct (Py.str_is_empty doc)|];
      try (apply search_returns; [done | by intros ? [= <-]]).
    by apply search_by_document_returns.
  - destruct Hrequest as [-> | ->]; simpl; by apply search_returns.
Qed.

(** Without a pipeline the two steps that use the language model return
    what the rules give. *)
Lemma extract_structured_query_without_pipeline ls natural_query domain :
  without_pipeline ls →
  extract_structured_query natural_query domain ls
  = (ls, inr (LLMService._rule_based_extraction natural_query domain)).
Proof.
  intros [Hinit Hnone].
  unfold LLMService.extract_structured_query, LLMService.initialize.
  by rewrite Hinit, Hnone.
Qed.

Lemma generate_answer_without_pipeline ls query relevant_chunks domain :
  without_pipeline ls →
  generate_answer query relevant_chunks domain ls
  = (ls, inr (LLMService._rule_based_answer_generation
                query relevant_chunks domain)).
Proof.
  intros [Hinit Hnone].
  unfold LLMService.generate_answer, LLMService.initialize.
  by rewrite Hinit, Hnone.
Qed.

(** The state without a pipeline is the one [initialize] reaches when the
    tokenizer loads and the model does not. *)
Lemma initialize_without_model tok e :
  load_tokenizer = inr tok → load_pipeline = inl e →
  LLMService.initialize load_tokenizer load_pipeline LLMService.new
  = (LLMService.Service (Some tok) None true, inr ())
  ∧ without_pipeline (LLMService.Service (Some tok) None true).
Proof.
  intros Htok Hpipe. unfold LLMService.initialize. simpl.
  by rewrite Htok, Hpipe.
Qed.

Lemma assemble_rule_based (the_query_id : string) (elapsed_ms : Q)
    (query_request : QueryRequest) (reranked_results : list chunk_info) :
  Forall (λ r, is_Some (combined_score r)) reranked_results →
  ∃ response,
    assemble the_query_id elapsed_ms query_request reranked_results
      (LLMService._rule_based_answer_generation
         (query query_request) reranked_results
         (domain_name query_request))
    = inr response
    ∧ query_id response = the_query_id
    ∧ response_query response = query query_request
    ∧ processing_time_ms response = elapsed_ms
    ∧ length (matched_clauses response) = length reranked_results
    ∧ answer response ≠ EmptyString
    ∧ is_Some (decision response)
    ∧ reasoning (rationale response) ≠ EmptyString
    ∧ key_factors (rationale response) ≠ []
    ∧ conflicting_clauses (rationale response) = []
    ∧ (confidence_score (rationale response) <= 7 # 10)%Q
    ∧ token_usage response = Some 0
    ∧ (reranked_results = [] →
         answer response
         = "I couldn't find relevant information to answer your question."
         ∧ decision response = Some "Unclear"
         ∧ confidence_score (rationale response) = (1 # 10)%Q
         ∧ supporting_clauses (rationale response) = []
         ∧ key_factors (rationale response) = ["Insufficient information"]).
Proof.
  intros Hscores.
  destruct (clause_matches_total _ Hscores) as (clauses & Hclauses & Hlen).
  unfold assemble. rewrite Hclauses.
  destruct reranked_results as [|best rest]; simpl.
  - eexists. split; [reflexivity|]. simpl.
    repeat (split; [done|]). done.
  - eexists. split; [reflexivity|]. simpl.
    repeat (split; [done|]).
    split; [|done].
    unfold Py.min.
    destruct (Qle_bool _ _) eqn:Hle; [by apply Qle_bool_iff | apply Qle_refl].
Qed.

(** C2, as the code has it. When the language-model service has no
    generation pipeline, and the embedding service and the reranker are
    initialised with their models, [process_query] returns a response for
    every query string and every request whose [max_results] is a
    non-negative integer (or is left out when no document is named): the
    response carries the identifier, the query, a non-empty answer, a
    decision, a reasoning, key factors and a confidence of at most 0.7,
    and the query is recorded. When the evidence list is empty the answer
    is the fixed answer of the fallback, with decision [Unclear],
    confidence 0.1 and no supporting evidence. *)
Theorem process_query_fallback_total
    (the_query_id : string) (elapsed_ms : Q)
    (query_request : QueryRequest) (w : world)
    (m : RerankingService.reranker)
    (Hllm : without_pipeline (llm_service w))
    (Hembedding : ready (embedding_service w))
    (Hreranker : reranker_ready m (reranking_service w))
    (Hrequest : request_ok query_request) :
  ∃ response,
    process_query the_query_id elapsed_ms query_request w
    = (World (embedding_service w) (reranking_service w) (llm_service w)
         (store_query_in_db the_query_id query_request response (db w)),
       inr response)
    ∧ query_id response = the_query_id
    ∧ response_query response = query query_request
    ∧ processing_time_ms response = elapsed_ms
    ∧ answer response ≠ EmptyString
    ∧ is_Some (decision response)
    ∧ reasoning (rationale response) ≠ EmptyString
    ∧ key_factors (rationale response) ≠ []
    ∧ (confidence_score (rationale response) <= 7 # 10)%Q
    ∧ token_usage response = Some 0
    ∧ (matched_clauses response = [] →
         answer response
         = "I couldn't find relevant information to answer your question."
         ∧ decision response = Some "Unclear"
         ∧ confidence_score (rationale response) = (1 # 10)%Q
         ∧ supporting_clauses (rationale response) = []
         ∧ key_factors (rationale response) = ["Insufficient information"]).
Proof.
  unfold QueryProcessor.process_query.
  rewrite extract_structured_query_without_pipeline by done.
  destruct (retrieve_returns query_request _ Hembedding Hrequest)
    as [document_results ->].
  destruct (rerank_results (query query_request) document_results
              (max_results query_request) (reranking_service w))
    as [rs [e|[updated reranked_results]]] eqn:Hrerank;
    rewrite (rerank_results_ready load_cross_encoder load_bi_encoder m)
      in Hrerank by done; [discriminate Hrerank|].
  assert (rs = reranking_service w) as -> by congruence.
  rewrite generate_answer_without_pipeline by done.
  assert (Forall (λ r, is_Some (combined_score r)) reranked_results)
    as Hscores.
  { eapply (reranked_have_combined_score load_cross_encoder load_bi_encoder
              m (query query_request) document_results
              (max_results query_request) (reranking_service w));
      [done|].
    rewrite (rerank_results_ready load_cross_encoder load_bi_encoder m)
      by done.
    simpl. by injection Hrerank as <- <-. }
  destruct (assemble_rule_based the_query_id elapsed_ms query_request
              reranked_results Hscores)
    as (response & -> & Hid & Hq & Hms & Hlen & Hans & Hdec & Hreason
        & Hfactors & _ & Hconf & Htok & Hempty).
  exists response. split; [reflexivity|].
  repeat (split; [done|]).
  intros Hnone. apply Hempty.
  rewrite Hnone in Hlen. by destruct reranked_results.
Qed.

End fallback.

Lemma process_query_fallback_total_witness :
  ∃ response rows,
    QueryProcessor.process_query no_model no_read_index no_json_load
      no_int_of_key no_files no_model no_model no_model no_model
      no_json_match no_json_query no_json_answer plain_prompt
      plain_answer_prompt plain_format "id-1" 12%Q example_request
      (QueryProcessor.World fresh_service example_reranker
         llm_without_model [])
    = (QueryProcessor.World fresh_service example_reranker
         llm_without_model rows,
       inr response)
    ∧ QueryProcessor.answer response
      = "I couldn't find relevant information to answer your question.".
Proof.
  assert (request_ok example_request) as Hrequest
    by (unfold request_ok; simpl; lia).
  assert (without_pipeline llm_without_model) as Hllm by done.
  destruct (process_query_fallback_total no_model no_read_index
              no_json_load no_int_of_key no_files no_model no_model
              no_model no_model no_json_match no_json_query no_json_answer
              plain_prompt plain_answer_prompt plain_format
              "id-1" 12%Q example_request
              (QueryProcessor.World fresh_service example_reranker
                 llm_without_model [])
              (RerankingService.cross_encoder constant_predict)
              Hllm ready_fresh_service eq_refl Hrequest)
    as (response & Hrun & _ & _ & _ & _ & _ & _ & _ & _ & _ & Hempty).
  exists response. eexists. split; [exact Hrun|].
  apply Hempty.
  vm_compute in Hrun. by injection Hrun as <-.
Defined.

(** C2 as stated fails. The language-model service has no pipeline, and
    the embedding model cannot be loaded: [process_query] raises the
    exception of the loader, with no response. It does so as well when no
    service is initialised and no model can be loaded at all. *)
Lemma process_query_raises_without_embedding_model :
  QueryProcessor.process_query no_model no_read_index no_json_load
    no_int_of_key no_files no_model no_model no_model no_model
    no_json_match no_json_query no_json_answer plain_prompt
    plain_answer_prompt plain_format "id-1" 12%Q example_request
    (QueryProcessor.World EmbeddingService.new example_reranker
       llm_without_model [])
  = (QueryProcessor.World EmbeddingService.new example_reranker
       llm_without_model [],
     inl Py.OSError)
  ∧ QueryProcessor.process_query no_model no_read_index no_json_load
      no_int_of_key no_files no_model no_model no_model no_model
      no_json_match no_json_query no_json_answer plain_prompt
      plain_answer_prompt plain_format "id-1" 12%Q example_request
      (QueryProcessor.World EmbeddingService.new RerankingService.new
         LLMService.new [])
    = (QueryProcessor.World EmbeddingService.new RerankingService.new
         LLMService.new [],
       inl Py.OSError).
Proof. split; reflexivity. Qed.

(** A request that names a document and leaves [max_results] out is not
    served either, with every model loaded: the retrieval step raises the
    [TypeError] of [search_by_document]. *)
Lemma process_query_raises_without_max_results :
  QueryProcessor.process_query no_model no_read_index no_json_load
    no_int_of_key no_files no_model no_model no_model no_model
    no_json_match no_json_query no_json_answer plain_prompt
    plain_answer_prompt plain_format "id-1" 12%Q
    {| QueryProcessor.query := "Is surgery covered?";
       QueryProcessor.document_id := Some "doc";
       QueryProcessor.domain := None;
       QueryProcessor.max_results := None |}
    (QueryProcessor.World example_service example_reranker
       llm_without_model [])
  = (QueryProcessor.World example_service example_reranker
       llm_without_model [],
     inl Py.TypeError).
Proof. reflexivity. Qed.

(** * Further properties of the sources *)

(** ** Strings: words, [split] and [join] *)

Lemma str_app_cons (c : Ascii.ascii) (a b : string) :
  String c a +:+ b = String c (a +:+ b).
Proof. reflexivity. Qed.

Lemma str_app_nil_r (s : string) : s +:+ EmptyString = s.
Proof.
  induction s as [|c s IH]; [done|]. by rewrite str_app_cons, IH.
Qed.

Lemma str_app_assoc (a b c : string) : (a +:+ b) +:+ c = a +:+ (b +:+ c).
Proof.
  induction a as [|x a IH]; [done|]. by rewrite !str_app_cons, IH.
Qed.

Lemma str_app_length (a b : string) :
  String.length (a +:+ b) = (String.length a + String.length b)%nat.
Proof.
  induction a as [|x a IH]; [done|]. rewrite str_app_cons. simpl.
  by rewrite IH.
Qed.

Lemma str_is_empty_true (s : string) :
  Py.str_is_empty s = true ↔ s = EmptyString.
Proof. by destruct s. Qed.

Lemma str_is_empty_snoc (w : string) (c : Ascii.ascii) :
  Py.str_is_empty (w +:+ String c EmptyString) = false.
Proof. by destruct w. Qed.

Lemma no_space_app (a b : string) :
  no_space (a +:+ b) = no_space a && no_space b.
Proof.
  induction a as [|x a IH]; [done|]. rewrite str_app_cons. simpl.
  by rewrite IH, andb_assoc.
Qed.

Lemma split_from_no_space (w0 w rest : string) :
  no_space w0 = true →
  Py.split_from w (w0 +:+ rest) = Py.split_from (w +:+ w0) rest.
Proof.
  revert w. induction w0 as [|c w0 IH]; intros w Hns.
  - by rewrite str_app_nil_r.
  - simpl in Hns. apply andb_true_iff in Hns as [Hc Hns].
    apply negb_true_iff in Hc.
    change (String c w0 +:+ rest) with (String c (w0 +:+ rest)).
    cbn [Py.split_from]. rewrite Hc, (IH _ Hns).
    by rewrite str_app_assoc.
Qed.

(** The pieces [split] returns are words. *)
Lemma split_from_words (s w : string) :
  no_space w = true → Forall is_word (Py.split_from w s).
Proof.
  revert w. induction s as [|c s IH]; intros w Hw; simpl.
  - destruct (Py.str_is_empty w) eqn:He; [constructor|].
    constructor; [|constructor]. split; [|done].
    intros ->. discriminate He.
  - destruct (Py.isspace c) eqn:Hc.
    + destruct (Py.str_is_empty w) eqn:He; [by apply IH|].
      constructor; [|by apply IH]. split; [|done].
      intros ->. discriminate He.
    + apply IH. rewrite no_space_app, Hw. simpl. by rewrite Hc.
Qed.

Lemma split_words (s : string) : Forall is_word (Py.split s).
Proof. by apply split_from_words. Qed.

Lemma split_word (w : string) : is_word w → Py.split w = [w].
Proof.
  intros [Hne Hns]. unfold Py.split.
  rewrite <- (str_app_nil_r w) at 1.
  rewrite split_from_no_space by done. simpl.
  by destruct w.
Qed.

(** Joining words with single spaces and splitting again gives the words
    back. *)
Lemma split_join (ws : list string) :
  Forall is_word ws → Py.split (Py.join " " ws) = ws.
Proof.
  induction 1 as [|w ws Hw Hws IH]; [done|].
  destruct ws as [|w' ws]; [by apply split_word|].
  change (Py.join " " (w :: w' :: ws))
    with (w +:+ String (Ascii.ascii_of_nat 32) (Py.join " " (w' :: ws))).
  unfold Py.split in *. destruct Hw as [Hne Hns].
  rewrite split_from_no_space by done.
  change (EmptyString +:+ w) with w. cbn [Py.split_from].
  change (Py.isspace (Ascii.ascii_of_nat 32)) with true. cbn iota.
  rewrite IH. by destruct w.
Qed.

Lemma Forall_slice {A} (P : A → Prop) (l : list A) (lo hi : Z) :
  Forall P l → Forall P (Py.slice l lo hi).
Proof.
  intros Hl. unfold Py.slice. by apply Forall_take, Forall_drop.
Qed.

(** ** The word-mode chunker: its chunks and the words of the text *)

Lemma simple_chunking_chunks (text : string) (chunk_size overlap : Z) :
  overlap < chunk_size →
  DocumentParser._simple_chunking text chunk_size overlap
  = inr (DocumentParser.simple_loop (Py.split text) chunk_size
           ((λ k : nat, Z.of_nat k * (chunk_size - overlap))
              <$> seq 0 (windows (Py.len (Py.split text))
                                 (chunk_size - overlap)))
           0).
Proof.
  intros Hov. unfold DocumentParser._simple_chunking.
  by rewrite range_positive_step by lia.
Qed.

Lemma simple_chunking_lookup (text : string) (chunk_size overlap : Z)
    chunks (k : nat) c :
  0 < chunk_size → overlap < chunk_size →
  DocumentParser._simple_chunking text chunk_size overlap = inr chunks →
  chunks !! k = Some c →
  Z.of_nat k * (chunk_size - overlap) < Py.len (Py.split text)
  ∧ c = let chunk_words :=
          take (Z.to_nat chunk_size)
               (drop (Z.to_nat (Z.of_nat k * (chunk_size - overlap)))
                     (Py.split text)) in
        DocumentParser.Chunk (Z.of_nat k) (Py.join " " chunk_words)
          (Py.len chunk_words)
          (DocumentParser.str_len (Py.join " " chunk_words)) None None.
Proof.
  intros Hsize Hov. rewrite simple_chunking_chunks by done.
  intros [= <-] Hk.
  pose proof (lookup_lt_Some _ _ _ Hk) as Hlt.
  rewrite simple_loop_length, length_fmap, length_seq in Hlt.
  rewrite simple_loop_lookup, list_lookup_fmap in Hk.
  rewrite lookup_seq_lt in Hk by done. simpl in Hk.
  injection Hk as <-.
  assert (Z.of_nat k * (chunk_size - overlap) < Py.len (Py.split text))
    as Hstart by (apply windows_start_lt; [lia | done]).
  split; [done|].
  assert (0 ≤ Z.of_nat k * (chunk_size - overlap)) by nia.
  rewrite slice_nonneg by lia.
  replace (Z.of_nat k * (chunk_size - overlap) + chunk_size
           - Z.of_nat k * (chunk_size - overlap)) with chunk_size by lia.
  simpl. f_equal.
Qed.

(** X1. For a valid configuration, the text of every chunk of the
    word-mode chunker splits back into exactly its window of words: its
    [word_count] is the number of words of its text, it is between 1 and
    [chunk_size], and it is [chunk_size] whenever that many words are left
    from the start of the window. *)
Theorem simple_chunk_text_splits_into_window
    (text : string) (chunk_size overlap : Z)
    (chunks : list DocumentParser.chunk) (k : nat) (c : DocumentParser.chunk)
    (Hsize : 0 < chunk_size) (Hoverlap : overlap < chunk_size)
    (Hrun : DocumentParser._simple_chunking text chunk_size overlap
            = inr chunks)
    (Hk : chunks !! k = Some c) :
  let start := Z.of_nat k * (chunk_size - overlap) in
  Py.split (DocumentParser.text c)
  = take (Z.to_nat chunk_size) (drop (Z.to_nat start) (Py.split text))
  ∧ DocumentParser.word_count c
    = Py.len (Py.split (DocumentParser.text c))
  ∧ 1 ≤ DocumentParser.word_count c ≤ chunk_size
  ∧ (start + chunk_size ≤ Py.len (Py.split text) →
       DocumentParser.word_count c = chunk_size).
Proof.
  intros start.
  destruct (simple_chunking_lookup text chunk_size overlap chunks k c
              Hsize Hoverlap Hrun Hk) as [Hstart ->].
  fold start in Hstart |- *. simpl.
  assert (Py.split
            (Py.join " "
               (take (Z.to_nat chunk_size)
                     (drop (Z.to_nat start) (Py.split text))))
          = take (Z.to_nat chunk_size)
                 (drop (Z.to_nat start) (Py.split text))) as Hsplit.
  { apply split_join, Forall_take, Forall_drop, split_words. }
  rewrite Hsplit. split; [done|]. split; [done|].
  assert (0 ≤ start) by (unfold start; nia).
  unfold Py.len in *. rewrite length_take, length_drop.
  split; [lia|]. lia.
Qed.

Lemma simple_chunk_text_splits_into_window_witness :
  Py.split "c d" = take 2 (drop 2 (Py.split "a b c d"))
  ∧ 2 = Py.len (Py.split "c d").
Proof.
  pose proof (simple_chunk_text_splits_into_window "a b c d" 2 0
                [ DocumentParser.Chunk 0 "a b" 2 3 None None;
                  DocumentParser.Chunk 1 "c d" 2 3 None None ]
                1 (DocumentParser.Chunk 1 "c d" 2 3 None None)
                ltac:(lia) ltac:(lia) eq_refl eq_refl) as (H1 & H2 & _).
  split; [exact H1 | exact H2].
Defined.

Lemma simple_loop_pieces (words : list string) (chunk_size overlap : Z)
    (a m : nat) (idx : Z) :
  0 ≤ overlap → overlap < chunk_size → Forall is_word words →
  concat ((λ c, drop (Z.to_nat overlap) (Py.split (DocumentParser.text c)))
            <$> DocumentParser.simple_loop words chunk_size
                  ((λ k : nat, Z.of_nat k * (chunk_size - overlap))
                     <$> seq a m) idx)
  = take (m * Z.to_nat (chunk_size - overlap))
         (drop (a * Z.to_nat (chunk_size - overlap) + Z.to_nat overlap)
               words).
Proof.
  intros Hov Hsize Hwords. revert a idx.
  induction m as [|m IH]; intros a idx; [done|].
  cbn [seq fmap list_fmap DocumentParser.simple_loop concat].
  rewrite (IH (S a) (idx + 1)). cbn [DocumentParser.text].
  rewrite split_join by by apply Forall_slice.
  assert (0 ≤ Z.of_nat a * (chunk_size - overlap)) by nia.
  rewrite slice_nonneg by lia.
  replace (Z.of_nat a * (chunk_size - overlap) + chunk_size
           - Z.of_nat a * (chunk_size - overlap)) with chunk_size by lia.
  replace (Z.to_nat chunk_size)
    with (Z.to_nat overlap + Z.to_nat (chunk_size - overlap))%nat by lia.
  rewrite <- take_drop_commute, drop_drop.
  replace (Z.to_nat (Z.of_nat a * (chunk_size - overlap)))
    with (a * Z.to_nat (chunk_size - overlap))%nat by nia.
  replace (S a * Z.to_nat (chunk_size - overlap) + Z.to_nat overlap)%nat
    with ((a * Z.to_nat (chunk_size - overlap) + Z.to_nat overlap)
          + Z.to_nat (chunk_size - overlap))%nat by lia.
  rewrite <- (drop_drop words (Z.to_nat (chunk_size - overlap))
                (a * Z.to_nat (chunk_size - overlap) + Z.to_nat overlap)).
  by rewrite take_take_drop.
Qed.

(** X2. For [0 <= overlap < chunk_size] the word-mode chunker loses no
    word and keeps their order: the words of the first chunk, followed by
    the words of every later chunk without its first [overlap] words, are
    the words of the text. *)
Theorem simple_chunking_covers_text
    (text : string) (chunk_size overlap : Z)
    (chunks : list DocumentParser.chunk)
    (Hoverlap : 0 ≤ overlap) (Hsize : overlap < chunk_size)
    (Hrun : DocumentParser._simple_chunking text chunk_size overlap
            = inr chunks) :
  without_overlap overlap chunks = Py.split text.
Proof.
  rewrite simple_chunking_chunks in Hrun by done. injection Hrun as <-.
  pose proof (windows_last (Py.len (Py.split text)) (chunk_size - overlap)
                ltac:(lia) ltac:(unfold Py.len; lia)) as Hlast.
  destruct (windows (Py.len (Py.split text)) (chunk_size - overlap))
    as [|n] eqn:Hn.
  - simpl. unfold Py.len in Hlast.
    by destruct (Py.split text); [|simpl in Hlast; lia].
  - cbn [seq fmap list_fmap DocumentParser.simple_loop without_overlap].
    rewrite <- fmap_S_seq, <- list_fmap_compose.
    pose proof (simple_loop_pieces (Py.split text) chunk_size overlap 1 n
                  (0 + 1) Hoverlap Hsize (split_words text)) as Hrest.
    rewrite <- (list_fmap_compose S) in Hrest || idtac.
    cbn [DocumentParser.text].
    rewrite split_join by apply Forall_slice, split_words.
    rewrite slice_nonneg by lia.
    assert (((λ k : nat, Z.of_nat k * (chunk_size - overlap)) ∘ S
               <$> seq 0 n)
            = ((λ k : nat, Z.of_nat k * (chunk_size - overlap))
                 <$> seq 1 n)) as Hseq.
    { by rewrite <- fmap_S_seq, <- list_fmap_compose. }
    rewrite Hseq, Hrest.
    replace (Z.to_nat (Z.of_nat 0 * (chunk_size - overlap)))
      with 0%nat by lia.
    replace (Z.to_nat (Z.of_nat 0 * (chunk_size - overlap) + chunk_size
                       - Z.of_nat 0 * (chunk_size - overlap)))
      with (1 * Z.to_nat (chunk_size - overlap) + Z.to_nat overlap)%nat
      by lia.
    rewrite drop_0, take_take_drop. apply take_ge.
    unfold Py.len in Hlast. nia.
Qed.

Lemma simple_chunking_covers_text_witness :
  without_overlap 1
    [ DocumentParser.Chunk 0 "a b c d" 4 7 None None;
      DocumentParser.Chunk 1 "d e f g" 4 7 None None;
      DocumentParser.Chunk 2 "g h" 2 3 None None ]
  = Py.split "a b c d e f g h".
Proof.
  apply (simple_chunking_covers_text "a b c d e f g h" 4 1);
    [lia | lia | reflexivity].
Defined.

(** ** The overlap text and the sentence-mode chunker *)

Lemma slice_from_negative {A} (l : list A) (n : Z) :
  0 < n → n < Py.len l →
  Py.slice_from l (- n) = drop (length l - Z.to_nat n) l.
Proof.
  intros Hpos Hlt. unfold Py.slice_from, Py.slice, Py.clamp_index, Py.len in *.
  destruct (Z.ltb_spec (- n) 0) as [_|?]; [|lia].
  destruct (Z.ltb_spec (Z.of_nat (length l)) 0) as [?|_]; [lia|].
  replace (Z.to_nat (Z.max 0 (Z.min (Z.of_nat (length l))
                                (- n + Z.of_nat (length l)))))
    with (length l - Z.to_nat n)%nat by lia.
  apply take_ge. rewrite length_drop. lia.
Qed.

Lemma slice_from_nonneg {A} (l : list A) (n : Z) :
  0 ≤ n → Py.slice_from l n = drop (Z.to_nat n) l.
Proof.
  intros Hn. unfold Py.slice_from, Py.slice, Py.clamp_index, Py.len in *.
  destruct (Z.ltb_spec n 0) as [?|_]; [lia|].
  destruct (Z.ltb_spec (Z.of_nat (length l)) 0) as [?|_]; [lia|].
  destruct (decide (n ≤ Z.of_nat (length l))) as [Hle|Hgt].
  - replace (Z.to_nat (Z.max 0 (Z.min (Z.of_nat (length l)) n)))
      with (Z.to_nat n) by lia.
    apply take_ge. rewrite length_drop. lia.
  - rewrite (drop_ge l (Z.to_nat n)) by lia.
    rewrite drop_ge by lia. apply take_nil.
Qed.

(** X3. The words of the overlap text: for a positive number of overlap
    words they are the last that many words of the text (all of them when
    the text has no more); for zero they are all the words of the text,
    not none; for a negative number the first words are dropped. *)
Theorem overlap_text_words (text : string) (overlap_words : Z) :
  let words := Py.split text in
  Py.split (DocumentParser._get_overlap_text text overlap_words)
  = if 0 <? overlap_words
    then drop (length words - Z.to_nat overlap_words) words
    else if overlap_words =? 0 then words
    else drop (Z.to_nat (- overlap_words)) words.
Proof.
  intros words. unfold DocumentParser._get_overlap_text. fold words.
  pose proof (split_words text) as Hwords. fold words in Hwords.
  destruct (Z.leb_spec (Py.len words) overlap_words) as [Hle|Hgt].
  - destruct (Z.ltb_spec 0 overlap_words) as [Hpos|Hnp].
    + unfold Py.len in Hle.
      replace (length words - Z.to_nat overlap_words)%nat with 0%nat by lia.
      done.
    + unfold Py.len in Hle.
      destruct (Z.eqb_spec overlap_words 0) as [_|?]; [done | lia].
  - rewrite split_join by by apply Forall_slice.
    destruct (Z.ltb_spec 0 overlap_words) as [Hpos|Hnp].
    + by apply slice_from_negative.
    + rewrite slice_from_nonneg by lia.
      destruct (Z.eqb_spec overlap_words 0) as [->|_]; done.
Qed.

Lemma split_from_app_space (w a b : string) :
  Py.split_from w (a +:+ " " +:+ b) = Py.split_from w a ++ Py.split b.
Proof.
  revert w. induction a as [|c a IH]; intros w.
  - change (EmptyString +:+ " " +:+ b)
      with (String (Ascii.ascii_of_nat 32) b).
    cbn [Py.split_from].
    change (Py.isspace (Ascii.ascii_of_nat 32)) with true. cbn iota.
    by destruct (Py.str_is_empty w).
  - rewrite str_app_cons. cbn [Py.split_from].
    destruct (Py.isspace c).
    + destruct (Py.str_is_empty w); by rewrite IH.
    + apply IH.
Qed.

Lemma split_app_space (a b : string) :
  Py.split (a +:+ " " +:+ b) = Py.split a ++ Py.split b.
Proof. apply split_from_app_space. Qed.

Lemma split_lstrip (s : string) : Py.split (Py.lstrip s) = Py.split s.
Proof.
  unfold Py.split. induction s as [|c s IH]; [done|]. simpl.
  destruct (Py.isspace c) eqn:Hc; [done|]. simpl. by rewrite Hc.
Qed.

Lemma split_from_rstrip (w s : string) :
  Py.split_from w (Py.rstrip s) = Py.split_from w s.
Proof.
  revert w. induction s as [|c s IH]; intros w; [done|].
  cbn [Py.rstrip].
  destruct (Py.str_is_empty (Py.rstrip s) && Py.isspace c) eqn:Hc.
  - apply andb_true_iff in Hc as [He Hc]. apply str_is_empty_true in He.
    cbn [Py.split_from]. rewrite Hc, <- !IH, He. simpl.
    by destruct (Py.str_is_empty w).
  - cbn [Py.split_from]. destruct (Py.isspace c);
      [destruct (Py.str_is_empty w)|]; by rewrite IH.
Qed.

Lemma split_strip (s : string) : Py.split (Py.strip s) = Py.split s.
Proof.
  unfold Py.strip, Py.split. by rewrite split_from_rstrip, split_lstrip.
Qed.


Lemma str_is_empty_app_cons (a b : string) (c : Ascii.ascii) :
  Py.str_is_empty (a +:+ String c EmptyString +:+ b) = false.
Proof. by destruct a. Qed.

Lemma emit_ok (a : DocumentParser.acc) (j : nat) :
  chunker_state_ok a j →
  length (DocumentParser.emit a) = S (length (DocumentParser.chunks a))
  ∧ ∀ (k : nat) c, DocumentParser.emit a !! k = Some c →
      DocumentParser.chunk_index c = Z.of_nat k
      ∧ DocumentParser.word_count c
        = Py.len (Py.split (DocumentParser.text c)).
Proof.
  intros (Hnext & Hsize & _ & Hchunks). unfold DocumentParser.emit.
  split; [rewrite length_app; simpl; lia|].
  intros k c Hk. apply lookup_app_Some in Hk as [Hk|[Hge Hk]].
  - by apply Hchunks.
  - apply list_lookup_singleton_Some in Hk as [Hk <-]. simpl.
    rewrite split_strip, Hnext, Hsize. unfold Py.len. split; [lia | done].
Qed.

Lemma intelligent_step_ok (chunk_size overlap : Z) (a : DocumentParser.acc)
    (sentence : string) (j : nat) :
  chunker_state_ok a j →
  chunker_state_ok
    (DocumentParser.intelligent_step chunk_size overlap a sentence) (S j).
Proof.
  intros Hok. pose proof Hok as (Hnext & Hsize & Hcount & Hchunks).
  destruct (emit_ok a j Hok) as [Hlen Hemit].
  unfold DocumentParser.intelligent_step.
  destruct ((chunk_size <? _) && negb _) eqn:Hcond.
  - apply andb_true_iff in Hcond as [_ Hne]. apply negb_true_iff in Hne.
    rewrite Hne in Hcount.
    split; [|split; [|split]]; cbn [DocumentParser.next_index
      DocumentParser.chunks DocumentParser.current_chunk
      DocumentParser.current_size].
    + unfold Py.len in *. rewrite Hlen. lia.
    + done.
    + rewrite Hlen, str_is_empty_app_cons. lia.
    + done.
  - split; [|split; [|split]]; cbn [DocumentParser.next_index
      DocumentParser.chunks DocumentParser.current_chunk
      DocumentParser.current_size].
    + done.
    + rewrite split_app_space, Hsize. unfold Py.len.
      rewrite length_app. lia.
    + rewrite str_is_empty_app_cons.
      destruct (Py.str_is_empty (DocumentParser.current_chunk a)); lia.
    + done.
Qed.

Lemma intelligent_loop_ok (chunk_size overlap : Z)
    (sentences : list string) (a : DocumentParser.acc) (j : nat) :
  chunker_state_ok a j →
  chunker_state_ok
    (foldl (DocumentParser.intelligent_step chunk_size overlap) a sentences)
    (j + length sentences).
Proof.
  revert a j. induction sentences as [|s sentences IH]; intros a j Hok.
  - by rewrite Nat.add_0_r.
  - simpl. replace (j + S (length sentences))%nat
      with (S j + length sentences)%nat by lia.
    by apply IH, intelligent_step_ok.
Qed.

(** X4. The sentence-mode chunker numbers its chunks [0, 1, ...] in
    order, never returns more chunks than the detector found sentences,
    and the [word_count] of every chunk is the number of words of its
    text, for every detector, text, chunk size and overlap. *)
Theorem intelligent_chunking_indexes_and_word_counts
    (sents : string → list string) (text : string)
    (chunk_size overlap : Z) :
  let chunks :=
    DocumentParser._intelligent_chunking sents text chunk_size overlap in
  (length chunks ≤ length (sents text))%nat
  ∧ ∀ (k : nat) c, chunks !! k = Some c →
      DocumentParser.chunk_index c = Z.of_nat k
      ∧ DocumentParser.word_count c
        = Py.len (Py.split (DocumentParser.text c)).
Proof.
  unfold DocumentParser._intelligent_chunking.
  assert (chunker_state_ok (DocumentParser.Acc [] EmptyString 0 0) 0)
    as Hinit.
  { split; [done|]. split; [done|]. split; [simpl; lia|].
    intros k c Hk. simpl in Hk. by rewrite lookup_nil in Hk. }
  pose proof (intelligent_loop_ok chunk_size overlap
                (map Py.strip (sents text)) _ _ Hinit) as Hok.
  rewrite length_map in Hok. simpl in Hok.
  set (a := foldl _ _ _) in *.
  pose proof Hok as (_ & _ & Hcount & Hchunks).
  destruct (emit_ok a _ Hok) as [Hlen Hemit].
  destruct (Py.str_is_empty (Py.strip (DocumentParser.current_chunk a)))
    eqn:Hlast; cbn zeta.
  - split; [lia | done].
  - split; [|done]. rewrite Hlen.
    destruct (Py.str_is_empty (DocumentParser.current_chunk a)) eqn:He;
      [|lia].
    apply str_is_empty_true in He. rewrite He in Hlast. done.
Qed.

(** X5. With no overlap given (or an overlap of [0], which the default
    replaces) the overlap in force is the default of 50 words. In word
    mode a chunk size below 50 then gives no chunk at all for every text,
    a chunk size of 50 raises [ValueError], and for a larger chunk size
    the call returns a chunk for every window of the text. *)
Theorem chunk_text_default_overlap
    (text : string) (chunk_size : Z) (overlap : option Z)
    (Hsize : 0 < chunk_size)
    (Hoverlap : overlap = None ∨ overlap = Some 0) :
  DocumentParser.chunk_text None text (Some chunk_size) overlap
  = DocumentParser._simple_chunking text chunk_size 50
  ∧ (chunk_size < 50 →
       DocumentParser.chunk_text None text (Some chunk_size) overlap
       = inr [])
  ∧ (chunk_size = 50 →
       DocumentParser.chunk_text None text (Some chunk_size) overlap
       = inl Py.ValueError)
  ∧ (50 < chunk_size →
       ∃ chunks,
         DocumentParser.chunk_text None text (Some chunk_size) overlap
         = inr chunks
         ∧ length chunks
           = windows (Py.len (Py.split text)) (chunk_size - 50)).
Proof.
  assert (DocumentParser.chunk_text None text (Some chunk_size) overlap
          = DocumentParser._simple_chunking text chunk_size 50) as ->.
  { unfold DocumentParser.chunk_text, Py.int_or.
    destruct (Z.eqb_spec chunk_size 0) as [?|_]; [lia|].
    by destruct Hoverlap as [-> | ->]. }
  split; [done|]. split; [|split].
  - intros Hlt. by apply simple_chunking_negative_stride.
  - intros ->. by apply simple_chunking_raises.
  - intros Hgt. eexists. split; [by apply simple_chunking_chunks|].
    by rewrite simple_loop_length, length_fmap, length_seq.
Qed.

Lemma chunk_text_default_overlap_witness :
  DocumentParser.chunk_text None "a b c" (Some 2) None = inr [].
Proof.
  apply (chunk_text_default_overlap "a b c" 2 None); [lia | by left | lia].
Defined.

(** ** The retriever: what a search returns *)

Lemma hit_results_app (dc : gmap Z EmbeddingService.chunk_info)
    (l1 l2 : list (Q * Z)) :
  hit_results dc (l1 ++ l2) = hit_results dc l1 ++ hit_results dc l2.
Proof. apply omap_app. Qed.

Lemma hit_results_filler (dc : gmap Z EmbeddingService.chunk_info) (n : nat) :
  dense dc → hit_results dc (replicate n (Faiss.missing_score, -1)) = [].
Proof.
  intros Hd.
  assert (dc !! (-1) = None) as Hnone.
  { apply eq_None_not_Some. rewrite (Hd _). lia. }
  induction n as [|n IH]; [done|].
  unfold hit_results in *. simpl. by rewrite Hnone.
Qed.

Lemma hit_results_elem_of (dc : gmap Z EmbeddingService.chunk_info)
    (hits : list (Q * Z)) (r : EmbeddingService.chunk_info) :
  r ∈ hit_results dc hits
  ↔ ∃ h info, h ∈ hits ∧ dc !! h.2 = Some info
              ∧ r = EmbeddingService.set_similarity_score h.1 info.
Proof.
  unfold hit_results. rewrite list_elem_of_omap. split.
  - intros (h & Hh & Hr). apply fmap_Some in Hr as (info & Hinfo & ->).
    by exists h, info.
  - intros (h & info & Hh & Hinfo & ->). exists h. split; [done|].
    by rewrite Hinfo.
Qed.

Lemma hit_results_inside (dc : gmap Z EmbeddingService.chunk_info)
    (hits : list (Q * Z)) :
  Forall (λ h, is_Some (dc !! h.2)) hits →
  length (hit_results dc hits) = length hits
  ∧ (descending fst hits →
       descending RerankingService.similarity_or_zero (hit_results dc hits)).
Proof.
  induction 1 as [|h hits [info Hinfo] Hall [IHlen IHsorted]].
  - split; [done|]. intros _. constructor.
  - destruct h as [score idx]. simpl in Hinfo.
    rewrite hit_results_cons, Hinfo. simpl. split; [by rewrite IHlen|].
    intros Hsorted. apply StronglySorted_cons in Hsorted as [Hle Hsorted].
    constructor; [by apply IHsorted|].
    apply Forall_forall. intros r Hr.
    apply hit_results_elem_of in Hr as (h' & info' & Hh' & _ & ->).
    rewrite Forall_forall in Hle. apply (Hle h' Hh').
Qed.

Lemma scored_elem_of (ix : list Faiss.vector) (q : Faiss.vector)
    (h : Q * Z) :
  h ∈ Faiss.scored ix q
  ↔ ∃ (i : nat) row, ix !! i = Some row
                     ∧ h = (Faiss.inner_product q row, Z.of_nat i).
Proof.
  unfold Faiss.scored. rewrite elem_of_lookup_imap. split.
  - intros (i & row & -> & Hrow). by exists i, row.
  - intros (i & row & Hrow & ->). by exists i, row.
Qed.

Section retrieval.

Import EmbeddingService.

Variable load_model : Py.result (string → Faiss.vector).
Variable read_index : string → Py.result (list Faiss.vector).
Variable json_load : string → Py.result (list (string * chunk_info)).
Variable int_of_key : string → Py.result Z.
Variable fs : files.

Local Abbreviation search :=
  (search load_model read_index json_load int_of_key fs).

(** What [search] returns on a ready service whose index has a row per
    slot: the entries of the best rows, in the order of the index hits. *)
Lemma search_aligned (query : string) (top_k : Z) (st : t)
    (encode : string → Faiss.vector) (ix : list Faiss.vector) :
  ready st → model st = Some encode → index st = Some ix →
  length ix = size (document_chunks st) → 0 < top_k →
  let sorted := Py.sorted_desc fst (Faiss.scored ix (encode query)) in
  search query (Some top_k) st
  = (st, inr (hit_results (document_chunks st)
                (take (Z.to_nat top_k) sorted)))
  ∧ Forall (λ h, is_Some (document_chunks st !! h.2)) sorted.
Proof.
  intros Hready Hmodel Hindex Hrows Hpos sorted.
  pose proof Hready as (_ & _ & _ & Hdense).
  assert (Py.int_or (Some top_k) settings.MAX_RETRIEVAL_RESULTS = top_k)
    as Hk.
  { unfold Py.int_or. by destruct (Z.eqb_spec top_k 0); [lia|]. }
  destruct (search_ready load_model read_index json_load int_of_key fs
              st query (Some top_k) Hready)
    as (encode' & ix' & hits & Hmodel' & Hindex' & Hhits & _ & ->);
    [by rewrite Hk|].
  rewrite Hmodel in Hmodel'. injection Hmodel' as <-.
  rewrite Hindex in Hindex'. injection Hindex' as <-.
  rewrite Hk in Hhits. unfold Faiss.search in Hhits.
  destruct (Z.leb_spec top_k 0) as [?|_]; [lia|].
  injection Hhits as <-. fold sorted.
  rewrite hit_results_app, hit_results_filler, app_nil_r by done.
  split; [done|].
  apply Forall_forall. intros h Hh.
  unfold sorted in Hh. rewrite sorted_desc_perm in Hh.
  apply scored_elem_of in Hh as (i & row & Hrow & ->). simpl.
  apply Hdense. apply lookup_lt_Some in Hrow. lia.
Qed.

(** X6. On a ready service whose index has a row per slot, a search for
    a positive [top_k] leaves the service as it is and returns
    [min(top_k, rows)] results in descending order of similarity; each is
    the entry of a slot with the inner product of the query embedding and
    the row of the slot as its score, and a row that is not returned
    scores no higher than any result. *)
Theorem search_returns_best_rows
    (query : string) (top_k : Z) (st : t)
    (encode : string → Faiss.vector) (ix : list Faiss.vector)
    (Hready : ready st) (Hmodel : model st = Some encode)
    (Hindex : index st = Some ix)
    (Hrows : length ix = size (document_chunks st))
    (Hpos : 0 < top_k) :
  ∃ results,
    search query (Some top_k) st = (st, inr results)
    ∧ length results = Nat.min (Z.to_nat top_k) (length ix)
    ∧ descending RerankingService.similarity_or_zero results
    ∧ (∀ r, r ∈ results →
         ∃ (i : nat) row info,
           ix !! i = Some row
           ∧ document_chunks st !! Z.of_nat i = Some info
           ∧ r = set_similarity_score
                   (Faiss.inner_product (encode query) row) info)
    ∧ (∀ (i : nat) row info,
         ix !! i = Some row →
         document_chunks st !! Z.of_nat i = Some info →
         set_similarity_score (Faiss.inner_product (encode query) row) info
           ∈ results
         ∨ ∀ r, r ∈ results →
             (Faiss.inner_product (encode query) row
              <= RerankingService.similarity_or_zero r)%Q).
Proof.
  destruct (search_aligned query top_k st encode ix
              Hready Hmodel Hindex Hrows Hpos) as [Hsearch Hinside].
  set (sorted := Py.sorted_desc fst (Faiss.scored ix (encode query))) in *.
  set (best := take (Z.to_nat top_k) sorted) in *.
  assert (Forall (λ h, is_Some (document_chunks st !! h.2)) best) as Hbest.
  { by apply Forall_take. }
  destruct (hit_results_inside _ _ Hbest) as [Hlen Hdesc].
  pose proof (sorted_desc_descending fst (Faiss.scored ix (encode query)))
    as Hsorted. fold sorted in Hsorted.
  rewrite <- (take_drop (Z.to_nat top_k) sorted) in Hsorted. fold best in Hsorted.
  exists (hit_results (document_chunks st) best).
  split; [done|]. split; [|split; [|split]].
  - rewrite Hlen. unfold best. rewrite length_take. unfold sorted.
    rewrite sorted_desc_perm. unfold Faiss.scored. by rewrite length_imap.
  - apply Hdesc. by apply StronglySorted_app_1_l in Hsorted.
  - intros r Hr. apply hit_results_elem_of in Hr as (h & info & Hh & Hinfo & ->).
    apply subseteq_take in Hh. unfold sorted in Hh.
    rewrite sorted_desc_perm in Hh.
    apply scored_elem_of in Hh as (i & row & Hrow & ->).
    by exists i, row, info.
  - intros i row info Hrow Hinfo.
    assert ((Faiss.inner_product (encode query) row, Z.of_nat i) ∈ sorted)
      as Hin.
    { unfold sorted. rewrite sorted_desc_perm. apply scored_elem_of.
      by exists i, row. }
    rewrite <- (take_drop (Z.to_nat top_k) sorted) in Hin. fold best in Hin.
    apply elem_of_app in Hin as [Hin|Hin].
    + left. apply hit_results_elem_of.
      by exists (Faiss.inner_product (encode query) row, Z.of_nat i), info.
    + right. intros r Hr.
      apply hit_results_elem_of in Hr as (h & info' & Hh & _ & ->).
      apply (StronglySorted_app_1_elem_of _ _ _ _ _ Hsorted Hh Hin).
Qed.

End retrieval.

Lemma aligned_example_service :
  length [unit_encode "hello"]
  = size (EmbeddingService.document_chunks example_service).
Proof. reflexivity. Qed.

Lemma search_returns_best_rows_witness :
  ∃ results,
    EmbeddingService.search (inr unit_encode) no_read_index no_json_load
      no_int_of_key no_files "hello" (Some 3) example_service
    = (example_service, inr results)
    ∧ length results = 1%nat.
Proof.
  destruct (search_returns_best_rows (inr unit_encode) no_read_index
              no_json_load no_int_of_key no_files "hello" 3 example_service
              unit_encode [unit_encode "hello"] ready_example_service
              eq_refl eq_refl aligned_example_service ltac:(lia))
    as (results & Hsearch & Hlen & _).
  exists results. split; [exact Hsearch | exact Hlen].
Defined.

Lemma hit_results_length (dc : gmap Z EmbeddingService.chunk_info)
    (hits : list (Q * Z)) :
  (length (hit_results dc hits) ≤ length hits)%nat.
Proof.
  induction hits as [|[score idx] hits IH]; [done|].
  rewrite hit_results_cons. destruct (dc !! idx); simpl; lia.
Qed.

Section top_k.

Import EmbeddingService.

Variable load_model : Py.result (string → Faiss.vector).
Variable read_index : string → Py.result (list Faiss.vector).
Variable json_load : string → Py.result (list (string * chunk_info)).
Variable int_of_key : string → Py.result Z.
Variable fs : files.

Local Abbreviation search :=
  (search load_model read_index json_load int_of_key fs).
Local Abbreviation search_by_document :=
  (search_by_document load_model read_index json_load int_of_key fs).

Lemma search_negative (query : string) (k : Z) (st : t) :
  ready st → k < 0 → search query (Some k) st = (st, inl Py.AssertionError).
Proof.
  intros Hready Hk. pose proof Hready as (_ & _ & [ix Hix] & _).
  destruct (encode_query_ready load_model read_index json_load int_of_key fs
              st query Hready) as (encode & Hm & Henc).
  unfold EmbeddingService.search.
  rewrite (initialize_ready _ _ _ _ _ _ Hready), Henc, Hix.
  assert (Py.int_or (Some k) settings.MAX_RETRIEVAL_RESULTS = k) as ->.
  { unfold Py.int_or. by destruct (Z.eqb_spec k 0); [lia|]. }
  by rewrite faiss_search_nonpositive by lia.
Qed.

(** X7. The edge values of [top_k] on a ready service. A negative [top_k]
    makes [search] and [search_by_document] raise the [AssertionError] of
    the index. A [top_k] of [0] is replaced by the default: [search]
    behaves as with no [top_k] and returns at most 20 results, and
    [search_by_document] returns the (at most 20) results of that search
    that belong to the document. *)
Theorem search_top_k_edge_values
    (query target : string) (st : t) (Hready : ready st) :
  (∀ k, k < 0 →
     search query (Some k) st = (st, inl Py.AssertionError)
     ∧ search_by_document query target (Some k) st
       = (st, inl Py.AssertionError))
  ∧ search query (Some 0) st = search query None st
  ∧ ∃ results,
      search query None st = (st, inr results)
      ∧ (length results ≤ 20)%nat
      ∧ search_by_document query target (Some 0) st
        = (st, inr (filter (λ r, document_id r = target) results)).
Proof.
  split; [|split; [done|]].
  - intros k Hk. split; [by apply search_negative|].
    unfold EmbeddingService.search_by_document.
    rewrite (initialize_ready _ _ _ _ _ _ Hready).
    by rewrite search_negative by (done || lia).
  - destruct (search_ready load_model read_index json_load int_of_key fs
                st query None Hready)
      as (encode & ix & hits & _ & _ & _ & Hlen & Hsearch); [done|].
    exists (hit_results (document_chunks st) hits).
    assert (length (hit_results (document_chunks st) hits) ≤ 20)%nat as Hle.
    { etrans; [apply hit_results_length|]. rewrite Hlen. simpl.
      unfold settings.MAX_RETRIEVAL_RESULTS. lia. }
    split; [done|]. split; [done|].
    unfold EmbeddingService.search_by_document.
    rewrite (initialize_ready _ _ _ _ _ _ Hready).
    change (search query (Some (0 * 2)) st) with (search query None st).
    rewrite Hsearch. f_equal. f_equal.
    rewrite slice_to_nonneg by done. apply take_ge.
    etrans; [apply length_filter|]. etrans; [apply Hle|].
    simpl. unfold settings.MAX_RETRIEVAL_RESULTS. lia.
Qed.

End top_k.

Lemma search_top_k_edge_values_witness :
  EmbeddingService.search (inr unit_encode) no_read_index no_json_load
    no_int_of_key no_files "hello" (Some (-1)) example_service
  = (example_service, inl Py.AssertionError).
Proof.
  apply (search_top_k_edge_values (inr unit_encode) no_read_index
           no_json_load no_int_of_key no_files "hello" "doc"
           example_service ready_example_service).
  lia.
Defined.

(** ** Removal, statistics and lookup by identifier *)

Lemma active_documents_elem_of (st : EmbeddingService.t) (x : string) :
  x ∈ EmbeddingService.active_documents st
  ↔ ∃ k c, EmbeddingService.document_chunks st !! k = Some c
           ∧ EmbeddingService.is_deleted c = false
           ∧ EmbeddingService.document_id c = x.
Proof.
  unfold EmbeddingService.active_documents.
  rewrite elem_of_list_to_set, list_elem_of_fmap. split.
  - intros ([k c] & -> & Hkc). apply elem_of_map_to_list in Hkc.
    apply map_lookup_filter_Some in Hkc as [Hk Hc]. by exists k, c.
  - intros (k & c & Hk & Hc & <-). exists (k, c). split; [done|].
    apply elem_of_map_to_list. by apply map_lookup_filter_Some.
Qed.

Lemma mark_removed_idemp (d : string) (c : EmbeddingService.chunk_info) :
  mark_removed d (mark_removed d c) = mark_removed d c.
Proof.
  unfold mark_removed.
  destruct (decide (EmbeddingService.document_id c = d)) as [Hd|Hd]; simpl.
  - by rewrite decide_True.
  - by rewrite decide_False.
Qed.

Lemma mark_removed_comm (d d' : string) (c : EmbeddingService.chunk_info) :
  mark_removed d (mark_removed d' c) = mark_removed d' (mark_removed d c).
Proof.
  unfold mark_removed. repeat (case_decide; simpl in * ); done.
Qed.

Lemma mark_removed_active (d : string) (c : EmbeddingService.chunk_info) :
  EmbeddingService.is_deleted (mark_removed d c) = false
  ↔ EmbeddingService.is_deleted c = false
    ∧ EmbeddingService.document_id c ≠ d.
Proof.
  unfold mark_removed. case_decide as Hd; simpl.
  - split; [done | by intros [_ ?]].
  - split; [by intros ? | by intros [? _]].
Qed.

Lemma mark_removed_document_id (d : string)
    (c : EmbeddingService.chunk_info) :
  EmbeddingService.document_id (mark_removed d c)
  = EmbeddingService.document_id c.
Proof. unfold mark_removed. by case_decide. Qed.

(** X8. [remove_document] deactivates exactly the document: the
    documents with an active chunk afterwards are those of before without
    the document, the number of active chunks does not grow, and the rows
    of the index (the [total_vectors] of the statistics) stay as they are.
    Removing a document twice is removing it once, removals commute, and
    removing a document that has no entry changes nothing. *)
Theorem remove_document_deactivates (d : string) (st : EmbeddingService.t) :
  let st' := EmbeddingService.remove_document d st in
  EmbeddingService.active_documents st'
  = EmbeddingService.active_documents st ∖ {[d]}
  ∧ EmbeddingService.active_chunks st' ≤ EmbeddingService.active_chunks st
  ∧ EmbeddingService.total_vectors <$> EmbeddingService.get_stats st'
    = EmbeddingService.total_vectors <$> EmbeddingService.get_stats st
  ∧ EmbeddingService.remove_document d st' = st'
  ∧ (∀ d', EmbeddingService.remove_document d
             (EmbeddingService.remove_document d' st)
           = EmbeddingService.remove_document d'
               (EmbeddingService.remove_document d st))
  ∧ ((∀ k c, EmbeddingService.document_chunks st !! k = Some c →
             EmbeddingService.document_id c ≠ d) →
       st' = st).
Proof.
  intros st'. split; [|split; [|split; [|split; [|split]]]].
  - apply set_eq. intros x.
    rewrite elem_of_difference, not_elem_of_singleton,
      !active_documents_elem_of.
    unfold st', EmbeddingService.remove_document. simpl. split.
    + intros (k & c & Hk & Hc & <-).
      rewrite lookup_fmap in Hk. apply fmap_Some in Hk as (c0 & Hk & ->).
      fold (mark_removed d c0) in Hc |- *.
      apply mark_removed_active in Hc as [Hc Hd].
      rewrite mark_removed_document_id. split; [|done]. by exists k, c0.
    + intros [(k & c & Hk & Hc & <-) Hd].
      exists k, (mark_removed d c). rewrite lookup_fmap, Hk.
      split; [done|]. split; [by apply mark_removed_active|].
      apply mark_removed_document_id.
  - unfold EmbeddingService.active_chunks, st',
      EmbeddingService.remove_document. simpl.
    apply inj_le. rewrite map_filter_fmap, map_size_fmap.
    apply map_subseteq_size, map_subseteq_spec. intros k c Hkc.
    apply map_lookup_filter_Some in Hkc as [Hk Hc]. simpl in Hc.
    apply map_lookup_filter_Some. split; [done|]. simpl.
    fold (mark_removed d c) in Hc. by apply mark_removed_active in Hc as [? _].
  - unfold EmbeddingService.get_stats, st'. simpl.
    by destruct (EmbeddingService.is_initialized st).
  - unfold st', EmbeddingService.remove_document,
      EmbeddingService.set_document_chunks. simpl. f_equal.
    rewrite <- map_fmap_compose. apply map_fmap_ext. intros k c _.
    apply mark_removed_idemp.
  - intros d'. unfold EmbeddingService.remove_document,
      EmbeddingService.set_document_chunks. simpl. f_equal.
    rewrite <- !map_fmap_compose. apply map_fmap_ext. intros k c _.
    apply mark_removed_comm.
  - intros Hnone. unfold st', EmbeddingService.remove_document,
      EmbeddingService.set_document_chunks.
    destruct st as [m ix dc init]. simpl in *. f_equal.
    rewrite <- (map_fmap_id dc) at 2. apply map_fmap_ext. intros k c Hk.
    by rewrite decide_False by by apply (Hnone k).
Qed.

Section statistics.

Import EmbeddingService.

Variable load_model : Py.result (string → Faiss.vector).
Variable read_index : string → Py.result (list Faiss.vector).
Variable json_load : string → Py.result (list (string * chunk_info)).
Variable int_of_key : string → Py.result Z.
Variable fs : files.

Local Abbreviation add_documents :=
  (add_documents load_model read_index json_load int_of_key fs).

Lemma add_chunks_active_size (d : string) (chunks : list DocumentParser.chunk)
    (ids texts : list string) (dc : gmap Z chunk_info) :
  dense dc →
  size (filter (λ kv : Z * chunk_info, is_deleted kv.2 = false)
               (foldl (add_chunk d) (ids, texts, dc) chunks).2)
  = (size (filter (λ kv : Z * chunk_info, is_deleted kv.2 = false) dc)
     + length chunks)%nat.
Proof.
  revert ids texts dc.
  induction chunks as [|c chunks IH]; intros ids texts dc Hd; simpl; [lia|].
  rewrite IH by by apply dense_insert.
  rewrite map_filter_insert_True by done.
  rewrite map_size_insert_None; [lia|].
  apply map_lookup_filter_None. left. by apply dense_next_free.
Qed.

Lemma add_documents_table (d : string) (chunks : list DocumentParser.chunk)
    (st : t) :
  ready st →
  document_chunks (add_documents d chunks st).1
  = (foldl (add_chunk d) ([], [], document_chunks st) chunks).2.
Proof.
  intros Hready. pose proof Hready as (Hinit & [encode Hm] & [ix Hix] & Hd).
  unfold EmbeddingService.add_documents.
  rewrite (initialize_ready _ _ _ _ _ _ Hready).
  destruct (add_chunks_dense d chunks [] [] _ Hd)
    as (dc' & Hrun & Hd' & _).
  rewrite Hrun. simpl.
  assert (ready (set_document_chunks dc' st)) as Hready'.
  { split; [done|]. split; [by eexists|]. split; [by eexists | done]. }
  destruct (encode_texts_ready load_model read_index json_load int_of_key fs
              _ (DocumentParser.text <$> chunks) Hready')
    as (encode' & _ & ->).
  simpl. rewrite Hix. by destruct chunks.
Qed.

(** X9. What [add_documents] does to the statistics of a ready service:
    [total_vectors] and [active_chunks] both grow by the number of chunks
    added, and the document becomes one of the active documents as soon
    as one chunk is added (an empty list of chunks changes nothing). *)
Theorem add_documents_updates_statistics
    (d : string) (chunks : list DocumentParser.chunk) (st : t)
    (Hready : ready st) :
  let st' := (add_documents d chunks st).1 in
  ∃ s s',
    get_stats st = Some s
    ∧ get_stats st' = Some s'
    ∧ total_vectors s' = total_vectors s + Py.len chunks
    ∧ stats_active_chunks s' = stats_active_chunks s + Py.len chunks
    ∧ active_documents st'
      = active_documents st ∪ match chunks with
                              | [] => ∅
                              | _ :: _ => {[d]}
                              end.
Proof.
  intros st'.
  pose proof (add_documents_table d chunks st Hready) as Htable.
  fold st' in Htable.
  destruct (add_documents_ready load_model read_index json_load int_of_key
              fs st d chunks Hready)
    as (encode & ix & dc' & Hm & Hix & Hadd & Hd' & Hsize & Hold & Hnew).
  pose proof Hready as (Hinit & _ & _ & Hd).
  assert (st' = Service (Some encode)
                  (Some (ix ++ map encode (DocumentParser.text <$> chunks)))
                  dc' true) as Hst'.
  { unfold st'. by rewrite Hadd. }
  unfold get_stats. rewrite Hinit, Hst'. cbn [is_initialized index].
  rewrite Hix. eexists _, _. split; [done|]. split; [done|].
  cbn [total_vectors stats_active_chunks].
  split; [|split].
  - unfold Faiss.ntotal, Py.len.
    rewrite length_app, length_map, length_fmap. lia.
  - unfold active_chunks. rewrite <- Hst', Htable.
    rewrite add_chunks_active_size by done. unfold Py.len. lia.
  - apply set_eq. intros x. rewrite elem_of_union.
    rewrite !active_documents_elem_of. cbn [document_chunks]. split.
    + intros (k & c & Hk & Hc & <-).
      destruct (decide (k < slots st)) as [Hlt|Hge].
      * left. exists k, c. by rewrite <- Hold.
      * right. assert (is_Some (dc' !! k)) as Hin by by eexists.
        apply Hd' in Hin. unfold slots in Hge.
        destruct (lookup_lt_is_Some_2 chunks (Z.to_nat (k - slots st)))
          as [ch Hch]; [unfold slots; lia|].
        pose proof (Hnew _ _ Hch) as Hk'.
        replace (slots st + Z.of_nat (Z.to_nat (k - slots st))) with k
          in Hk' by (unfold slots; lia).
        rewrite Hk in Hk'. injection Hk' as ->.
        destruct chunks; [done|]. simpl. set_solver.
    + intros [(k & c & Hk & Hc & <-)|Hx].
      * exists k, c. rewrite Hold; [done|].
        unfold slots. apply Hd. by eexists.
      * destruct chunks as [|ch chunks]; [set_solver|].
        apply elem_of_singleton in Hx as ->.
        exists (slots st + Z.of_nat 0), (chunk_entry d ch).
        split; [by apply Hnew|]. done.
Qed.

End statistics.

Lemma add_documents_updates_statistics_witness :
  ∃ s',
    EmbeddingService.get_stats
      (EmbeddingService.add_documents (inr unit_encode) no_read_index
         no_json_load no_int_of_key no_files "doc"
         [example_chunk; example_chunk] example_service).1
    = Some s'
    ∧ EmbeddingService.total_vectors s' = 1 + 2
    ∧ EmbeddingService.stats_active_chunks s' = 1 + 2.
Proof.
  destruct (add_documents_updates_statistics (inr unit_encode) no_read_index
              no_json_load no_int_of_key no_files "doc"
              [example_chunk; example_chunk] example_service
              ready_example_service)
    as (s & s' & Hs & Hs' & Htotal & Hactive & _).
  exists s'. injection Hs as <-.
  split; [exact Hs'|]. split; [exact Htotal | exact Hactive].
Defined.

Lemma omap_seq_lookup {A} (f : nat → option A) (n k : nat) :
  (∀ i, (i < n)%nat → is_Some (f i)) →
  omap f (seq 0 n) !! k = if decide (k < n)%nat then f k else None.
Proof.
  intros Hsome. induction n as [|n IH].
  - by rewrite decide_False by lia.
  - rewrite seq_S, omap_app. simpl.
    assert (length (omap f (seq 0 n)) = n) as Hlen.
    { clear IH. induction n as [|n IHn]; [done|].
      rewrite seq_S, omap_app, length_app, IHn by (intros; apply Hsome; lia).
      simpl. destruct (Hsome n ltac:(lia)) as [x ->]. simpl. lia. }
    destruct (Hsome n ltac:(lia)) as [x Hx]. rewrite Hx. simpl.
    destruct (decide (k < n)%nat) as [Hlt|Hge].
    + rewrite lookup_app_l by lia. rewrite IH by (intros; apply Hsome; lia).
      by rewrite decide_True by lia.
    + rewrite lookup_app_r by lia. rewrite Hlen.
      destruct (decide (k = n)) as [->|Hne].
      * rewrite Nat.sub_diag. simpl. by rewrite decide_True by lia.
      * rewrite decide_False by lia.
        destruct (k - n)%nat as [|m] eqn:Hm; [lia | done].
Qed.

(** The values of a dense table, by position. *)
Lemma values_lookup (dc : gmap Z EmbeddingService.chunk_info) (k : nat) :
  dense dc → EmbeddingService.values dc !! k = dc !! Z.of_nat k.
Proof.
  intros Hd. unfold EmbeddingService.values.
  rewrite omap_seq_lookup by (intros i Hi; apply Hd; lia).
  case_decide as Hk; [done|]. symmetry.
  apply eq_None_not_Some. rewrite (Hd _). lia.
Qed.

Lemma head_filter_first {A} (P : A → Prop) `{!∀ x, Decision (P x)}
    (l : list A) (i : nat) (x : A) :
  l !! i = Some x → P x →
  (∀ j y, (j < i)%nat → l !! j = Some y → ¬ P y) →
  head (filter P l) = Some x.
Proof.
  revert i. induction l as [|z l IH]; intros i Hi Hx Hbefore; [done|].
  rewrite filter_cons. destruct i as [|i].
  - injection Hi as ->. by rewrite decide_True.
  - rewrite decide_False by (apply (Hbefore 0%nat); [lia | done]).
    apply (IH i); [done | done |].
    intros j y Hj Hy. apply (Hbefore (S j)); [lia | done].
Qed.

Lemma head_filter_position {A} (P : A → Prop) `{!∀ x, Decision (P x)}
    (l : list A) (x : A) :
  head (filter P l) = Some x →
  ∃ i, l !! i = Some x ∧ P x
       ∧ ∀ j y, (j < i)%nat → l !! j = Some y → ¬ P y.
Proof.
  induction l as [|z l IH]; [done|].
  rewrite filter_cons. case_decide as Hz.
  - intros [= ->]. exists 0%nat. split; [done|]. split; [done|]. lia.
  - intros Hhead. destruct (IH Hhead) as (i & Hi & Hx & Hbefore).
    exists (S i). split; [done|]. split; [done|].
    intros [|j] y Hj Hy.
    + by injection Hy as <-.
    + apply (Hbefore j); [lia | done].
Qed.

Lemma head_filter_None {A} (P : A → Prop) `{!∀ x, Decision (P x)}
    (l : list A) :
  head (filter P l) = None ↔ ∀ x, x ∈ l → ¬ P x.
Proof.
  induction l as [|z l IH].
  - split; [|done]. intros _ x Hx. by apply elem_of_nil in Hx.
  - rewrite filter_cons. case_decide as Hz.
    + split; [done|]. intros Hall. destruct (Hall z); [left | done].
    + rewrite IH. split.
      * intros Hall x Hx. apply elem_of_cons in Hx as [->|Hx]; auto.
      * intros Hall x Hx. apply Hall. by right.
Qed.

Section lookup.

Import EmbeddingService.

Variable load_model : Py.result (string → Faiss.vector).
Variable read_index : string → Py.result (list Faiss.vector).
Variable json_load : string → Py.result (list (string * chunk_info)).
Variable int_of_key : string → Py.result Z.
Variable fs : files.

Local Abbreviation add_documents :=
  (add_documents load_model read_index json_load int_of_key fs).
Local Abbreviation run := (run load_model read_index json_load int_of_key fs).

(** X10. Once an identifier resolves on a ready service it resolves to
    the same entry for the rest of every run of [add_documents] and
    [remove_document] calls: [get_chunk_by_id] keeps returning the entry
    of the same slot, with at most its [deleted] key changed. So after a
    document is removed and added again under the same identifiers, the
    lookup still answers with the entries of the first addition. *)
Theorem get_chunk_by_id_stable
    (the_chunk_id : string) (ms : list mutation) (st : t) (c : chunk_info)
    (Hready : ready st)
    (Hfound : get_chunk_by_id the_chunk_id st = Some c) :
  ∃ c', get_chunk_by_id the_chunk_id (run ms st) = Some c'
        ∧ same_entry c c'.
Proof.
  pose proof Hready as (_ & _ & _ & Hd).
  pose proof (run_preserves_ready load_model read_index json_load int_of_key
                fs ms st Hready) as (_ & _ & _ & Hd').
  unfold get_chunk_by_id in *.
  apply head_filter_position in Hfound as (i & Hi & Hid & Hbefore).
  rewrite values_lookup in Hi by done.
  destruct (run_keeps_entries load_model read_index json_load int_of_key fs
              ms st _ _ Hready Hi) as (c' & Hi' & Hsame).
  exists c'. split; [|done].
  apply (head_filter_first _ _ i).
  - by rewrite values_lookup.
  - destruct Hsame as (<- & _). done.
  - intros j y Hj Hy Hidy. rewrite values_lookup in Hy by done.
    assert (is_Some (document_chunks st !! Z.of_nat j)) as [y0 Hy0].
    { apply Hd. assert (is_Some (document_chunks st !! Z.of_nat i)) as Hin
        by by eexists.
      apply Hd in Hin. lia. }
    destruct (run_keeps_entries load_model read_index json_load int_of_key fs
                ms st _ _ Hready Hy0) as (y' & Hy' & Hsame').
    rewrite Hy in Hy'. injection Hy' as <-.
    apply (Hbefore j y0); [done | by rewrite values_lookup |].
    destruct Hsame' as (-> & _). done.
Qed.

(** X11. Lookup after [add_documents] on a ready service: an identifier
    that no slot has before the call resolves, after it, to the entry of
    the first of the added chunks with that identifier; and an identifier
    that no slot has and no added chunk gets stays unresolved. *)
Theorem get_chunk_by_id_after_add
    (d : string) (chunks : list DocumentParser.chunk) (st : t)
    (the_chunk_id : string)
    (Hready : ready st)
    (Hnew : get_chunk_by_id the_chunk_id st = None) :
  get_chunk_by_id the_chunk_id (add_documents d chunks st).1
  = chunk_entry d
      <$> head (filter (λ ch, make_chunk_id d ch = the_chunk_id) chunks).
Proof.
  pose proof Hready as (_ & _ & _ & Hd).
  destruct (add_documents_ready load_model read_index json_load int_of_key
              fs st d chunks Hready)
    as (encode & ix & dc' & _ & _ & -> & Hd' & Hsize & Hold & Hadded).
  unfold get_chunk_by_id in *. cbn [fst document_chunks].
  rewrite head_filter_None in Hnew.
  assert (∀ (k : nat) y, (k < size (document_chunks st))%nat →
            dc' !! Z.of_nat k = Some y → chunk_id y ≠ the_chunk_id)
    as Hearlier.
  { intros k y Hk Hy. rewrite Hold in Hy by (unfold slots; lia).
    apply Hnew. rewrite list_elem_of_lookup. exists k.
    by rewrite values_lookup. }
  destruct (head (filter (λ ch, make_chunk_id d ch = the_chunk_id) chunks))
    as [ch|] eqn:Hhead; simpl.
  - apply head_filter_position in Hhead as (i & Hi & Hid & Hbefore).
    apply (head_filter_first _ _ (size (document_chunks st) + i)).
    + rewrite values_lookup by done. rewrite <- (Hadded i ch Hi).
      f_equal. unfold slots. lia.
    + done.
    + intros j y Hj Hy. rewrite values_lookup in Hy by done.
      destruct (decide (j < size (document_chunks st))%nat) as [Hlt|Hge].
      * by apply (Hearlier j).
      * destruct (lookup_lt_is_Some_2 chunks (j - size (document_chunks st)))
          as [ch' Hch']; [apply lookup_lt_Some in Hi; lia|].
        pose proof (Hadded _ _ Hch') as Hy'.
        replace (slots st
                 + Z.of_nat (j - size (document_chunks st))) with (Z.of_nat j)
          in Hy' by (unfold slots; lia).
        rewrite Hy in Hy'. injection Hy' as ->.
        apply (Hbefore (j - size (document_chunks st))%nat ch');
          [lia | done].
  - apply head_filter_None. intros y Hy.
    apply list_elem_of_lookup in Hy as [j Hy].
    rewrite values_lookup in Hy by done.
    destruct (decide (j < size (document_chunks st))%nat) as [Hlt|Hge].
    + by apply (Hearlier j).
    + assert (is_Some (dc' !! Z.of_nat j)) as Hin by by eexists.
      apply Hd' in Hin.
      destruct (lookup_lt_is_Some_2 chunks (j - size (document_chunks st)))
        as [ch' Hch']; [lia|].
      pose proof (Hadded _ _ Hch') as Hy'.
      replace (slots st
               + Z.of_nat (j - size (document_chunks st))) with (Z.of_nat j)
        in Hy' by (unfold slots; lia).
      rewrite Hy in Hy'. injection Hy' as ->.
      rewrite head_filter_None in Hhead. apply Hhead.
      rewrite list_elem_of_lookup. by eexists.
Qed.

End lookup.

Lemma get_chunk_by_id_stable_witness :
  ∃ c',
    EmbeddingService.get_chunk_by_id "doc_0"
      (run (inr unit_encode) no_read_index no_json_load no_int_of_key
         no_files [Remove "doc"; Add "doc" [example_chunk]] example_service)
    = Some c'
    ∧ same_entry (EmbeddingService.chunk_entry "doc" example_chunk) c'.
Proof.
  apply (get_chunk_by_id_stable (inr unit_encode) no_read_index
           no_json_load no_int_of_key no_files "doc_0"
           [Remove "doc"; Add "doc" [example_chunk]] example_service
           (EmbeddingService.chunk_entry "doc" example_chunk)
           ready_example_service).
  reflexivity.
Defined.

Lemma get_chunk_by_id_after_add_witness :
  EmbeddingService.get_chunk_by_id "new_0"
    (EmbeddingService.add_documents (inr unit_encode) no_read_index
       no_json_load no_int_of_key no_files "new" [example_chunk]
       example_service).1
  = Some (EmbeddingService.chunk_entry "new" example_chunk).
Proof.
  apply (get_chunk_by_id_after_add (inr unit_encode) no_read_index
           no_json_load no_int_of_key no_files "new" [example_chunk]
           example_service "new_0" ready_example_service).
  reflexivity.
Defined.

(** ** Saving the index and restoring it *)

Lemma foldl_insert_list_to_map {A} (l : list (Z * A)) (m : gmap Z A) :
  NoDup l.*1 →
  foldl (λ m kv, <[kv.1 := kv.2]> m) m l = list_to_map l ∪ m.
Proof.
  revert m. induction l as [|[k v] l IH]; intros m Hnd.
  - simpl. by rewrite (left_id_L ∅ (∪)).
  - rewrite fmap_cons in Hnd. apply NoDup_cons in Hnd as [Hk Hnd].
    cbn [foldl list_to_map foldr fst snd]. rewrite IH by done.
    rewrite <- insert_union_l. symmetry. apply insert_union_r.
    by apply not_elem_of_list_to_map_1.
Qed.

Section round_trip.

Import EmbeddingService.

Variable load_model : Py.result (string → Faiss.vector).
Variable read_index : string → Py.result (list Faiss.vector).
Variable json_load : string → Py.result (list (string * chunk_info)).
Variable int_of_key : string → Py.result Z.
Variable write_index : option (list Faiss.vector) → Py.result string.
Variable json_dump : gmap Z chunk_info → string.

Lemma int_keys_decimal (l : list (Z * chunk_info)) (m : gmap Z chunk_info) :
  Forall (λ kv, int_of_key (pretty kv.1) = inr kv.1) l →
  int_keys int_of_key ((λ kv, (pretty kv.1, kv.2)) <$> l) m
  = inr (foldl (λ m kv, <[kv.1 := kv.2]> m) m l).
Proof.
  intros Hl. revert m.
  induction Hl as [|[k v] l Hk Hl IH]; intros m; [done|].
  simpl in *. rewrite Hk. simpl. apply IH.
Qed.

(** X12. A save followed by a restore gives the index and the table
    back. When the service is initialised, the index file written can be
    read back to the same rows, and the metadata written is read back to
    the entries under their keys in decimal, then [save_index] succeeds
    and [initialize] on a new service over the files it wrote ends with
    the rows and the table of the saved service, removal marks
    included. *)
Theorem save_then_initialize_restores
    (st : t) (fs : files) (encode : string → Faiss.vector)
    (ix : list Faiss.vector) (index_bytes : string)
    (Hinit : is_initialized st = true)
    (Hindex : index st = Some ix)
    (Hmodel : load_model = inr encode)
    (Hwrite : write_index (Some ix) = inr index_bytes)
    (Hread : read_index index_bytes = inr ix)
    (Hjson : json_load (json_dump (document_chunks st))
             = inr ((λ kv, (pretty kv.1, kv.2))
                      <$> map_to_list (document_chunks st)))
    (Hkeys : Forall (λ kv, int_of_key (pretty kv.1) = inr kv.1)
                    (map_to_list (document_chunks st))) :
  ∃ fs',
    save_index write_index json_dump st fs = (fs', inr ())
    ∧ initialize load_model read_index json_load int_of_key fs' new
      = (Service (Some encode) (Some ix) (document_chunks st) true, inr ()).
Proof.
  unfold save_index. rewrite Hinit, Hindex, Hwrite.
  eexists. split; [done|].
  unfold initialize. cbn [is_initialized new]. rewrite Hmodel.
  unfold _load_index, _load_index_try. cbn [faiss_file metadata_file].
  rewrite Hread, Hjson. cbn [mbind result_bind Py.bind].
  rewrite int_keys_decimal by done.
  rewrite foldl_insert_list_to_map by apply NoDup_fst_map_to_list.
  rewrite list_to_map_to_list, (right_id_L ∅ (∪)).
  done.
Qed.

End round_trip.

Lemma save_then_initialize_restores_witness :
  ∃ fs',
    EmbeddingService.save_index write_one_row dump_one_entry
      example_service no_files = (fs', inr ())
    ∧ EmbeddingService.initialize (inr unit_encode) one_row_index
        load_one_entry zero_key fs' EmbeddingService.new
      = (example_service, inr ()).
Proof.
  apply (save_then_initialize_restores (inr unit_encode) one_row_index
           load_one_entry zero_key write_one_row dump_one_entry
           example_service no_files unit_encode [unit_encode "hello"]
           "index" eq_refl eq_refl eq_refl eq_refl eq_refl eq_refl).
  vm_compute. repeat constructor.
Defined.

(** ** The rules of the language-model service *)

Lemma prefix_contains (n h : string) :
  String.prefix n h = true → Py.contains n h = true.
Proof.
  destruct h as [|x h]; simpl.
  - by destruct n.
  - by intros ->.
Qed.

Lemma prefix_app_l (a b h : string) :
  String.prefix (a +:+ b) h = true → String.prefix a h = true.
Proof.
  revert h. induction a as [|c a IH]; intros h.
  - by destruct h.
  - rewrite str_app_cons. destruct h as [|x h]; simpl; [done|].
    destruct (Ascii.ascii_dec c x); [apply IH | done].
Qed.

Lemma prefix_tail (c : Ascii.ascii) (n : string) (x : Ascii.ascii)
    (h : string) :
  String.prefix (String c n) (String x h) = true → String.prefix n h = true.
Proof. simpl. by destruct (Ascii.ascii_dec c x). Qed.

(** A text that contains a string contains its beginnings and its ends. *)
Lemma contains_app_l (a b h : string) :
  Py.contains (a +:+ b) h = true → Py.contains a h = true.
Proof.
  induction h as [|x h IH]; cbn [Py.contains].
  - destruct a; [done|]. by rewrite str_app_cons.
  - intros Hc. apply orb_true_iff in Hc as [Hc|Hc]; apply orb_true_iff.
    + left. by apply prefix_app_l in Hc.
    + right. by apply IH.
Qed.

Lemma contains_tail (c : Ascii.ascii) (n h : string) :
  Py.contains (String c n) h = true → Py.contains n h = true.
Proof.
  induction h as [|x h IH]; [done|].
  cbn [Py.contains]. intros Hc.
  apply orb_true_iff in Hc as [Hc|Hc]; apply orb_true_iff; right.
  - by apply prefix_contains, (prefix_tail c n x).
  - by apply IH.
Qed.

Lemma contains_app_r (a b h : string) :
  Py.contains (a +:+ b) h = true → Py.contains b h = true.
Proof.
  induction a as [|c a IH]; [done|].
  rewrite str_app_cons. intros Hc. by apply IH, (contains_tail c).
Qed.

(** X13. The decision of the rule-based answer is [Yes], [No] or
    [Unclear]. The words of coverage are tried first and [covered] is part
    of [not covered]: when the query mentions [cover], a best chunk that
    says [not covered] is answered with [Yes], and a [No] is given only
    for a chunk that mentions [excluded] or [exceptions] and none of the
    words of coverage. *)
Theorem rule_based_decision_ignores_negation
    (query : string) (relevant_chunks : list EmbeddingService.chunk_info)
    (domain : option string) :
  let data :=
    LLMService._rule_based_answer_generation query relevant_chunks domain in
  (LLMService.decision data = Some "Yes"
   ∨ LLMService.decision data = Some "No"
   ∨ LLMService.decision data = Some "Unclear")
  ∧ (∀ best rest,
       relevant_chunks = best :: rest →
       Py.contains "cover" (Py.lower query) = true →
       Py.contains "not covered" (Py.lower (EmbeddingService.text best))
       = true →
       LLMService.decision data = Some "Yes")
  ∧ (LLMService.decision data = Some "No" →
       ∃ best rest,
         relevant_chunks = best :: rest
         ∧ Py.contains "cover" (Py.lower query) = true
         ∧ Py.contains "covered" (Py.lower (EmbeddingService.text best))
           = false
         ∧ (Py.contains "excluded" (Py.lower (EmbeddingService.text best))
            = true
            ∨ Py.contains "exceptions"
                (Py.lower (EmbeddingService.text best)) = true)).
Proof.
  intros data. unfold data, LLMService._rule_based_answer_generation.
  destruct relevant_chunks as [|best rest]; cbn [LLMService.decision].
  { split; [auto|]. split; [by intros ? ? [=] | by intros [=]]. }
  unfold LLMService.any_in. cbn [existsb].
  set (t := Py.lower (EmbeddingService.text best)).
  destruct (Py.contains "cover" (Py.lower query)) eqn:Hq.
  2: { split; [auto|]. split; [by intros ? ? _ [=] | by intros [=]]. }
  destruct (Py.contains "covered" t) eqn:Hcovered; cbn [orb].
  { split; [auto|]. split; [done | by intros [=]]. }
  assert (Py.contains "not covered" t = false) as Hnot.
  { destruct (Py.contains "not covered" t) eqn:Hn; [|done].
    apply (contains_app_r "not " "covered") in Hn. congruence. }
  rewrite Hnot. cbn [orb].
  destruct (Py.contains "includes" t || (Py.contains "benefits" t || false))
    eqn:Hyes.
  { split; [auto|]. split; [done | by intros [=]]. }
  destruct (Py.contains "excluded" t) eqn:Hex; cbn [orb].
  { split; [auto|]. split.
    - intros b r [= <- <-] _ Hn. fold t in Hn. congruence.
    - intros _. exists best, rest. auto. }
  destruct (Py.contains "exceptions" t) eqn:Hexc; cbn [orb].
  { split; [auto|]. split.
    - intros b r [= <- <-] _ Hn. fold t in Hn. congruence.
    - intros _. exists best, rest. auto. }
  split; [auto|]. split.
  - intros b r [= <- <-] _ Hn. fold t in Hn. congruence.
  - by intros [=].
Qed.

Lemma str_app_inj (p a b : string) : p +:+ a = p +:+ b → a = b.
Proof.
  induction p as [|c p IH]; [done|].
  rewrite !str_app_cons. intros [= H]. by apply IH.
Qed.

Lemma classify_clause_cases (sentence : string) :
  let lowered := Py.lower sentence in
  LLMService.classify_clause sentence
    ∈ ["coverage"; "exclusion"; "condition"; "general"]
  ∧ (Py.contains "cover" lowered = true →
       LLMService.classify_clause sentence = "coverage")
  ∧ (LLMService.classify_clause sentence = "exclusion" →
       Py.contains "cover" lowered = false
       ∧ (Py.contains "exclude" lowered = true
          ∨ Py.contains "exception" lowered = true)).
Proof.
  intros lowered. unfold LLMService.classify_clause, LLMService.any_in.
  fold lowered. cbn [existsb].
  destruct (Py.contains "cover" lowered) eqn:Hcover; cbn [orb].
  { split; [set_solver|]. split; [done | by intros [=]]. }
  destruct (Py.contains "benefit" lowered || (Py.contains "eligible" lowered
                                               || false)) eqn:Hb.
  { split; [set_solver|]. split; [done | by intros [=]]. }
  assert (Py.contains "not cover" lowered = false) as ->.
  { destruct (Py.contains "not cover" lowered) eqn:Hn; [|done].
    apply (contains_app_r "not " "cover") in Hn. congruence. }
  destruct (Py.contains "exclude" lowered) eqn:Hex; cbn [orb].
  { split; [set_solver|]. split; [done | auto]. }
  destruct (Py.contains "exception" lowered) eqn:Hexc; cbn [orb].
  { split; [set_solver|]. split; [done | auto]. }
  destruct (Py.contains "condition" lowered
            || (Py.contains "require" lowered
                || (Py.contains "must" lowered
                    || (Py.contains "shall" lowered || false)))).
  - split; [set_solver|]. split; [done | by intros [=]].
  - split; [set_solver|]. split; [done | by intros [=]].
Qed.

Lemma clauses_from_ok (i : Z) (sentences : list string) :
  let clauses := LLMService.clauses_from i sentences in
  (length clauses ≤ length sentences)%nat
  ∧ Forall (λ c, ∃ j, i ≤ j
                      ∧ LLMService.clause_id c = "clause_" +:+ pretty j)
           clauses
  ∧ NoDup (LLMService.clause_id <$> clauses)
  ∧ Forall (λ c, 20 ≤ DocumentParser.str_len (LLMService.clause_text c)
                 ∧ LLMService.clause_type c
                   = LLMService.classify_clause (LLMService.clause_text c)
                 ∧ LLMService.importance c = (1 # 2)%Q
                 ∧ ∃ s, s ∈ sentences
                        ∧ LLMService.clause_text c = Py.strip s)
           clauses.
Proof.
  revert i. induction sentences as [|s sentences IH]; intros i.
  { split; [done|]. split; [constructor|]. split; constructor. }
  destruct (IH (i + 1)) as (Hlen & Hids & Hnodup & Hall).
  assert (Forall (λ c, ∃ j, i ≤ j
                            ∧ LLMService.clause_id c = "clause_" +:+ pretty j)
                 (LLMService.clauses_from (i + 1) sentences)) as Hids'.
  { eapply Forall_impl; [exact Hids|].
    intros c (j & Hj & Hc). exists j. split; [lia | done]. }
  assert (Forall (λ c, 20 ≤ DocumentParser.str_len (LLMService.clause_text c)
                 ∧ LLMService.clause_type c
                   = LLMService.classify_clause (LLMService.clause_text c)
                 ∧ LLMService.importance c = (1 # 2)%Q
                 ∧ ∃ s', s' ∈ s :: sentences
                         ∧ LLMService.clause_text c = Py.strip s')
                 (LLMService.clauses_from (i + 1) sentences)) as Hall'.
  { eapply Forall_impl; [exact Hall|].
    intros c (? & ? & ? & s' & Hs' & Hc).
    split; [done|]. split; [done|]. split; [done|].
    exists s'. split; [by right | done]. }
  cbn zeta. cbn [LLMService.clauses_from].
  destruct (Z.ltb_spec (DocumentParser.str_len (Py.strip s)) 20) as [Hshort|Hlong].
  - split; [simpl; lia|]. done.
  - split; [simpl; lia|]. split; [|split].
    + constructor; [|done]. exists i. split; [lia | done].
    + rewrite fmap_cons. apply NoDup_cons. split; [|done].
      cbn [LLMService.clause_id]. intros Hin.
      apply list_elem_of_fmap in Hin as (c & Hc & Hin).
      rewrite Forall_forall in Hids.
      destruct (Hids c Hin) as (j & Hj & Hcj).
      rewrite Hcj in Hc. apply str_app_inj in Hc.
      apply (inj pretty) in Hc. lia.
    + constructor; [|done]. cbn [LLMService.clause_text
        LLMService.clause_type LLMService.importance].
      split; [done|]. split; [done|]. split; [done|].
      exists s. split; [by left | done].
Qed.

Section language_model.

Variable load_tokenizer : Py.result (string → Py.result (list Z)).
Variable load_pipeline : Py.result (string → Py.result string).
Variable re_search_json : string → option string.
Variable json_loads_query : string → Py.result LLMService.structured_query.
Variable json_loads_answer : string → Py.result LLMService.answer_data.
Variable extraction_prompt : string → string → string.
Variable answer_prompt : string → string → string → string.
Variable format_3f : Q → string.

Local Abbreviation initialize :=
  (LLMService.initialize load_tokenizer load_pipeline).
Local Abbreviation extract_key_clauses :=
  (LLMService.extract_key_clauses load_tokenizer load_pipeline).
Local Abbreviation extract_structured_query :=
  (LLMService.extract_structured_query load_tokenizer load_pipeline
     re_search_json json_loads_query extraction_prompt).
Local Abbreviation generate_answer :=
  (LLMService.generate_answer load_tokenizer load_pipeline re_search_json
     json_loads_answer answer_prompt format_3f).

Lemma llm_initialize_cases (st : LLMService.t) :
  (∃ st', initialize st = (st', inr ())
          ∧ LLMService.is_initialized st' = true)
  ∨ (∃ e, initialize st = (st, inl e)
          ∧ LLMService.is_initialized st = false
          ∧ load_tokenizer = inl e).
Proof.
  unfold LLMService.initialize.
  destruct (LLMService.is_initialized st) eqn:Hinit; [left; eauto|].
  destruct load_tokenizer as [e|tok]; [right; eauto | left; eauto].
Qed.

(** X14. On an initialised service [extract_key_clauses] returns, for
    every text: at most one clause per piece between full stops, with
    identifiers that are pairwise different; the text of a clause is a
    piece stripped of its surrounding whitespace and has at least 20
    characters; the type is one of the four types. The words of coverage
    are tried first and [cover] is part of [not cover]: a clause that says
    [not cover] is typed [coverage], and [exclusion] is given only to a
    clause that mentions [exclude] or [exception] and not [cover]. *)
Theorem extract_key_clauses_shape
    (text : string) (domain : option string) (st : LLMService.t)
    (Hinit : LLMService.is_initialized st = true) :
  ∃ clauses,
    extract_key_clauses text domain st = (st, inr clauses)
    ∧ (length clauses
       ≤ length (Py.split_on (Ascii.ascii_of_nat 46) text))%nat
    ∧ NoDup (LLMService.clause_id <$> clauses)
    ∧ Forall
        (λ c,
           let lowered := Py.lower (LLMService.clause_text c) in
           20 ≤ DocumentParser.str_len (LLMService.clause_text c)
           ∧ (∃ s, s ∈ Py.split_on (Ascii.ascii_of_nat 46) text
                   ∧ LLMService.clause_text c = Py.strip s)
           ∧ LLMService.clause_type c
               ∈ ["coverage"; "exclusion"; "condition"; "general"]
           ∧ (Py.contains "not cover" lowered = true →
                LLMService.clause_type c = "coverage")
           ∧ (LLMService.clause_type c = "exclusion" →
                Py.contains "cover" lowered = false
                ∧ (Py.contains "exclude" lowered = true
                   ∨ Py.contains "exception" lowered = true)))
        clauses.
Proof.
  unfold LLMService.extract_key_clauses, LLMService.initialize.
  rewrite Hinit. eexists. split; [done|].
  destruct (clauses_from_ok 0 (Py.split_on (Ascii.ascii_of_nat 46) text))
    as (Hlen & _ & Hnodup & Hall).
  split; [done|]. split; [done|].
  eapply Forall_impl; [exact Hall|].
  intros c (Hlong & Htype & _ & Hs). cbn zeta.
  destruct (classify_clause_cases (LLMService.clause_text c))
    as (Hin & Hcover & Hexcl).
  rewrite Htype. split; [done|]. split; [done|]. split; [done|].
  split; [|done].
  intros Hn. apply Hcover. by apply (contains_app_r "not " "cover").
Qed.

(** X15. The two calls that use the language model absorb every failure
    of the pipeline, of the tokenizer and of the JSON parser: the only
    exception they raise is the one of loading the tokenizer at the first
    use, which leaves the service as it was. An answer that is returned
    always carries its [token_usage], and the service is initialised
    afterwards. *)
Theorem language_model_raises_only_at_first_use
    (query : string) (relevant_chunks : list EmbeddingService.chunk_info)
    (domain : option string) (st : LLMService.t) :
  (∀ st' e,
     generate_answer query relevant_chunks domain st = (st', inl e)
     ↔ LLMService.is_initialized st = false
       ∧ load_tokenizer = inl e ∧ st' = st)
  ∧ (∀ st' e,
       extract_structured_query query domain st = (st', inl e)
       ↔ LLMService.is_initialized st = false
         ∧ load_tokenizer = inl e ∧ st' = st)
  ∧ (∀ st' data,
       generate_answer query relevant_chunks domain st = (st', inr data) →
       is_Some (LLMService.token_usage data)
       ∧ LLMService.is_initialized st' = true).
Proof.
  unfold LLMService.generate_answer, LLMService.extract_structured_query.
  destruct (llm_initialize_cases st)
    as [(st1 & Hrun & Hinit1)|(e0 & Hrun & Hinit & Htok)]; rewrite Hrun.
  - assert (∀ e, ¬ (LLMService.is_initialized st = false
                    ∧ load_tokenizer = inl e)) as Hno.
    { intros e [Hinit Htok]. unfold LLMService.initialize in Hrun.
      by rewrite Hinit, Htok in Hrun. }
    split; [|split].
    + intros st' e. split; [by intros [=]|].
      intros (Hinit & Htok & _). by destruct (Hno e).
    + intros st' e. split; [by intros [=]|].
      intros (Hinit & Htok & _). by destruct (Hno e).
    + intros st' data [= <- <-]. split; [|done].
      destruct (LLMService.pipeline st1) as [generate|];
        [|by destruct relevant_chunks; eexists].
      destruct (generate _) as [?|response];
        [by destruct relevant_chunks; eexists|].
      destruct (LLMService.tokenizer_encode _ _) as [?|tokens];
        [by destruct relevant_chunks; eexists|].
      destruct (re_search_json response) as [json_match|];
        [|by destruct relevant_chunks; eexists].
      destruct (json_loads_answer json_match) as [?|result];
        [by destruct relevant_chunks; eexists | by eexists].
  - split; [|split].
    + intros st' e. split.
      * by intros [= <- <-].
      * intros (_ & Htok' & ->). rewrite Htok in Htok'.
        by injection Htok' as <-.
    + intros st' e. split.
      * by intros [= <- <-].
      * intros (_ & Htok' & ->). rewrite Htok in Htok'.
        by injection Htok' as <-.
    + by intros st' data [=].
Qed.

End language_model.

Lemma extract_key_clauses_shape_witness :
  ∃ clauses,
    LLMService.extract_key_clauses no_model no_model
      "Knee surgery is not covered by this policy. Short." None
      llm_without_model
    = (llm_without_model, inr clauses)
    ∧ NoDup (LLMService.clause_id <$> clauses).
Proof.
  destruct (extract_key_clauses_shape no_model no_model
              "Knee surgery is not covered by this policy. Short." None
              llm_without_model eq_refl)
    as (clauses & Hrun & _ & Hnodup & _).
  exists clauses. split; [exact Hrun | exact Hnodup].
Defined.

Lemma substring_0_length (n : nat) (s : string) :
  String.length (String.substring 0 n s) = Nat.min n (String.length s).
Proof.
  revert s. induction n as [|n IH]; intros s.
  - by destruct s.
  - destruct s as [|c s]; [done|]. simpl. by rewrite IH.
Qed.

(** X16. The query structure the rules extract, for every query and
    domain. The intent is [coverage_check] exactly when the lowered query
    contains [cover] (the words [covered] and [coverage] add nothing), and
    it is one of the four intents; the question type is one of the three
    types; the keywords are words of the query in their order, at most
    ten, each longer than three characters; the subject is the query
    itself up to 50 characters and never longer than 53; no entity is
    extracted. *)
Theorem rule_based_extraction_shape
    (query : string) (domain : option string) :
  let sq := LLMService._rule_based_extraction query domain in
  (LLMService.intent sq = "coverage_check"
   ↔ Py.contains "cover" (Py.lower query) = true)
  ∧ LLMService.intent sq
      ∈ ["coverage_check"; "exclusion_check"; "condition_check";
         "general_inquiry"]
  ∧ LLMService.question_type sq ∈ ["yes_no"; "conditional"; "explanatory"]
  ∧ LLMService.keywords sq `sublist_of` Py.split query
  ∧ (length (LLMService.keywords sq) ≤ 10)%nat
  ∧ Forall (λ word, 3 < DocumentParser.str_len word) (LLMService.keywords sq)
  ∧ DocumentParser.str_len (LLMService.subject sq) ≤ 53
  ∧ (DocumentParser.str_len query ≤ 50 → LLMService.subject sq = query)
  ∧ LLMService.entities sq = [].
Proof.
  intros sq. unfold sq, LLMService._rule_based_extraction.
  cbn [LLMService.intent LLMService.question_type LLMService.keywords
       LLMService.subject LLMService.entities].
  set (q := Py.lower query).
  split; [|split; [|split; [|split; [|split; [|split; [|split; [|split]]]]]]].
  - unfold LLMService.any_in at 1. cbn [existsb].
    destruct (Py.contains "cover" q) eqn:Hcover; cbn [orb]; [done|].
    assert (Py.contains "covered" q = false) as ->.
    { destruct (Py.contains "covered" q) eqn:Hc; [|done].
      apply (contains_app_l "cover" "ed") in Hc. congruence. }
    assert (Py.contains "coverage" q = false) as ->.
    { destruct (Py.contains "coverage" q) eqn:Hc; [|done].
      apply (contains_app_l "cover" "age") in Hc. congruence. }
    cbn [orb].
    split; [|done].
    by repeat (destruct (LLMService.any_in _ _)).
  - repeat (destruct (LLMService.any_in _ _)); set_solver.
  - destruct (existsb _ _); [set_solver|].
    destruct (LLMService.any_in _ _); set_solver.
  - rewrite slice_to_nonneg by done.
    etrans; [apply sublist_take | apply sublist_filter].
  - rewrite slice_to_nonneg by done. rewrite length_take. lia.
  - rewrite slice_to_nonneg by done. apply Forall_take.
    apply Forall_forall. intros word Hword.
    by apply list_elem_of_filter in Hword as [[? _] _].
  - destruct (Z.ltb_spec 50 (DocumentParser.str_len query)) as [Hlong|Hshort];
      [|lia].
    unfold DocumentParser.str_len, Py.str_slice_to, Py.clamp_index in *.
    rewrite str_app_length, substring_0_length. simpl. lia.
  - intros Hshort.
    by destruct (Z.ltb_spec 50 (DocumentParser.str_len query)); [lia|].
  - done.
Qed.

(** ** The reranker: edge values and failures *)

Lemma slice_to_negative {A} (l : list A) (k : Z) :
  k < 0 → Py.slice_to l k = take (length l - Z.to_nat (- k)) l.
Proof.
  intros Hk. unfold Py.slice_to, Py.slice, Py.clamp_index, Py.len.
  destruct (Z.ltb_spec 0 0) as [?|_]; [lia|].
  destruct (Z.ltb_spec k 0) as [_|?]; [|lia].
  replace (Z.to_nat (Z.max 0 (Z.min (Z.of_nat (length l)) 0))) with 0%nat
    by lia.
  rewrite drop_0. f_equal. lia.
Qed.

Lemma descending_take {A} (key : A → Q) (n : nat) (l : list A) :
  descending key l → descending key (take n l).
Proof.
  intros Hl. rewrite <- (take_drop n l) in Hl.
  by apply StronglySorted_app_1_l in Hl.
Qed.

Lemma descending_drop {A} (key : A → Q) (n : nat) (l : list A) :
  descending key l → descending key (drop n l).
Proof.
  intros Hl. rewrite <- (take_drop n l) in Hl.
  by apply StronglySorted_app_1_r in Hl.
Qed.

Lemma descending_slice_to {A} (key : A → Q) (l : list A) (k : Z) :
  descending key l → descending key (Py.slice_to l k).
Proof.
  intros Hl. unfold Py.slice_to, Py.slice.
  by apply descending_take, descending_drop.
Qed.

Section reranker_edges.

Import EmbeddingService RerankingService.

Variable load_cross_encoder : Py.result (string → string → Q).
Variable load_bi_encoder : Py.result RerankingService.bi_model.

Local Abbreviation initialize :=
  (RerankingService.initialize load_cross_encoder load_bi_encoder).
Local Abbreviation rerank_results :=
  (RerankingService.rerank_results load_cross_encoder load_bi_encoder).

(** What [rerank_results] returns whenever it returns: a list in
    descending order of [combined_score], of at most [top_k] results when
    the [top_k] in force is positive. *)
Lemma rerank_results_returned (query : string)
    (search_results : list chunk_info) (top_k : option Z) (st st' : t)
    (updated returned : list chunk_info) :
  rerank_results query search_results top_k st
  = (st', inr (updated, returned)) →
  descending combined_key returned
  ∧ (0 < Py.int_or top_k settings.TOP_K_RERANK →
       Z.of_nat (length returned) ≤ Py.int_or top_k settings.TOP_K_RERANK).
Proof.
  unfold RerankingService.rerank_results.
  destruct (initialize st) as [st1 [e|[]]]; [by intros [=]|].
  destruct search_results as [|r search_results].
  { intros [= <- <- <-]. split; [constructor | simpl; lia]. }
  destruct (model st1) as [m|]; [|by intros [=]].
  intros [= <- <- <-]. split.
  - apply descending_slice_to.
    exact (sorted_desc_descending combined_key
             (map (score_result m query) (r :: search_results))).
  - intros Hk. rewrite slice_to_nonneg by lia. rewrite length_take. lia.
Qed.

Lemma rerank_results_scored (query : string)
    (search_results : list chunk_info) (top_k : option Z) (st st' : t)
    (updated returned : list chunk_info) :
  rerank_results query search_results top_k st
  = (st', inr (updated, returned)) →
  Forall (λ r, is_Some (combined_score r)) returned.
Proof.
  unfold RerankingService.rerank_results.
  destruct (initialize st) as [st1 [e|[]]]; [by intros [=]|].
  destruct search_results as [|r0 search_results].
  { intros [= <- <- <-]. constructor. }
  destruct (model st1) as [m|]; [|by intros [=]].
  intros [= <- <- <-]. apply Forall_forall. intros r Hr.
  apply slice_subseteq in Hr.
  assert (r ∈ map (score_result m query) (r0 :: search_results)) as Hin.
  { by rewrite <- (sorted_desc_perm combined_key). }
  apply list_elem_of_fmap in Hin as (r1 & -> & _).
  apply score_result_combined.
Qed.

(** X17. A negative [top_k] is not rejected by the reranker: on an
    initialised service it returns the sorted candidates without the
    [-top_k] last ones (none when there are no more than that). *)
Theorem rerank_negative_top_k_drops_last
    (m : reranker) (query : string) (search_results : list chunk_info)
    (k : Z) (st : t)
    (Hready : reranker_ready m st) (Hk : k < 0) :
  let scored := score_result m query <$> search_results in
  let sorted := Py.sorted_desc combined_key scored in
  rerank_results query search_results (Some k) st
  = (st, inr (scored, take (length search_results - Z.to_nat (- k)) sorted))
  ∧ (Py.len search_results ≤ - k →
       rerank_results query search_results (Some k) st
       = (st, inr (scored, []))).
Proof.
  intros scored sorted.
  assert (rerank_results query search_results (Some k) st
          = (st, inr (scored,
                      take (length search_results - Z.to_nat (- k)) sorted)))
    as Hrun.
  { rewrite (rerank_results_ready load_cross_encoder load_bi_encoder m)
      by done.
    destruct search_results as [|r rest]; [done|].
    assert (Py.int_or (Some k) settings.TOP_K_RERANK = k) as ->.
    { unfold Py.int_or. by destruct (Z.eqb_spec k 0); [lia|]. }
    rewrite slice_to_negative by done.
    assert (length (Py.sorted_desc combined_key
                      (score_result m query <$> r :: rest))
            = length (r :: rest)) as ->; [|done].
    rewrite (Permutation_length (sorted_desc_perm _ _)).
    by rewrite length_fmap. }
  split; [done|]. intros Hlen. rewrite Hrun. unfold Py.len in Hlen.
  replace (length search_results - Z.to_nat (- k))%nat with 0%nat by lia.
  done.
Qed.

(** X18. The exceptions of [rerank_results] on a service that is not
    initialised are those of loading the model, and they are raised for
    an empty candidate list too: the exception of the cross-encoder unless
    it is [ImportError], and then the exception of the bi-encoder. The
    service stays uninitialised. When a model loads, the call returns and
    the service is initialised. *)
Theorem rerank_raises_when_no_model_loads
    (query : string) (search_results : list chunk_info) (top_k : option Z)
    (st : t) (Hnew : is_initialized st = false) :
  (∀ st' e,
     rerank_results query search_results top_k st = (st', inl e)
     ↔ st' = st
       ∧ ((load_cross_encoder = inl e ∧ e ≠ Py.ImportError)
          ∨ (load_cross_encoder = inl Py.ImportError
             ∧ load_bi_encoder = inl e)))
  ∧ (∀ st' r,
       rerank_results query search_results top_k st = (st', inr r) →
       is_initialized st' = true ∧ is_Some (model st')).
Proof.
  unfold RerankingService.rerank_results, RerankingService.initialize.
  rewrite Hnew.
  destruct load_cross_encoder as [e1|predict].
  - destruct e1;
      try (split;
           [intros st' e; split;
            [intros [= <- <-]; split; [done|]; left;
             split; [done | discriminate]
            |intros [-> [[[= <-] _]|[[=] _]]]; done]
           |by intros st' r [=]]).
    destruct load_bi_encoder as [e2|encode].
    + split.
      * intros st' e. split.
        -- intros [= <- <-]. split; [done|]. by right.
        -- intros [-> [[[= <-] Hne]|[_ [= <-]]]]; done.
      * by intros st' r [=].
    + split.
      * intros st' e. split.
        -- cbn [model]. by destruct search_results.
        -- intros [-> [[[= <-] Hne]|[_ [=]]]]; done.
      * cbn [model]. intros st' r.
        destruct search_results; intros [= <- _]; by eauto.
  - split.
    + intros st' e. split.
      * cbn [model]. by destruct search_results.
      * by intros [_ [[[=] _]|[[=] _]]].
    + cbn [model]. intros st' r.
      destruct search_results; intros [= <- _]; by eauto.
Qed.

End reranker_edges.

Lemma rerank_negative_top_k_drops_last_witness :
  RerankingService.rerank_results no_model no_model "hello"
    [example_result] (Some (-1)) example_reranker
  = (example_reranker,
     inr (RerankingService.score_result
            (RerankingService.cross_encoder constant_predict) "hello"
            <$> [example_result],
          [])).
Proof.
  apply (rerank_negative_top_k_drops_last no_model no_model
           (RerankingService.cross_encoder constant_predict) "hello"
           [example_result] (-1) example_reranker eq_refl);
    [lia | unfold Py.len; simpl; lia].
Defined.

Lemma rerank_raises_when_no_model_loads_witness :
  RerankingService.rerank_results no_model no_model "hello" [] None
    RerankingService.new
  = (RerankingService.new, inl Py.OSError).
Proof.
  apply (rerank_raises_when_no_model_loads no_model no_model "hello" []
           None RerankingService.new eq_refl).
  split; [reflexivity|]. left. split; [reflexivity | discriminate].
Defined.

(** ** The orchestrator: what is recorded, and generated answers *)

Lemma clause_matches_scores (chunks : list EmbeddingService.chunk_info)
    (clauses : list QueryProcessor.ClauseMatch) :
  QueryProcessor.clause_matches chunks = inr clauses →
  Forall2 (λ chunk clause,
             EmbeddingService.combined_score chunk
             = Some (QueryProcessor.relevance_score clause)
             ∧ QueryProcessor.clause_id clause
               = EmbeddingService.chunk_id chunk
             ∧ QueryProcessor.clause_text clause
               = EmbeddingService.text chunk)
          chunks clauses.
Proof.
  revert clauses. induction chunks as [|chunk chunks IH]; intros clauses.
  - intros [= <-]. constructor.
  - cbn [QueryProcessor.clause_matches]. unfold QueryProcessor.clause_match.
    destruct (EmbeddingService.combined_score chunk) as [score|] eqn:Hscore;
      [|by intros [=]].
    destruct (QueryProcessor.clause_matches chunks) as [e|rest];
      [by intros [=]|].
    intros [= <-]. constructor; [by rewrite Hscore | by apply IH].
Qed.

Lemma clause_matches_descending (chunks : list EmbeddingService.chunk_info)
    (clauses : list QueryProcessor.ClauseMatch) :
  QueryProcessor.clause_matches chunks = inr clauses →
  descending RerankingService.combined_key chunks →
  descending QueryProcessor.relevance_score clauses
  ∧ length clauses = length chunks.
Proof.
  intros Hrun. apply clause_matches_scores in Hrun.
  induction Hrun as [|chunk clause chunks clauses (Hscore & _) Hrest IH].
  - split; [constructor | done].
  - intros Hsorted. apply StronglySorted_cons in Hsorted as [Hle Hsorted].
    destruct (IH Hsorted) as [IHsorted IHlen].
    split; [|by simpl; rewrite IHlen].
    constructor; [done|].
    eapply Forall2_Forall_r; [exact Hrest|].
    eapply Forall_impl; [exact Hle|].
    intros chunk' Hchunk' clause' (Hscore' & _).
    unfold RerankingService.combined_key in Hchunk'.
    by rewrite Hscore, Hscore' in Hchunk'.
Qed.

Section orchestrator.

Import EmbeddingService QueryProcessor.

Variable load_model : Py.result (string → Faiss.vector).
Variable read_index : string → Py.result (list Faiss.vector).
Variable json_load : string → Py.result (list (string * chunk_info)).
Variable int_of_key : string → Py.result Z.
Variable fs : files.
Variable load_cross_encoder : Py.result (string → string → Q).
Variable load_bi_encoder : Py.result RerankingService.bi_model.
Variable load_tokenizer : Py.result (string → Py.result (list Z)).
Variable load_pipeline : Py.result (string → Py.result string).
Variable re_search_json : string → option string.
Variable json_loads_query : string → Py.result LLMService.structured_query.
Variable json_loads_answer : string → Py.result LLMService.answer_data.
Variable extraction_prompt : string → string → string.
Variable answer_prompt : string → string → string → string.
Variable format_3f : Q → string.

Local Abbreviation process_query :=
  (process_query load_model read_index json_load int_of_key fs
     load_cross_encoder load_bi_encoder load_tokenizer load_pipeline
     re_search_json json_loads_query json_loads_answer extraction_prompt
     answer_prompt format_3f).

Lemma assemble_returns (the_query_id : string) (elapsed_ms : Q)
    (query_request : QueryRequest) (reranked_results : list chunk_info)
    (data : LLMService.answer_data) (response : QueryResponse) :
  assemble the_query_id elapsed_ms query_request reranked_results data
  = inr response →
  clause_matches reranked_results = inr (matched_clauses response)
  ∧ query_id response = the_query_id
  ∧ response_query response = query query_request
  ∧ processing_time_ms response = elapsed_ms
  ∧ LLMService.answer data = Some (answer response)
  ∧ LLMService.reasoning data = Some (reasoning (rationale response))
  ∧ LLMService.confidence data
    = Some (confidence_score (rationale response))
  ∧ decision response = LLMService.decision data
  ∧ token_usage response = LLMService.token_usage data.
Proof.
  unfold assemble.
  destruct (clause_matches reranked_results) as [e|clauses]; [by intros [=]|].
  destruct (LLMService.reasoning data) as [x1|]; [|by intros [=]].
  destruct (LLMService.supporting_evidence data) as [x2|]; [|by intros [=]].
  destruct (LLMService.confidence data) as [x3|]; [|by intros [=]].
  destruct (LLMService.key_factors data) as [x4|]; [|by intros [=]].
  destruct (LLMService.answer data) as [x5|]; [|by intros [=]].
  by intros [= <-].
Qed.

(** X19. What [process_query] records and returns, for every state of
    the services and every behaviour of the models. A call that raises
    leaves the recorded queries as they were; a call that returns has
    recorded exactly one more query, under the identifier of the
    response. The matched clauses of a response are in descending order
    of relevance, and there are at most [max_results] of them (at most 5
    when [max_results] is left out or [0]). *)
Theorem process_query_records_what_it_returns
    (the_query_id : string) (elapsed_ms : Q)
    (query_request : QueryRequest) (w : world) :
  match process_query the_query_id elapsed_ms query_request w with
  | (w', inl _) => db w' = db w
  | (w', inr response) =>
      db w' = store_query_in_db the_query_id query_request response (db w)
      ∧ length (db w') = S (length (db w))
      ∧ (id <$> last (db w')) = Some (query_id response)
      ∧ query_id response = the_query_id
      ∧ response_query response = query query_request
      ∧ descending relevance_score (matched_clauses response)
      ∧ (0 < Py.int_or (max_results query_request) settings.TOP_K_RERANK →
           Z.of_nat (length (matched_clauses response))
           ≤ Py.int_or (max_results query_request) settings.TOP_K_RERANK)
  end.
Proof.
  unfold QueryProcessor.process_query.
  destruct w as [es rs ls rows]. cbn [embedding_service reranking_service
    llm_service db].
  destruct (LLMService.extract_structured_query _ _ _ _ _ _ _ _)
    as [ls1 [e|sq]]; [done|].
  destruct (retrieve _ _ _ _ _ _ _) as [es1 [e|document_results]]; [done|].
  destruct (RerankingService.rerank_results _ _ _ _ _ _)
    as [rs1 [e|[updated reranked_results]]] eqn:Hrerank; [done|].
  destruct (LLMService.generate_answer _ _ _ _ _ _ _ _ _ _)
    as [ls2 [e|data]]; [done|].
  destruct (assemble _ _ _ _ _) as [e|response] eqn:Hassemble; [done|].
  cbn [db].
  apply assemble_returns in Hassemble
    as (Hclauses & Hid & Hquery & _).
  apply (rerank_results_returned load_cross_encoder load_bi_encoder)
    in Hrerank as [Hsorted Hbound].
  destruct (clause_matches_descending _ _ Hclauses Hsorted) as [Hdesc Hlen].
  split; [done|]. unfold store_query_in_db.
  split; [rewrite length_app; simpl; lia|].
  split; [rewrite last_snoc; simpl; by rewrite Hid|].
  split; [done|]. split; [done|]. split; [done|].
  by rewrite Hlen.
Qed.

(** X20. A generated answer is taken as it is parsed. When the
    language-model service is initialised with a pipeline, retrieval and
    reranking return, and the text the pipeline generates for the answer
    prompt holds a JSON object that parses, [process_query] raises
    [KeyError], records nothing and does not fall back to the rules if one
    of the keys [answer], [reasoning], [supporting_evidence], [confidence]
    and [key_factors] is missing from the object; when all five are there
    it returns a response with the answer, the decision and the confidence
    of the object (not capped as the rule-based confidence is) and, as
    [token_usage], the number of tokens the tokenizer gives for the prompt
    followed by the generated text. What the pipeline generates for the
    extraction prompt does not matter. *)
Theorem process_query_takes_generated_answer_as_parsed
    (the_query_id : string) (elapsed_ms : Q)
    (query_request : QueryRequest) (w : world)
    (generate : string → Py.result string)
    (tok : string → Py.result (list Z))
    (es' : EmbeddingService.t) (rs' : RerankingService.t)
    (document_results updated reranked_results : list chunk_info)
    (generated : string) (tokens : list Z) (json_match : string)
    (parsed : LLMService.answer_data)
    (Hllm : llm_service w = LLMService.Service (Some tok) (Some generate) true)
    (Hretrieve : retrieve load_model read_index json_load int_of_key fs
                   query_request (embedding_service w)
                 = (es', inr document_results))
    (Hrerank : RerankingService.rerank_results load_cross_encoder
                 load_bi_encoder (query query_request) document_results
                 (max_results query_request) (reranking_service w)
               = (rs', inr (updated, reranked_results)))
    (Hgenerate :
       generate
         (answer_prompt
            (LLMService.domain_clause
               (λ d, " This is in the " +:+ d +:+ " domain.")
               (domain_name query_request))
            (query query_request)
            (LLMService._prepare_context format_3f reranked_results))
       = inr generated)
    (Htokens :
       tok (answer_prompt
              (LLMService.domain_clause
                 (λ d, " This is in the " +:+ d +:+ " domain.")
                 (domain_name query_request))
              (query query_request)
              (LLMService._prepare_context format_3f reranked_results)
            +:+ generated)
       = inr tokens)
    (Hmatch : re_search_json generated = Some json_match)
    (Hparsed : json_loads_answer json_match = inr parsed) :
  let complete :=
    is_Some (LLMService.answer parsed)
    ∧ is_Some (LLMService.reasoning parsed)
    ∧ is_Some (LLMService.supporting_evidence parsed)
    ∧ is_Some (LLMService.confidence parsed)
    ∧ is_Some (LLMService.key_factors parsed) in
  (¬ complete →
     process_query the_query_id elapsed_ms query_request w
     = (World es' rs' (llm_service w) (db w), inl Py.KeyError))
  ∧ (complete →
       ∃ response,
         process_query the_query_id elapsed_ms query_request w
         = (World es' rs' (llm_service w)
              (store_query_in_db the_query_id query_request response (db w)),
            inr response)
         ∧ LLMService.answer parsed = Some (answer response)
         ∧ decision response = LLMService.decision parsed
         ∧ LLMService.confidence parsed
           = Some (confidence_score (rationale response))
         ∧ token_usage response = Some (Py.len tokens)).
Proof.
  intros complete.
  destruct w as [es rs ls rows]. cbn [embedding_service reranking_service
    llm_service db] in *. subst ls.
  pose proof (rerank_results_scored load_cross_encoder load_bi_encoder
                _ _ _ _ _ _ _ Hrerank) as Hscores.
  destruct (clause_matches_total _ Hscores) as (clauses & Hclauses & _).
  assert (∀ r,
            assemble the_query_id elapsed_ms query_request reranked_results
              (LLMService.set_token_usage (Py.len tokens) parsed) = r →
            process_query the_query_id elapsed_ms query_request
              (World es rs (LLMService.Service (Some tok) (Some generate) true)
                 rows)
            = match r with
              | inl e =>
                  (World es' rs'
                     (LLMService.Service (Some tok) (Some generate) true)
                     rows, inl e)
              | inr response =>
                  (World es' rs'
                     (LLMService.Service (Some tok) (Some generate) true)
                     (store_query_in_db the_query_id query_request response
                        rows), inr response)
              end) as Hrun.
  { intros r Hr. unfold QueryProcessor.process_query.
    cbn [embedding_service reranking_service llm_service db].
    unfold LLMService.extract_structured_query, LLMService.initialize.
    cbn [LLMService.is_initialized LLMService.pipeline].
    unfold mret, result_ret, Py.ret. cbv beta iota.
    rewrite Hretrieve, Hrerank.
    unfold LLMService.generate_answer, LLMService.initialize,
      LLMService.tokenizer_encode.
    cbn [LLMService.is_initialized LLMService.pipeline LLMService.tokenizer].
    rewrite Hgenerate, Htokens, Hmatch, Hparsed.
    unfold mret, result_ret, Py.ret. cbv beta iota.
    rewrite Hr. by destruct r. }
  unfold assemble in Hrun. rewrite Hclauses in Hrun.
  cbn [LLMService.set_token_usage LLMService.reasoning
       LLMService.supporting_evidence LLMService.confidence
       LLMService.key_factors LLMService.answer LLMService.decision
       LLMService.token_usage LLMService.conflicting_evidence] in Hrun.
  unfold complete.
  destruct (LLMService.reasoning parsed) as [x1|];
    [|split; [intros _; by rewrite (Hrun _ eq_refl)
             |by intros (_ & [? [=]] & _)]].
  destruct (LLMService.supporting_evidence parsed) as [x2|];
    [|split; [intros _; by rewrite (Hrun _ eq_refl)
             |by intros (_ & _ & [? [=]] & _)]].
  destruct (LLMService.confidence parsed) as [x3|];
    [|split; [intros _; by rewrite (Hrun _ eq_refl)
             |by intros (_ & _ & _ & [? [=]] & _)]].
  destruct (LLMService.key_factors parsed) as [x4|];
    [|split; [intros _; by rewrite (Hrun _ eq_refl)
             |by intros (_ & _ & _ & _ & [? [=]])]].
  destruct (LLMService.answer parsed) as [x5|];
    [|split; [intros _; by rewrite (Hrun _ eq_refl)
             |by intros ([? [=]] & _)]].
  split.
  - intros Hnot. destruct Hnot. by repeat split.
  - intros _. eexists. rewrite (Hrun _ eq_refl). by repeat split.
Qed.

End orchestrator.

Lemma process_query_takes_generated_answer_as_parsed_witness :
  let w :=
    QueryProcessor.World example_service example_reranker
      llm_with_pipeline [] in
  QueryProcessor.process_query (inr unit_encode) no_read_index no_json_load
    no_int_of_key no_files no_model no_model no_model no_model whole_match
    no_json_query empty_answer plain_prompt plain_answer_prompt plain_format
    "q-1" 0%Q example_request w
  = (w, inl Py.KeyError).
Proof.
  intros w.
  pose (found :=
          EmbeddingService.set_similarity_score
            (Faiss.inner_product (unit_encode "Is surgery covered?")
               (unit_encode "hello"))
            (EmbeddingService.chunk_entry "doc" example_chunk)).
  pose (scored :=
          RerankingService.score_result
            (RerankingService.cross_encoder constant_predict)
            "Is surgery covered?" found).
  apply (process_query_takes_generated_answer_as_parsed
           (inr unit_encode) no_read_index no_json_load no_int_of_key
           no_files no_model no_model no_model no_model whole_match
           no_json_query empty_answer plain_prompt plain_answer_prompt
           plain_format "q-1" 0%Q example_request w
           empty_object_pipeline unit_tokenizer
           example_service example_reranker [found] [scored] [scored]
           "{}" [0] "{}"
           (LLMService.AnswerData None None None None None None None None
              None)
           eq_refl eq_refl eq_refl eq_refl eq_refl eq_refl eq_refl).
  intros ([x Hx] & _). discriminate Hx.
Defined.

(** ** The sentence-mode chunker loses no word *)

Lemma fresh_words_snoc (overlap : Z) (skip : nat)
    (chunks : list DocumentParser.chunk) (c : DocumentParser.chunk) :
  fresh_words overlap skip (chunks ++ [c])
  = fresh_words overlap skip chunks
    ++ drop (carried overlap skip chunks) (Py.split (DocumentParser.text c)).
Proof.
  revert skip. induction chunks as [|c0 chunks IH]; intros skip.
  - simpl. by rewrite app_nil_r.
  - cbn [app fresh_words]. rewrite IH, <- app_assoc. do 2 f_equal.
    unfold carried. destruct chunks as [|c1 chunks]; [done|].
    rewrite last_cons_cons.
    destruct (last (c1 :: chunks)) eqn:Hlast; [done|].
    by apply last_None in Hlast.
Qed.

Lemma carried_snoc (overlap : Z) (skip : nat)
    (chunks : list DocumentParser.chunk) (c : DocumentParser.chunk) :
  carried overlap skip (chunks ++ [c])
  = Z.to_nat (Z.min overlap (DocumentParser.word_count c)).
Proof. unfold carried. by rewrite last_snoc. Qed.

Lemma overlap_text_split (text : string) (overlap : Z) :
  0 < overlap →
  Py.split (DocumentParser._get_overlap_text text overlap)
  = drop (length (Py.split text) - Z.to_nat overlap) (Py.split text).
Proof.
  intros Hpos. unfold DocumentParser._get_overlap_text.
  destruct (Z.leb_spec (Py.len (Py.split text)) overlap) as [Hle|Hgt].
  - unfold Py.len in Hle.
    by replace (length (Py.split text) - Z.to_nat overlap)%nat
      with 0%nat by lia.
  - rewrite split_join by apply Forall_slice, split_words.
    by apply slice_from_negative.
Qed.

Lemma intelligent_step_words (chunk_size overlap : Z)
    (a : DocumentParser.acc) (sentence : string) (j : nat)
    (words : list string) :
  0 < overlap →
  chunker_state_ok a j →
  (carried overlap 0 (DocumentParser.chunks a)
   ≤ length (Py.split (DocumentParser.current_chunk a)))%nat →
  fresh_words overlap 0 (DocumentParser.chunks a)
  ++ drop (carried overlap 0 (DocumentParser.chunks a))
          (Py.split (DocumentParser.current_chunk a))
  = words →
  let a' := DocumentParser.intelligent_step chunk_size overlap a sentence in
  (carried overlap 0 (DocumentParser.chunks a')
   ≤ length (Py.split (DocumentParser.current_chunk a')))%nat
  ∧ fresh_words overlap 0 (DocumentParser.chunks a')
    ++ drop (carried overlap 0 (DocumentParser.chunks a'))
            (Py.split (DocumentParser.current_chunk a'))
    = words ++ Py.split sentence.
Proof.
  intros Hpos (_ & Hsize & _ & _) Hcarried <-. cbn zeta.
  unfold DocumentParser.intelligent_step.
  destruct ((chunk_size <? _) && negb _).
  - cbn [DocumentParser.chunks DocumentParser.current_chunk].
    unfold DocumentParser.emit.
    rewrite carried_snoc, fresh_words_snoc. cbn [DocumentParser.text
      DocumentParser.word_count].
    rewrite split_strip, split_app_space, overlap_text_split by done.
    rewrite Hsize. unfold Py.len.
    set (ws := Py.split (DocumentParser.current_chunk a)).
    assert (length (drop (length ws - Z.to_nat overlap) ws)
            = Z.to_nat (Z.min overlap (Z.of_nat (length ws)))) as Hlen.
    { rewrite length_drop. lia. }
    split.
    + rewrite length_app, Hlen. lia.
    + by rewrite drop_app_length' by done.
  - cbn [DocumentParser.chunks DocumentParser.current_chunk].
    rewrite split_app_space. split.
    + rewrite length_app. lia.
    + rewrite drop_app_le by done. by rewrite app_assoc.
Qed.

Lemma intelligent_loop_words (chunk_size overlap : Z)
    (sentences : list string) (a : DocumentParser.acc) (j : nat)
    (words : list string) :
  0 < overlap →
  chunker_state_ok a j →
  (carried overlap 0 (DocumentParser.chunks a)
   ≤ length (Py.split (DocumentParser.current_chunk a)))%nat →
  fresh_words overlap 0 (DocumentParser.chunks a)
  ++ drop (carried overlap 0 (DocumentParser.chunks a))
          (Py.split (DocumentParser.current_chunk a))
  = words →
  let a' :=
    foldl (DocumentParser.intelligent_step chunk_size overlap) a sentences in
  fresh_words overlap 0 (DocumentParser.chunks a')
  ++ drop (carried overlap 0 (DocumentParser.chunks a'))
          (Py.split (DocumentParser.current_chunk a'))
  = words ++ concat (Py.split <$> sentences).
Proof.
  intros Hpos. revert a j words.
  induction sentences as [|s sentences IH]; intros a j words Hok Hc Hw.
  - simpl. by rewrite app_nil_r.
  - cbn [foldl fmap list_fmap concat].
    destruct (intelligent_step_words chunk_size overlap a s j words
                Hpos Hok Hc Hw) as [Hc' Hw'].
    rewrite app_assoc.
    by apply (IH _ (S j)); [apply intelligent_step_ok | |].
Qed.

(** X21. With a positive overlap the sentence-mode chunker loses no word
    and keeps their order: the words of the chunks, each without the
    [min(overlap, word_count)] words carried over from the chunk before
    it, are the words of the sentences of the detector, for every
    detector, text and chunk size. *)
Theorem intelligent_chunking_covers_sentences
    (sents : string → list string) (text : string)
    (chunk_size overlap : Z) (Hoverlap : 0 < overlap) :
  fresh_words overlap 0
    (DocumentParser._intelligent_chunking sents text chunk_size overlap)
  = concat (Py.split <$> sents text).
Proof.
  unfold DocumentParser._intelligent_chunking.
  assert (chunker_state_ok (DocumentParser.Acc [] EmptyString 0 0) 0)
    as Hinit.
  { split; [done|]. split; [done|]. split; [simpl; lia|].
    intros k c Hk. simpl in Hk. by rewrite lookup_nil in Hk. }
  pose proof (intelligent_loop_words chunk_size overlap
                (map Py.strip (sents text)) _ 0 [] Hoverlap Hinit
                ltac:(unfold carried; simpl; lia) eq_refl) as Hwords.
  cbn zeta in Hwords. cbn [app] in Hwords.
  assert (concat (Py.split <$> map Py.strip (sents text))
          = concat (Py.split <$> sents text)) as Hstrip.
  { f_equal. rewrite <- list_fmap_compose. apply list_fmap_ext.
    intros ? s _. apply split_strip. }
  rewrite Hstrip in Hwords. clear Hstrip.
  set (a := foldl _ _ _) in *.
  destruct (Py.str_is_empty (Py.strip (DocumentParser.current_chunk a)))
    eqn:Hlast.
  - apply str_is_empty_true in Hlast.
    assert (Py.split (DocumentParser.current_chunk a) = []) as Hnone.
    { by rewrite <- split_strip, Hlast. }
    by rewrite Hnone, drop_nil, app_nil_r in Hwords.
  - unfold DocumentParser.emit. rewrite fresh_words_snoc.
    cbn [DocumentParser.text]. by rewrite split_strip.
Qed.

Lemma intelligent_chunking_covers_sentences_witness :
  fresh_words 1 0
    (DocumentParser._intelligent_chunking
       (λ _, ["a b c."; "d e."; "f g h."]) "a b c. d e. f g h." 4 1)
  = ["a"; "b"; "c."; "d"; "e."; "f"; "g"; "h."].
Proof.
  apply (intelligent_chunking_covers_sentences
           (λ _, ["a b c."; "d e."; "f g h."]) "a b c. d e. f g h." 4 1).
  lia.
Defined.

(** ** The statistics along a run *)

Lemma size_list_to_set_le (l : list string) :
  (size (list_to_set l : gset string) ≤ length l)%nat.
Proof.
  induction l as [|x l IH]; [by rewrite list_to_set_nil, size_empty|].
  rewrite list_to_set_cons, size_union_alt, size_singleton. simpl.
  assert ((list_to_set l ∖ {[x]} : gset string) ⊆ list_to_set l) as Hsub.
  { intros y Hy. by apply elem_of_difference in Hy as [? _]. }
  apply subseteq_size in Hsub. lia.
Qed.

Section statistics_run.

Import EmbeddingService.

Variable load_model : Py.result (string → Faiss.vector).
Variable read_index : string → Py.result (list Faiss.vector).
Variable json_load : string → Py.result (list (string * chunk_info)).
Variable int_of_key : string → Py.result Z.
Variable fs : files.

Local Abbreviation run := (run load_model read_index json_load int_of_key fs).

(** X22. The statistics stay consistent along every run of
    [add_documents] and [remove_document] calls from a ready service
    whose index has a row per slot: [total_vectors] is the number of
    slots, removed ones included, [active_chunks] is at most that, and
    [unique_documents] is at most [active_chunks] and is [0] exactly when
    no chunk is active. *)
Theorem statistics_consistent_along_runs
    (ms : list mutation) (st : t)
    (Hready : ready st) (Haligned : aligned st) :
  ∃ s,
    get_stats (run ms st) = Some s
    ∧ total_vectors s = slots (run ms st)
    ∧ 0 ≤ unique_documents s
    ∧ unique_documents s ≤ stats_active_chunks s
    ∧ stats_active_chunks s ≤ total_vectors s
    ∧ (unique_documents s = 0 ↔ stats_active_chunks s = 0).
Proof.
  pose proof (run_preserves_ready load_model read_index json_load int_of_key
                fs ms st Hready) as (Hinit & _ & _ & _).
  destruct (run_preserves_aligned load_model read_index json_load int_of_key
              fs ms st Hready Haligned) as (ix & Hix & Hrows).
  set (st' := run ms st) in *.
  unfold get_stats. rewrite Hinit, Hix. eexists. split; [done|].
  cbn [total_vectors unique_documents stats_active_chunks].
  unfold Faiss.ntotal, Py.len, slots, active_chunks, active_documents.
  set (active := filter (λ kv : Z * chunk_info, is_deleted kv.2 = false)
                        (document_chunks st')).
  pose proof (size_list_to_set_le
                ((λ kv : Z * chunk_info, document_id kv.2)
                   <$> map_to_list active)) as Hle.
  rewrite length_fmap, length_map_to_list in Hle.
  pose proof (map_size_filter
                (λ kv : Z * chunk_info, is_deleted kv.2 = false)
                (document_chunks st')) as Hle'.
  fold active in Hle'.
  split; [lia|]. split; [lia|]. split; [lia|]. split; [lia|].
  split; [|lia].
  intros Hnone.
  assert (size (list_to_set
                  ((λ kv : Z * chunk_info, document_id kv.2)
                     <$> map_to_list active) : gset string) = 0%nat)
    as Hempty by lia.
  apply size_empty_inv in Hempty.
  destruct (map_to_list active) as [|kv l] eqn:Hl.
  - apply map_to_list_empty_iff in Hl. rewrite Hl, map_size_empty. lia.
  - exfalso. rewrite fmap_cons, list_to_set_cons in Hempty. set_solver.
Qed.

End statistics_run.

Lemma aligned_example : aligned example_service.
Proof. by exists [unit_encode "hello"]. Qed.

Lemma statistics_consistent_along_runs_witness :
  ∃ s,
    EmbeddingService.get_stats
      (run (inr unit_encode) no_read_index no_json_load no_int_of_key
         no_files [Add "a" [example_chunk]; Remove "doc"] example_service)
    = Some s
    ∧ EmbeddingService.stats_active_chunks s
      ≤ EmbeddingService.total_vectors s.
Proof.
  destruct (statistics_consistent_along_runs (inr unit_encode) no_read_index
              no_json_load no_int_of_key no_files
              [Add "a" [example_chunk]; Remove "doc"] example_service
              ready_example_service aligned_example)
    as (s & Hs & _ & _ & _ & Hle & _).
  exists s. split; [exact Hs | exact Hle].
Defined.

(** ** From the chunker to the index and back *)



Section end_to_end.

Import EmbeddingService.

Variable load_model : Py.result (string → Faiss.vector).
Variable read_index : string → Py.result (list Faiss.vector).
Variable json_load : string → Py.result (list (string * chunk_info)).
Variable int_of_key : string → Py.result Z.
Variable fs : files.

Local Abbreviation search :=
  (search load_model read_index json_load int_of_key fs).
Local Abbreviation add_documents :=
  (add_documents load_model read_index json_load int_of_key fs).

(** X23. A search that asks for at least as many results as the index
    has rows returns every slot: on a ready service whose index has a row
    per slot, the results are the entries of all the slots, each once and
    with the score of its row, in some order. *)
Theorem search_with_large_top_k_returns_every_slot
    (query : string) (top_k : Z) (st : t)
    (encode : string → Faiss.vector) (ix : list Faiss.vector)
    (Hready : ready st) (Hmodel : model st = Some encode)
    (Hindex : index st = Some ix)
    (Hrows : length ix = size (document_chunks st))
    (Hpos : 0 < top_k) (Hlarge : Z.of_nat (length ix) ≤ top_k) :
  ∃ results,
    search query (Some top_k) st = (st, inr results)
    ∧ results ≡ₚ hit_results (document_chunks st)
                   (Faiss.scored ix (encode query))
    ∧ length results = length ix
    ∧ ∀ (i : nat) row info,
        ix !! i = Some row →
        document_chunks st !! Z.of_nat i = Some info →
        set_similarity_score (Faiss.inner_product (encode query) row) info
          ∈ results.
Proof.
  destruct (search_aligned load_model read_index json_load int_of_key fs
              query top_k st encode ix Hready Hmodel Hindex Hrows Hpos)
    as [Hsearch Hinside].
  set (sorted := Py.sorted_desc fst (Faiss.scored ix (encode query))) in *.
  assert (length sorted = length ix) as Hlen.
  { unfold sorted. rewrite (Permutation_length (sorted_desc_perm _ _)).
    unfold Faiss.scored. by rewrite length_imap. }
  rewrite take_ge in Hsearch by lia.
  exists (hit_results (document_chunks st) sorted).
  split; [done|].
  assert (hit_results (document_chunks st) sorted
          ≡ₚ hit_results (document_chunks st)
               (Faiss.scored ix (encode query))) as Hperm.
  { unfold hit_results, sorted. by rewrite sorted_desc_perm. }
  split; [done|]. split.
  - destruct (hit_results_inside _ _ Hinside) as [-> _]. done.
  - intros i row info Hrow Hinfo. rewrite Hperm.
    apply hit_results_elem_of.
    exists (Faiss.inner_product (encode query) row, Z.of_nat i), info.
    split; [|done]. apply scored_elem_of. by exists i, row.
Qed.


End end_to_end.

Lemma search_with_large_top_k_returns_every_slot_witness :
  ∃ results,
    EmbeddingService.search (inr unit_encode) no_read_index no_json_load
      no_int_of_key no_files "hello" (Some 5) example_service
    = (example_service, inr results)
    ∧ length results = 1%nat.
Proof.
  destruct (search_with_large_top_k_returns_every_slot (inr unit_encode)
              no_read_index no_json_load no_int_of_key no_files "hello" 5
              example_service unit_encode [unit_encode "hello"]
              ready_example_service eq_refl eq_refl aligned_example_service
              ltac:(lia) ltac:(simpl; lia))
    as (results & Hsearch & _ & Hlen & _).
  exists results. split; [exact Hsearch | exact Hlen].
Defined.


(** ** A table with a missing key *)

Lemma collect_missing_key (dc : gmap Z EmbeddingService.chunk_info)
    (hits : list (Q * Z)) :
  Exists (λ h, 0 ≤ h.2 < Z.of_nat (size dc) ∧ dc !! h.2 = None) hits →
  EmbeddingService.collect dc hits = inl Py.KeyError.
Proof.
  induction hits as [|[score idx] hits IH]; intros Hex.
  - by apply Exists_nil in Hex.
  - cbn [EmbeddingService.collect].
    apply Exists_cons in Hex as [[Hin Hnone]|Hex]; simpl in *.
    + destruct (Z.leb_spec 0 idx); [|lia].
      destruct (Z.ltb_spec idx (Z.of_nat (size dc))); [|lia].
      simpl. by rewrite Hnone.
    + rewrite (IH Hex).
      destruct ((0 <=? idx) && (idx <? Z.of_nat (size dc))); [|done].
      by destruct (dc !! idx).
Qed.

Section missing_key.

Import EmbeddingService.

Variable load_model : Py.result (string → Faiss.vector).
Variable read_index : string → Py.result (list Faiss.vector).
Variable json_load : string → Py.result (list (string * chunk_info)).
Variable int_of_key : string → Py.result Z.
Variable fs : files.

Local Abbreviation search :=
  (search load_model read_index json_load int_of_key fs).

(** X25. [search] looks every hit below the size of the table up without
    a default. On an initialised service whose table has no entry under
    the number of a row that is among the hits, although the number is
    below the size of the table (a table restored from a metadata file
    whose keys are not [0 .. n-1]), [search] raises [KeyError] and returns
    no result at all. *)
Theorem search_raises_on_missing_slot
    (query : string) (top_k : Z) (st : t)
    (encode : string → Faiss.vector) (ix : list Faiss.vector)
    (hits : list (Q * Z))
    (Hinit : is_initialized st = true)
    (Hmodel : model st = Some encode)
    (Hindex : index st = Some ix)
    (Hpos : 0 < top_k)
    (Hhits : Faiss.search ix (encode query) top_k = inr hits)
    (Hmissing : Exists (λ h, 0 ≤ h.2 < slots st
                             ∧ document_chunks st !! h.2 = None) hits) :
  search query (Some top_k) st = (st, inl Py.KeyError).
Proof.
  unfold EmbeddingService.search, EmbeddingService.encode_query,
    EmbeddingService.model_encode.
  rewrite !(initialize_initialized _ _ _ _ _ _ Hinit). cbv beta iota.
  rewrite Hmodel. cbn [mbind result_bind Py.bind map mret result_ret Py.ret].
  rewrite Hindex.
  assert (Py.int_or (Some top_k) settings.MAX_RETRIEVAL_RESULTS = top_k)
    as ->.
  { unfold Py.int_or. by destruct (Z.eqb_spec top_k 0); [lia|]. }
  rewrite Hhits. cbn [mbind result_bind Py.bind].
  by rewrite collect_missing_key.
Qed.

End missing_key.

Lemma search_raises_on_missing_slot_witness :
  EmbeddingService.search (inr unit_encode) no_read_index no_json_load
    no_int_of_key no_files "hello" (Some 1) sparse_service
  = (sparse_service, inl Py.KeyError).
Proof.
  apply (search_raises_on_missing_slot (inr unit_encode) no_read_index
           no_json_load no_int_of_key no_files "hello" 1 sparse_service
           unit_encode [unit_encode "hello"]
           [(Faiss.inner_product (unit_encode "hello") (unit_encode "hello"),
             0)]
           eq_refl eq_refl eq_refl ltac:(lia) eq_refl).
  constructor. split; [split; [simpl; lia | reflexivity] | reflexivity].
Defined.
